(** * data-subscriber-query timer lambda: a shallow embedding

    The program under study is
    [src/lambdas/data-subscriber-query/data_subscriber_query_lambda.py]:
    an AWS Lambda handler that turns a scheduled EventBridge event into one
    job submission to the Mozart REST API.

    The three functions of the module ([submit_job], [lambda_handler],
    [get_temporal_start_datetime]) and its import-time prologue are embedded
    in [Module Lambda].  The library routines they call are embedded in the
    modules before it, each following the Python text of the library:

    - [PyStr]       builtins on [str]: [int], [str.lower], [re.search(r"\d+")],
                    ["%02d"]-style rendering;
    - [Pydatetime]  CPython's [datetime] ([_ymd2ord], [_ord2ymd], [timedelta],
                    [datetime.__add__], [strftime]);
    - [Dateutil]    [dateutil.relativedelta] and [dateutil.parser.isoparse];
    - [Json]        [json.dumps] on the values the handler serialises;
    - [Requests]    the shape of [requests.post], [Response.raise_for_status].

    The statements read a request back from its body with the readers of
    [WireSpec], a parser of form bodies and a reader of JSON texts, both
    written without reference to the encoders of [Requests] and [Json].

    Conventions.
    - A Python [str] is a Rocq [string]; each character stands for the code
      point of the same number (0..255).
    - Python integers are [Z]; [//] and [%] are [Z.div] and [Z.modulo].
    - A raised exception is the [Raise] case of [result]; code with effects (the
      HTTP POST) runs in the monad [M], whose state is the list of requests
      sent so far.
    - [logger] calls only format values that are already computed and never
      influence control flow; they are left out, and with them the [context]
      argument of the handler, which is only logged.
    - [strftime] is the C library's; the embedding follows glibc, which
      writes [%Y] without padding (the year 999 as [999]).
    - The interpreter is CPython 3.11: [distutils], which the module
      imports, is not part of later versions. *)

From Stdlib Require Import ZArith Lia List String Ascii Bool.
From Stdlib Require Import DecimalString DecimalZ DecimalPos.
From stdpp Require Import base option strings gmap.
Import ListNotations.

Local Open Scope string_scope.
Local Open Scope Z_scope.
Local Open Scope list_scope.
Set Warnings "-register-all".

(** ** Python values and exceptions *)

(** The values that cross the JSON boundary: what [Response.json()] returns,
    what [json.dumps] receives, and the trigger event.  A [dict] keeps its
    insertion order; lookups take the first binding of a key. *)
Inductive pyval : Type :=
| PNone
| PBool (b : bool)
| PInt (z : Z)
| PStr (s : string)
| PList (l : list pyval)
| PDict (d : list (string * pyval)).

(** The exception classes that the handler and its libraries can raise. *)
Inductive exn : Type :=
| KeyError (key : string)
| ValueError (msg : string)
| TypeError (msg : string)
| AttributeError (msg : string)
| OverflowError (msg : string)
| RuntimeError (msg : string)
| HTTPError (status_code : Z)
| RequestException (msg : string)
| JSONDecodeError (msg : string)
(** [Exception(f"{msg}{value}")] *)
| Exception_ (msg : string) (value : pyval).

Inductive result (A : Type) : Type :=
| Ok (a : A)
| Raise (e : exn).
Arguments Ok {A} a.
Arguments Raise {A} e.

Definition rbind {A B} (r : result A) (k : A -> result B) : result B :=
  match r with
  | Ok a => k a
  | Raise e => Raise e
  end.

Declare Scope result_scope.
Delimit Scope result_scope with result.
Notation "'let?' x := r 'in' k" := (rbind r (fun x => k))
  (at level 10, x pattern, r at level 100, k at level 200) : result_scope.

Definition is_ok {A} (r : result A) : bool :=
  match r with Ok _ => true | Raise _ => false end.

(** ** Builtins on strings *)
Module PyStr.

Definition ord (c : ascii) : Z := Z.of_N (N_of_ascii c).
Definition chr (n : Z) : ascii := ascii_of_N (Z.to_N n).

Definition chars (s : string) : list ascii := list_ascii_of_string s.
Definition str (cs : list ascii) : string := string_of_list_ascii cs.

Definition is_digit (c : ascii) : bool := (48 <=? ord c) && (ord c <=? 57).
Definition digit_value (c : ascii) : Z := ord c - 48.
Definition digit_char (d : Z) : ascii := chr (48 + d).

(** The white space that [int(str)] strips, on code points below 256:
    [Py_ISSPACE] below 127 (the string is read as it is there), and
    [Py_UNICODE_ISSPACE] from 127 on (NEL and the no-break space).  The
    separators 28..31 are not stripped: [int] raises on them. *)
Definition is_space_unicode (c : ascii) : bool :=
  let n := ord c in
  ((9 <=? n) && (n <=? 13)) || (n =? 32) || (n =? 133) || (n =? 160).

(** [Py_ISSPACE]: used by [int(bytes)]. *)
Definition is_space_ascii (c : ascii) : bool :=
  let n := ord c in ((9 <=? n) && (n <=? 13)) || (n =? 32).

Fixpoint lstrip (sp : ascii -> bool) (cs : list ascii) : list ascii :=
  match cs with
  | c :: cs' => if sp c then lstrip sp cs' else cs
  | [] => []
  end.

Definition strip (sp : ascii -> bool) (cs : list ascii) : list ascii :=
  rev (lstrip sp (rev (lstrip sp cs))).

(** The digit loop of [PyLong_FromString] in base 10: digits, with single
    underscores allowed between two digits. *)
Fixpoint int_body (acc : Z) (prev_underscore : bool) (cs : list ascii)
  : option Z :=
  match cs with
  | [] => if prev_underscore then None else Some acc
  | c :: cs' =>
      if is_digit c then int_body (acc * 10 + digit_value c) false cs'
      else if Ascii.eqb c "_"
           then if prev_underscore then None else int_body acc true cs'
           else None
  end.

(** [sys.get_int_max_str_digits()], at its default. *)
Definition MAX_STR_DIGITS : nat := 4300.

(** [int(s)]: surrounding white space, an optional sign, then the digits,
    at most [MAX_STR_DIGITS] of them.  [None] stands for [ValueError]. *)
Definition int_with (sp : ascii -> bool) (cs : list ascii) : option Z :=
  let cs := strip sp cs in
  let '(sign, body) :=
    match cs with
    | c :: r => if Ascii.eqb c "+" then (1, r)
                else if Ascii.eqb c "-" then (-1, r)
                else (1, cs)
    | [] => (1, cs)
    end in
  match body with
  | c :: _ =>
      if is_digit c
      then if (MAX_STR_DIGITS <? length (List.filter is_digit body))%nat
           then None
           else option_map (Z.mul sign) (int_body 0 false body)
      else None
  | [] => None
  end.

(** [int(s)] for a [str] *)
Definition int (s : string) : result Z :=
  match int_with is_space_unicode (chars s) with
  | Some z => Ok z
  | None => Raise (ValueError "invalid literal for int() with base 10")
  end.

(** [int(b)] for a [bytes] *)
Definition int_bytes (b : list ascii) : result Z :=
  match int_with is_space_ascii b with
  | Some z => Ok z
  | None => Raise (ValueError "invalid literal for int() with base 10")
  end.

(** [str.lower()] on code points below 256. *)
Definition lower_char (c : ascii) : ascii :=
  let n := ord c in
  if ((65 <=? n) && (n <=? 90))
     || ((192 <=? n) && (n <=? 222) && negb (n =? 215))
  then chr (n + 32) else c.

Definition lower (s : string) : string := str (map lower_char (chars s)).

(** [re.search(r"\d+", s)]: [Some] of the matched text ([m.group()]) for
    the leftmost match, which is greedy; [None] when there is no match.
    Below code point 256 the class [\d] is [0-9]. *)
Fixpoint take_digits (cs : list ascii) : list ascii :=
  match cs with
  | c :: cs' => if is_digit c then c :: take_digits cs' else []
  | [] => []
  end.

Fixpoint search_digits_chars (cs : list ascii) : option (list ascii) :=
  match cs with
  | [] => None
  | c :: cs' => if is_digit c then Some (take_digits cs)
                else search_digits_chars cs'
  end.

Definition search_digits (s : string) : option string :=
  option_map str (search_digits_chars (chars s)).

(** ["%0<w>d" % n] for [0 <= n < 10^w]: [w] decimal digits. *)
Fixpoint zpad (w : nat) (n : Z) : list ascii :=
  match w with
  | O => []
  | S w' => zpad w' (n / 10) ++ [digit_char (n mod 10)]
  end.

(** [str(n)] for [0 <= n < 10^w]: the decimal digits, without padding. *)
Fixpoint digits (w : nat) (n : Z) : list ascii :=
  match w with
  | O => []
  | S w' =>
      if n <? 10 then [digit_char n]
      else digits w' (n / 10) ++ [digit_char (n mod 10)]
  end.

(** Python slicing [s[i:j]] for [0 <= i <= j]. *)
Definition slice (i j : nat) (cs : list ascii) : list ascii :=
  firstn (j - i) (skipn i cs).

End PyStr.

(** ** CPython's [datetime] module *)
Module Pydatetime.

Definition MINYEAR : Z := 1.
Definition MAXYEAR : Z := 9999.
(** [date.max.toordinal()] *)
Definition MAXORDINAL : Z := 3652059.

Definition DAYS_IN_MONTH (month : Z) : Z :=
  match month with
  | 1 => 31 | 2 => 28 | 3 => 31 | 4 => 30 | 5 => 31 | 6 => 30
  | 7 => 31 | 8 => 31 | 9 => 30 | 10 => 31 | 11 => 30 | 12 => 31
  | _ => -1
  end.

Definition DAYS_BEFORE_MONTH (month : Z) : Z :=
  match month with
  | 1 => 0 | 2 => 31 | 3 => 59 | 4 => 90 | 5 => 120 | 6 => 151
  | 7 => 181 | 8 => 212 | 9 => 243 | 10 => 273 | 11 => 304 | 12 => 334
  | _ => -1
  end.

Definition is_leap (year : Z) : bool :=
  (year mod 4 =? 0) && (negb (year mod 100 =? 0) || (year mod 400 =? 0)).

Definition days_before_year (year : Z) : Z :=
  let y := year - 1 in
  y * 365 + y / 4 - y / 100 + y / 400.

Definition days_in_month (year month : Z) : Z :=
  if (month =? 2) && is_leap year then 29 else DAYS_IN_MONTH month.

Definition days_before_month (year month : Z) : Z :=
  DAYS_BEFORE_MONTH month + (if (2 <? month) && is_leap year then 1 else 0).

Definition ymd2ord (year month day : Z) : Z :=
  days_before_year year + days_before_month year month + day.

Definition DI400Y : Z := 146097.
Definition DI100Y : Z := 36524.
Definition DI4Y : Z := 1461.

Definition ord2ymd (n : Z) : Z * Z * Z :=
  let n := n - 1 in
  let n400 := n / DI400Y in
  let n := n mod DI400Y in
  let year := n400 * 400 + 1 in
  let n100 := n / DI100Y in
  let n := n mod DI100Y in
  let n4 := n / DI4Y in
  let n := n mod DI4Y in
  let n1 := n / 365 in
  let n := n mod 365 in
  let year := year + (n100 * 100 + n4 * 4 + n1) in
  if (n1 =? 4) || (n100 =? 4) then (year - 1, 12, 31)
  else
    let leapyear := (n1 =? 3) && (negb (n4 =? 24) || (n100 =? 3)) in
    let month := Z.shiftr (n + 50) 5 in
    let preceding :=
      DAYS_BEFORE_MONTH month
      + (if (2 <? month) && leapyear then 1 else 0) in
    let '(month, preceding) :=
      if n <? preceding
      then (month - 1,
            preceding - (DAYS_IN_MONTH (month - 1)
                         + (if (month - 1 =? 2) && leapyear then 1 else 0)))
      else (month, preceding) in
    (year, month, n - preceding + 1).

(** [timedelta]: always normalised, [0 <= seconds < 86400] and
    [0 <= microseconds < 1000000]. *)
Record timedelta : Type := mk_timedelta {
  td_days : Z;
  td_seconds : Z;
  td_microseconds : Z
}.

(** [timedelta(days=.., seconds=.., microseconds=.., minutes=.., hours=..)]
    on integer arguments. *)
Definition timedelta_new (days hours minutes seconds microseconds : Z)
  : result timedelta :=
  let s := seconds + minutes * 60 + hours * 3600 in
  let s := s + microseconds / 1000000 in
  let us := microseconds mod 1000000 in
  let d := days + s / 86400 in
  let s := s mod 86400 in
  if 999999999 <? Z.abs d
  then Raise (OverflowError "timedelta # of days is too large")
  else Ok (mk_timedelta d s us).

(** [timedelta.__add__] *)
Definition timedelta_add (a b : timedelta) : result timedelta :=
  timedelta_new (td_days a + td_days b) 0 0
                (td_seconds a + td_seconds b)
                (td_microseconds a + td_microseconds b).

(** [tzinfo]: the objects [isoparse] can attach, [tz.UTC] and
    [tz.tzoffset(None, seconds)]. *)
Inductive tzinfo : Type :=
| tzutc
| tzoffset (seconds : Z).

Record datetime : Type := mk_datetime {
  year : Z;
  month : Z;
  day : Z;
  hour : Z;
  minute : Z;
  second : Z;
  microsecond : Z;
  tz : option tzinfo
}.

(** [datetime(year, month, day, hour, minute, second, microsecond, tzinfo)]
    with the range checks of [_check_date_fields], [_check_time_fields]. *)
Definition datetime_new (y mo d h mi s us : Z) (t : option tzinfo)
  : result datetime :=
  if negb ((MINYEAR <=? y) && (y <=? MAXYEAR))
  then Raise (ValueError "year must be in 1..9999")
  else if negb ((1 <=? mo) && (mo <=? 12))
  then Raise (ValueError "month must be in 1..12")
  else if negb ((1 <=? d) && (d <=? days_in_month y mo))
  then Raise (ValueError "day is out of range for month")
  else if negb ((0 <=? h) && (h <=? 23))
  then Raise (ValueError "hour must be in 0..23")
  else if negb ((0 <=? mi) && (mi <=? 59))
  then Raise (ValueError "minute must be in 0..59")
  else if negb ((0 <=? s) && (s <=? 59))
  then Raise (ValueError "second must be in 0..59")
  else if negb ((0 <=? us) && (us <=? 999999))
  then Raise (ValueError "microsecond must be in 0..999999")
  else Ok (mk_datetime y mo d h mi s us t).

Definition toordinal (dt : datetime) : Z :=
  ymd2ord (year dt) (month dt) (day dt).

(** [datetime.__add__(self, other)] for a [timedelta]. *)
Definition datetime_add (dt : datetime) (other : timedelta)
  : result datetime :=
  (let? delta := timedelta_new (toordinal dt) (hour dt) (minute dt)
                               (second dt) (microsecond dt) in
   let? delta := timedelta_add delta other in
   let h := td_seconds delta / 3600 in
   let rem := td_seconds delta mod 3600 in
   let mi := rem / 60 in
   let s := rem mod 60 in
   if (0 <? td_days delta) && (td_days delta <=? MAXORDINAL)
   then
     let '(y, mo, d) := ord2ymd (td_days delta) in
     Ok (mk_datetime y mo d h mi s (td_microseconds delta) (tz dt))
   else Raise (OverflowError "date value out of range"))%result.

(** One directive of [strftime], which CPython hands to the C library;
    this is glibc's, the one of the Lambda runtime: [%Y] is the year as a
    plain decimal number (three digits or fewer before the year 1000), the
    other fields are padded to two digits.  The directives the handler
    does not use are left as written. *)
Definition strftime_directive (c : ascii) (dt : datetime) : list ascii :=
  if Ascii.eqb c "Y" then PyStr.digits 4 (year dt)
  else if Ascii.eqb c "m" then PyStr.zpad 2 (month dt)
  else if Ascii.eqb c "d" then PyStr.zpad 2 (day dt)
  else if Ascii.eqb c "H" then PyStr.zpad 2 (hour dt)
  else if Ascii.eqb c "M" then PyStr.zpad 2 (minute dt)
  else if Ascii.eqb c "S" then PyStr.zpad 2 (second dt)
  else if Ascii.eqb c "%" then ["%"%char]
  else ["%"%char; c].

Fixpoint strftime_chars (format : list ascii) (dt : datetime)
  : list ascii :=
  match format with
  | [] => []
  | c :: rest =>
      if Ascii.eqb c "%"
      then match rest with
           | d :: rest' => strftime_directive d dt ++ strftime_chars rest' dt
           | [] => [c]
           end
      else c :: strftime_chars rest dt
  end.

(** [dt.strftime(format)] *)
Definition strftime (dt : datetime) (format : string) : string :=
  PyStr.str (strftime_chars (PyStr.chars format) dt).

End Pydatetime.

(** ** [dateutil]: [relativedelta] and [parser.isoparse] *)
Module Dateutil.
Import Pydatetime.

(** The relative fields of a [relativedelta] that the handler sets.  Both
    call sites leave [years], [months], [leapdays], [weekday] and the
    absolute fields at their defaults (0 or [None]). *)
Record relativedelta : Type := mk_relativedelta {
  days : Z;
  hours : Z;
  minutes : Z;
  seconds : Z;
  microseconds : Z
}.

(** [_sign(x) = int(copysign(1, x))] *)
Definition sign (x : Z) : Z := if x <? 0 then -1 else 1.

(** One carry of [relativedelta._fix]: when [abs(lo) > bound], keep the
    remainder in [lo] and move the quotient into [hi], sign preserved. *)
Definition carry (bound base lo hi : Z) : Z * Z :=
  if bound <? Z.abs lo
  then let s := sign lo in
       let div := (lo * s) / base in
       let mod_ := (lo * s) mod base in
       (mod_ * s, hi + div * s)
  else (lo, hi).

(** [relativedelta._fix] *)
Definition fix_ (rd : relativedelta) : relativedelta :=
  let '(us, s) := carry 999999 1000000 (microseconds rd) (seconds rd) in
  let '(s, mi) := carry 59 60 s (minutes rd) in
  let '(mi, h) := carry 59 60 mi (hours rd) in
  let '(h, d) := carry 23 24 h (days rd) in
  mk_relativedelta d h mi s us.

(** [relativedelta(days=.., hours=.., minutes=.., ...)] *)
Definition relativedelta_new (d h mi s us : Z) : relativedelta :=
  fix_ (mk_relativedelta d h mi s us).

(** [relativedelta.__neg__] *)
Definition neg (rd : relativedelta) : relativedelta :=
  relativedelta_new (- days rd) (- hours rd) (- minutes rd)
                    (- seconds rd) (- microseconds rd).

(** [relativedelta.__add__(self, other)] ([__radd__]) for a [datetime]. *)
Definition add (rd : relativedelta) (other : datetime) : result datetime :=
  (let y := year other in
   let mo := month other in
   let d := Z.min (days_in_month y mo) (day other) in
   let? repl := datetime_new y mo d (hour other) (minute other)
                             (second other) (microsecond other)
                             (tz other) in
   let? delta := timedelta_new (days rd) (hours rd) (minutes rd)
                               (seconds rd) (microseconds rd) in
   datetime_add repl delta)%result.

(** [relativedelta.__rsub__]: [other - rd] *)
Definition rsub (rd : relativedelta) (other : datetime) : result datetime :=
  add (neg rd) other.

(** *** [isoparser] with [sep=None] *)

Definition is1 (c : ascii) (cs : list ascii) : bool :=
  match cs with
  | [c'] => Ascii.eqb c c'
  | _ => false
  end.

(** [date(year, month, day)] then [toordinal()] *)
Definition date_ordinal (y mo d : Z) : result Z :=
  (let? dt := datetime_new y mo d 0 0 0 0 None in Ok (toordinal dt))%result.

(** [date + timedelta(days=n)] on ordinals. *)
Definition date_add_days (o n : Z) : result (Z * Z * Z) :=
  (let? delta := timedelta_new n 0 0 0 0 in
   let o := o + td_days delta in
   if (0 <? o) && (o <=? MAXORDINAL) then Ok (ord2ymd o)
   else Raise (OverflowError "result out of range"))%result.

Definition parse_isodate_common (dt_str : list ascii)
  : result (Z * Z * Z * nat) :=
  (let len_str := length dt_str in
   if (len_str <? 4)%nat then Raise (ValueError "ISO string too short") else
   let? y := PyStr.int_bytes (PyStr.slice 0 4 dt_str) in
   let pos := 4%nat in
   if (len_str <=? pos)%nat then Ok (y, 1, 1, pos) else
   let has_sep := is1 "-" (PyStr.slice pos (pos + 1) dt_str) in
   let pos := if has_sep then (pos + 1)%nat else pos in
   if (len_str - pos <? 2)%nat
   then Raise (ValueError "Invalid common month") else
   let? mo := PyStr.int_bytes (PyStr.slice pos (pos + 2) dt_str) in
   let pos := (pos + 2)%nat in
   if (len_str <=? pos)%nat
   then (if has_sep then Ok (y, mo, 1, pos)
         else Raise (ValueError "Invalid ISO format"))
   else
   if has_sep && negb (is1 "-" (PyStr.slice pos (pos + 1) dt_str))
   then Raise (ValueError "Invalid separator in ISO string") else
   let pos := if has_sep then (pos + 1)%nat else pos in
   if (len_str - pos <? 2)%nat
   then Raise (ValueError "Invalid common day") else
   let? d := PyStr.int_bytes (PyStr.slice pos (pos + 2) dt_str) in
   Ok (y, mo, d, (pos + 2)%nat))%result.

Definition calculate_weekdate (y week dayno : Z) : result (Z * Z * Z) :=
  (if negb ((0 <? week) && (week <? 54))
   then Raise (ValueError "Invalid week") else
   if negb ((0 <? dayno) && (dayno <? 8))
   then Raise (ValueError "Invalid weekday") else
   let? jan_4 := date_ordinal y 1 4 in
   (* jan_4.isocalendar()[2], the ISO weekday, 1 (Monday) .. 7 *)
   let isoweekday := (jan_4 + 6) mod 7 + 1 in
   let? (wy, wm, wd) := date_add_days jan_4 (- (isoweekday - 1)) in
   let week_1 := ymd2ord wy wm wd in
   let week_offset := (week - 1) * 7 + (dayno - 1) in
   date_add_days week_1 week_offset)%result.

Definition parse_isodate_uncommon (dt_str : list ascii)
  : result (Z * Z * Z * nat) :=
  (let len_str := length dt_str in
   if (len_str <? 4)%nat then Raise (ValueError "ISO string too short") else
   let? y := PyStr.int_bytes (PyStr.slice 0 4 dt_str) in
   let has_sep := is1 "-" (PyStr.slice 4 5 dt_str) in
   let pos := if has_sep then 5%nat else 4%nat in
   if is1 "W" (PyStr.slice pos (pos + 1) dt_str)
   then
     let pos := (pos + 1)%nat in
     let? weekno := PyStr.int_bytes (PyStr.slice pos (pos + 2) dt_str) in
     let pos := (pos + 2)%nat in
     let? (dayno, pos) :=
       if (pos <? len_str)%nat
       then
         if negb (eqb (is1 "-" (PyStr.slice pos (pos + 1) dt_str)) has_sep)
         then Raise (ValueError "Inconsistent use of dash separator")
         else
           let pos := if has_sep then (pos + 1)%nat else pos in
           let? dayno := PyStr.int_bytes (PyStr.slice pos (pos + 1) dt_str) in
           Ok (dayno, (pos + 1)%nat)
       else Ok (1, pos) in
     let? (by_, bm, bd) := calculate_weekdate y weekno dayno in
     Ok (by_, bm, bd, pos)
   else
     if (len_str - pos <? 3)%nat
     then Raise (ValueError "Invalid ordinal day") else
     let? ordinal_day := PyStr.int_bytes (PyStr.slice pos (pos + 3) dt_str) in
     let pos := (pos + 3)%nat in
     if (ordinal_day <? 1)
        || (365 + (if is_leap y then 1 else 0) <? ordinal_day)
     then Raise (ValueError "Invalid ordinal day") else
     let? jan_1 := date_ordinal y 1 1 in
     let? (by_, bm, bd) := date_add_days jan_1 (ordinal_day - 1) in
     Ok (by_, bm, bd, pos))%result.

(** [_parse_isodate]: the common form, and on [ValueError] the uncommon
    one. *)
Definition parse_isodate (dt_str : list ascii) : result (Z * Z * Z * nat) :=
  match parse_isodate_common dt_str with
  | Raise (ValueError _) => parse_isodate_uncommon dt_str
  | r => r
  end.

Definition parse_tzstr (tzstr : list ascii) : result tzinfo :=
  (if is1 "Z" tzstr || is1 "z" tzstr then Ok tzutc else
   let n := length tzstr in
   if negb ((n =? 3)%nat || (n =? 5)%nat || (n =? 6)%nat)
   then Raise (ValueError
                 "Time zone offset must be 1, 3, 5 or 6 characters") else
   let? mult :=
     if is1 "-" (PyStr.slice 0 1 tzstr) then Ok (-1)
     else if is1 "+" (PyStr.slice 0 1 tzstr) then Ok 1
     else Raise (ValueError "Time zone offset requires sign") in
   let? h := PyStr.int_bytes (PyStr.slice 1 3 tzstr) in
   let? mi :=
     if (n =? 3)%nat then Ok 0
     else PyStr.int_bytes
            (skipn (if is1 ":" (PyStr.slice 3 4 tzstr) then 4 else 3)%nat
                   tzstr) in
   if (h =? 0) && (mi =? 0) then Ok tzutc else
   if 59 <? mi
   then Raise (ValueError "Invalid minutes in time zone offset") else
   if 23 <? h
   then Raise (ValueError "Invalid hours in time zone offset") else
   Ok (tzoffset (mult * (h * 60 + mi) * 60)))%result.

(** The state of the loop of [_parse_isotime]. *)
Record isotime : Type := mk_isotime {
  it_hour : Z;
  it_minute : Z;
  it_second : Z;
  it_microsecond : Z;
  it_tz : option tzinfo;
  it_pos : nat;
  it_has_sep : bool
}.

(** [_FRACTION_REGEX.match]: a dot or comma, then one or more digits.
    Returns the digits ([group(1)]). *)
Definition match_fraction (cs : list ascii) : option (list ascii) :=
  match cs with
  | c :: r =>
      if Ascii.eqb c "." || Ascii.eqb c ","
      then match PyStr.take_digits r with
           | [] => None
           | ds => Some ds
           end
      else None
  | [] => None
  end.

(** The [while pos < len_str and comp < 5] loop; [comps] lists the values
    that [comp] takes after [comp += 1], in order. *)
Fixpoint isotime_loop (timestr : list ascii) (comps : list Z) (st : isotime)
  : result isotime :=
  (match comps with
   | [] => Ok st
   | comp :: comps' =>
       let len_str := length timestr in
       let pos := it_pos st in
       if negb (pos <? len_str)%nat then Ok st else
       let c := PyStr.slice pos (pos + 1) timestr in
       if is1 "-" c || is1 "+" c || is1 "Z" c || is1 "z" c
       then
         let? t := parse_tzstr (skipn pos timestr) in
         Ok (mk_isotime (it_hour st) (it_minute st) (it_second st)
                        (it_microsecond st) (Some t) len_str
                        (it_has_sep st))
       else
         let? (pos, has_sep) :=
           if (comp =? 1) && is1 ":" c then Ok ((pos + 1)%nat, true)
           else if (comp =? 2) && it_has_sep st
                then if negb (is1 ":" c)
                     then Raise (ValueError
                                   "Inconsistent use of colon separator")
                     else Ok ((pos + 1)%nat, it_has_sep st)
                else Ok (pos, it_has_sep st) in
         if comp <? 3
         then
           let? v := PyStr.int_bytes (PyStr.slice pos (pos + 2) timestr) in
           let pos := (pos + 2)%nat in
           isotime_loop timestr comps'
             (if comp =? 0
              then mk_isotime v (it_minute st) (it_second st)
                              (it_microsecond st) (it_tz st) pos has_sep
              else if comp =? 1
              then mk_isotime (it_hour st) v (it_second st)
                              (it_microsecond st) (it_tz st) pos has_sep
              else mk_isotime (it_hour st) (it_minute st) v
                              (it_microsecond st) (it_tz st) pos has_sep)
         else
           if comp =? 3
           then
             match match_fraction (skipn pos timestr) with
             | None =>
                 isotime_loop timestr comps'
                   (mk_isotime (it_hour st) (it_minute st) (it_second st)
                               (it_microsecond st) (it_tz st) pos has_sep)
             | Some ds =>
                 let us_str := firstn 6 ds in
                 let? v := PyStr.int_bytes us_str in
                 isotime_loop timestr comps'
                   (mk_isotime (it_hour st) (it_minute st) (it_second st)
                               (v * 10 ^ (6 - Z.of_nat (length us_str)))
                               (it_tz st)
                               (pos + 1 + length ds)%nat has_sep)
             end
           else
             isotime_loop timestr comps'
               (mk_isotime (it_hour st) (it_minute st) (it_second st)
                           (it_microsecond st) (it_tz st) pos has_sep)
   end)%result.

Definition parse_isotime (timestr : list ascii) : result isotime :=
  (let len_str := length timestr in
   if (len_str <? 2)%nat then Raise (ValueError "ISO time too short") else
   let? st := isotime_loop timestr [0; 1; 2; 3; 4; 5]
                           (mk_isotime 0 0 0 0 None 0 false) in
   if (it_pos st <? len_str)%nat
   then Raise (ValueError "Unused components in ISO string") else
   if (it_hour st =? 24)
      && negb ((it_minute st =? 0) && (it_second st =? 0)
               && (it_microsecond st =? 0))
   then Raise (ValueError "Hour may only be 24 at 24:00:00.000") else
   Ok st)%result.

(** [dateutil.parser.isoparse(dt_str)] *)
Definition isoparse (s : string) : result datetime :=
  (let dt_str := PyStr.chars s in
   if negb (forallb (fun c => PyStr.ord c <? 128) dt_str)
   then Raise (ValueError
                 "ISO-8601 strings should contain only ASCII characters")
   else
   let? (y, mo, d, pos) := parse_isodate dt_str in
   if (pos <? length dt_str)%nat
   then
     let? t := parse_isotime (skipn (pos + 1) dt_str) in
     if it_hour t =? 24
     then
       let? dt := datetime_new y mo d 0 (it_minute t) (it_second t)
                               (it_microsecond t) (it_tz t) in
       let? one_day := timedelta_new 1 0 0 0 0 in
       datetime_add dt one_day
     else
       datetime_new y mo d (it_hour t) (it_minute t) (it_second t)
                    (it_microsecond t) (it_tz t)
   else datetime_new y mo d 0 0 0 0 None)%result.

End Dateutil.

(** ** [json.dumps] with its default options *)
Module Json.

Definition quote : ascii := PyStr.chr 34.
Definition backslash : ascii := PyStr.chr 92.

Definition hex_digit (d : Z) : ascii :=
  if d <? 10 then PyStr.chr (48 + d) else PyStr.chr (87 + d).

(** One character under [ESCAPE_ASCII]: anything outside [' '..'~'], the
    quote and the backslash are escaped. *)
Definition escape_char (c : ascii) : list ascii :=
  let n := PyStr.ord c in
  if n =? 34 then [backslash; quote]
  else if n =? 92 then [backslash; backslash]
  else if n =? 10 then [backslash; "n"%char]
  else if n =? 13 then [backslash; "r"%char]
  else if n =? 9 then [backslash; "t"%char]
  else if n =? 12 then [backslash; "f"%char]
  else if n =? 8 then [backslash; "b"%char]
  else if (32 <=? n) && (n <=? 126) then [c]
  else [backslash; "u"%char; "0"%char; "0"%char;
        hex_digit (n / 16); hex_digit (n mod 16)].

(** [py_encode_basestring_ascii] *)
Definition encode_str (s : string) : list ascii :=
  quote :: flat_map escape_char (PyStr.chars s) ++ [quote].

(** [str(n)] for an integer *)
Definition str_of_int (z : Z) : list ascii :=
  PyStr.chars (NilZero.string_of_int (Z.to_int z)).

(** [", ".join(items)] *)
Fixpoint join (items : list (list ascii)) : list ascii :=
  match items with
  | [] => []
  | [x] => x
  | x :: r => x ++ PyStr.chars ", " ++ join r
  end.

Fixpoint encode (v : pyval) : list ascii :=
  match v with
  | PNone => PyStr.chars "null"
  | PBool true => PyStr.chars "true"
  | PBool false => PyStr.chars "false"
  | PInt z => str_of_int z
  | PStr s => encode_str s
  | PList l => "["%char :: join (map encode l) ++ ["]"%char]
  | PDict d =>
      "{"%char
      :: join (map (fun kv => encode_str (fst kv) ++ PyStr.chars ": "
                              ++ encode (snd kv)) d)
      ++ ["}"%char]
  end.

Definition dumps (v : pyval) : string := PyStr.str (encode v).

End Json.

(** ** Python dictionaries as ordered association lists *)
Module Dict.

(** [d[k]]: [None] stands for [KeyError]. *)
Fixpoint get {V} (d : list (string * V)) (k : string) : option V :=
  match d with
  | [] => None
  | (k', v) :: d' => if String.eqb k k' then Some v else get d' k
  end.

(** [d.keys()] *)
Definition keys {V} (d : list (string * V)) : list string := map fst d.

(** [k in d.keys()] *)
Definition mem (k : string) (ks : list string) : bool :=
  existsb (String.eqb k) ks.

End Dict.

(** ** [requests]: the POST and the response *)
Module Requests.

(** A value of the [data=] dictionary: the handler only puts strings and
    one integer there. *)
Inductive form_value : Type :=
| FStr (s : string)
| FInt (z : Z).

(** The arguments of [requests.post(url, data=.., verify=..)]. *)
Record request : Type := mk_request {
  url : string;
  data : list (string * form_value);
  verify : bool
}.

(** What the handler reads of a [Response]: the status code and the
    outcome of [Response.json()], that is the decoded body, or the
    decoding error when the body is not JSON.  The two fields are
    independent: the record also admits answers that an HTTP exchange
    does not deliver (a body with a 1xx, 204 or 304 status), so what is
    proved of every response holds of the real ones. *)
Record response : Type := mk_response {
  status_code : Z;
  json : result pyval
}.

(** [Response.raise_for_status()] *)
Definition raise_for_status (r : response) : result unit :=
  if ((400 <=? status_code r) && (status_code r <? 500))
     || ((500 <=? status_code r) && (status_code r <? 600))
  then Raise (HTTPError (status_code r))
  else Ok tt.

Definition upper_hex_digit (d : Z) : ascii :=
  if d <? 10 then PyStr.chr (48 + d) else PyStr.chr (55 + d).

Definition percent (b : Z) : list ascii :=
  ["%"%char; upper_hex_digit (b / 16); upper_hex_digit (b mod 16)].

(** [urllib.parse.quote_plus] on one character (UTF-8 for code points
    from 128 on). *)
Definition quote_plus_char (c : ascii) : list ascii :=
  let n := PyStr.ord c in
  if ((48 <=? n) && (n <=? 57)) || ((65 <=? n) && (n <=? 90))
     || ((97 <=? n) && (n <=? 122))
     || (n =? 95) || (n =? 46) || (n =? 45) || (n =? 126)
  then [c]
  else if n =? 32 then ["+"%char]
  else if n <? 128 then percent n
  else percent (192 + n / 64) ++ percent (128 + n mod 64).

Definition quote_plus (s : list ascii) : list ascii :=
  flat_map quote_plus_char s.

Definition form_value_str (v : form_value) : list ascii :=
  match v with
  | FStr s => PyStr.chars s
  | FInt z => Json.str_of_int z
  end.

Fixpoint join_amp (items : list (list ascii)) : list ascii :=
  match items with
  | [] => []
  | [x] => x
  | x :: r => x ++ "&"%char :: join_amp r
  end.

(** The body that [requests] sends for [data=d]: [urlencode] of the
    items. *)
Definition form_body (d : list (string * form_value)) : string :=
  PyStr.str
    (join_amp
       (map (fun kv => quote_plus (PyStr.chars (fst kv))
                       ++ "="%char :: quote_plus (form_value_str (snd kv)))
            d)).

End Requests.

(** ** The world of one invocation and the monad of the handler *)
Module Runtime.
Import Requests.

(** What an invocation depends on besides its event: the process
    environment, the wall clock read by [datetime.utcnow()], and the
    behaviour of the job service: for each request either the exception
    [requests.post] raises or the response it returns. *)
Record world : Type := mk_world {
  environ : gmap string string;
  utcnow : Pydatetime.datetime;
  service : request -> result response
}.

(** A computation reads the world, appends to the list of requests sent,
    and returns or raises. *)
Definition M (A : Type) : Type :=
  world -> list request -> result A * list request.

Definition ret {A} (a : A) : M A := fun _ sent => (Ok a, sent).

Definition raise {A} (e : exn) : M A := fun _ sent => (Raise e, sent).

Definition bind {A B} (m : M A) (k : A -> M B) : M B :=
  fun w sent =>
    match m w sent with
    | (Ok a, sent') => k a w sent'
    | (Raise e, sent') => (Raise e, sent')
    end.

Definition lift {A} (r : result A) : M A := fun _ sent => (r, sent).

(** [try: body / except Exception: handler] *)
Definition try_except {A} (body : M A) (handler : M A) : M A :=
  fun w sent =>
    match body w sent with
    | (Ok a, sent') => (Ok a, sent')
    | (Raise _, sent') => handler w sent'
    end.

(** [os.environ[key]] *)
Definition environ_getitem (key : string) : M string :=
  fun w sent =>
    match environ w !! key with
    | Some v => (Ok v, sent)
    | None => (Raise (KeyError key), sent)
    end.

(** [os.environ.get(key)] *)
Definition environ_get (key : string) : M (option string) :=
  fun w sent => (Ok (environ w !! key), sent).

(** [os.environ.get(key, default)] *)
Definition environ_get_default (key dflt : string) : M string :=
  fun w sent => (Ok (default dflt (environ w !! key)), sent).

(** [datetime.utcnow()] *)
Definition datetime_utcnow : M Pydatetime.datetime :=
  fun w sent => (Ok (utcnow w), sent).

(** [requests.post(url, data=data, verify=verify)]: the request goes out,
    then the service answers. *)
Definition requests_post (u : string) (d : list (string * form_value))
           (v : bool) : M response :=
  fun w sent =>
    let req := mk_request u d v in
    (service w req, sent ++ [req]).

End Runtime.

Declare Scope M_scope.
Delimit Scope M_scope with M.
Notation "'let*' x := m 'in' k" := (Runtime.bind m (fun x => k))
  (at level 10, x pattern, m at level 100, k at level 200) : M_scope.

(** ** [distutils.util.strtobool] *)
Module Distutils.

Definition strtobool (val : string) : result Z :=
  let val := PyStr.lower val in
  if existsb (String.eqb val) ["y"; "yes"; "t"; "true"; "on"; "1"]
  then Ok 1
  else if existsb (String.eqb val) ["n"; "no"; "f"; "false"; "off"; "0"]
  then Ok 0
  else Raise (ValueError ("invalid truth value " +:+ val)).

End Distutils.

(** ** The module [data_subscriber_query_lambda] *)
Module Lambda.
Import Requests Runtime.
Local Open Scope M_scope.

Definition DATETIME_FORMAT : string := "%Y-%m-%dT%H:%M:%SZ".
Definition JOB_NAME_DATETIME_FORMAT : string := "%Y%m%dT%H%M%S".

(** Truth value of an [int] in a condition. *)
Definition truthy (z : Z) : bool := negb (z =? 0).

(** Truth value of a [str] in a condition. *)
Definition nonempty (s : string) : bool := negb (String.eqb s "").

(** Import time: [MOZART_URL] must be set; the result is the module
    global [JOB_SUBMIT_URL]. *)
Definition module_import : M string :=
  let* mozart := environ_get "MOZART_URL" in
  match mozart with
  | None => raise (RuntimeError "Need to specify MOZART_URL in environment.")
  | Some MOZART_URL =>
      ret (MOZART_URL +:+ "/api/v0.1/job/submit?enable_dedup=false")
  end.

(** [result.keys()] on the decoded body. *)
Definition result_keys (result : pyval) : M (list string) :=
  match result with
  | PDict d => ret (Dict.keys d)
  | _ => raise (AttributeError "object has no attribute 'keys'")
  end.

(** [result[key]] on the decoded body, after [key in result.keys()]. *)
Definition result_getitem (result : pyval) (key : string) : M pyval :=
  match result with
  | PDict d =>
      match Dict.get d key with
      | Some v => ret v
      | None => raise (KeyError key)
      end
  | _ => raise (TypeError "object is not subscriptable")
  end.

(** [v is True] *)
Definition is_True (v : pyval) : bool :=
  match v with
  | PBool true => true
  | _ => false
  end.

Definition submit_job (JOB_SUBMIT_URL : string)
           (job_name job_spec : string) (job_params : pyval)
           (queue : string) (tags : pyval) (priority : option Z)
  : M pyval :=
  let priority := default 0 priority in
  let params :=
    [ ("queue", FStr queue);
      ("priority", FInt priority);
      ("tags", FStr (Json.dumps tags));
      ("type", FStr job_spec);
      ("params", FStr (Json.dumps job_params));
      ("name", FStr job_name) ] in
  let* req := requests_post JOB_SUBMIT_URL params false in
  let* _ := lift (raise_for_status req) in
  let* result := lift (json req) in
  let* keys := result_keys result in
  if Dict.mem "result" keys && Dict.mem "success" keys
  then
    let* success := result_getitem result "success" in
    if is_True success
    then
      let* job_id := result_getitem result "result" in
      ret job_id
    else raise (Exception_ "job not submitted successfully: " result)
  else raise (Exception_ "job not submitted successfully: " result).

Definition get_temporal_start_datetime
           (query_end_datetime : Pydatetime.datetime) : M string :=
  try_except
    (let* temporal_start_datetime_margin_days :=
       environ_get_default "TEMPORAL_START_DATETIME_MARGIN_DAYS" "" in
     let* d := lift (PyStr.int temporal_start_datetime_margin_days) in
     let* dt := lift (Dateutil.rsub (Dateutil.relativedelta_new d 0 0 0 0)
                                    query_end_datetime) in
     ret (Pydatetime.strftime dt DATETIME_FORMAT))
    (environ_get_default "TEMPORAL_START_DATETIME" "").

(** [EventBridgeEvent(event).time], that is [event["time"]]. *)
Definition event_time (event : list (string * pyval)) : M pyval :=
  match Dict.get event "time" with
  | Some v => ret v
  | None => raise (KeyError "time")
  end.

(** [len(v)] for a list or a dict. *)
Definition len (v : pyval) : option nat :=
  match v with
  | PList l => Some (length l)
  | PDict d => Some (length (nodup string_dec (Dict.keys d)))
  | _ => None
  end.

(** [dateutil.parser.isoparse] on the value found in the event.  A value
    that is not a [str] goes to [_parse_isodate] as it is: [len] raises
    [TypeError] on a number, a boolean or [None]; a list or a dict of
    fewer than four items is "too short", a [ValueError]; a longer one
    fails with [TypeError] at [int(dt_str[0:4])]. *)
Definition isoparse_value (v : pyval) : M Pydatetime.datetime :=
  match v with
  | PStr s => lift (Dateutil.isoparse s)
  | _ =>
      match len v with
      | None => raise (TypeError "object has no len()")
      | Some n =>
          if (n <? 4)%nat then raise (ValueError "ISO string too short")
          else raise (TypeError "int() argument must be a string")
      end
  end.

(** [re.search(r"\d+", s).group()] *)
Definition search_group (s : string) : M string :=
  match PyStr.search_digits s with
  | Some g => ret g
  | None => raise (AttributeError
                     "'NoneType' object has no attribute 'group'")
  end.

(** The flag entries of [job_params]:
    [f'{"--flag" if strtobool(os.environ[KEY]) else ""}'] *)
Definition flag_param (token key : string) : M string :=
  let* v := environ_getitem key in
  let* b := lift (Distutils.strtobool v) in
  ret (if truthy b then token else "").

Definition lambda_handler (JOB_SUBMIT_URL : string)
           (event : list (string * pyval)) : M pyval :=
  let* time := event_time event in
  let* query_end_datetime := isoparse_value time in

  let* MINUTES := environ_getitem "MINUTES" in
  let* minutes := search_group MINUTES in
  let* m := lift (PyStr.int minutes) in
  let* query_start_datetime :=
    lift (Dateutil.add (Dateutil.relativedelta_new 0 0 (- m) 0 0)
                       query_end_datetime) in

  let* temporal_start_datetime :=
    get_temporal_start_datetime query_end_datetime in

  let* bounding_box := environ_get "BOUNDING_BOX" in

  let* job_type := environ_getitem "JOB_TYPE" in
  let* job_release := environ_getitem "JOB_RELEASE" in
  let* queue := environ_getitem "JOB_QUEUE" in
  let job_spec := "job-" +:+ job_type +:+ ":" +:+ job_release in

  let start_datetime :=
    "--start-date="
    +:+ Pydatetime.strftime query_start_datetime DATETIME_FORMAT in
  let end_datetime :=
    "--end-date="
    +:+ Pydatetime.strftime query_end_datetime DATETIME_FORMAT in
  let* ENDPOINT := environ_getitem "ENDPOINT" in
  let* JOB_RELEASE := environ_getitem "JOB_RELEASE" in
  let* DOWNLOAD_JOB_QUEUE := environ_getitem "DOWNLOAD_JOB_QUEUE" in
  let* CHUNK_SIZE := environ_getitem "CHUNK_SIZE" in
  let* smoke_run := flag_param "--smoke-run" "SMOKE_RUN" in
  let* dry_run := flag_param "--dry-run" "DRY_RUN" in
  let* no_schedule_download :=
    flag_param "--no-schedule-download" "NO_SCHEDULE_DOWNLOAD" in
  let* use_temporal := flag_param "--use-temporal" "USE_TEMPORAL" in
  let job_params :=
    [ ("start_datetime", PStr start_datetime);
      ("end_datetime", PStr end_datetime);
      ("endpoint", PStr ("--endpoint=" +:+ ENDPOINT));
      ("download_job_release",
        PStr ("--release-version=" +:+ JOB_RELEASE));
      ("download_job_queue", PStr ("--job-queue=" +:+ DOWNLOAD_JOB_QUEUE));
      ("chunk_size", PStr ("--chunk-size=" +:+ CHUNK_SIZE));
      ("smoke_run", PStr smoke_run);
      ("dry_run", PStr dry_run);
      ("no_schedule_download", PStr no_schedule_download);
      ("use_temporal", PStr use_temporal);
      ("temporal_start_datetime",
        PStr (if nonempty temporal_start_datetime
              then "--temporal-start-date=" +:+ temporal_start_datetime
              else ""));
      ("bounding_box",
        PStr (match bounding_box with
              | Some b => if nonempty b then "--bounds=" +:+ b else ""
              | None => ""
              end)) ] in

  let tags := PList [PStr "data-subscriber-query-timer"] in
  let* now := datetime_utcnow in
  let job_name :=
    "data-subscriber-query-timer-"
    +:+ Pydatetime.strftime now JOB_NAME_DATETIME_FORMAT
    +:+ "_" +:+ minutes in
  submit_job JOB_SUBMIT_URL job_name job_spec (PDict job_params) queue
             tags None.

(** One invocation in a fresh process: the module is imported, then the
    handler runs on the event. *)
Definition invocation (event : list (string * pyval)) : M pyval :=
  let* JOB_SUBMIT_URL := module_import in
  lambda_handler JOB_SUBMIT_URL event.

(** Running an invocation from the state where nothing was sent. *)
Definition run (w : world) (event : list (string * pyval))
  : result pyval * list request :=
  invocation event w [].

End Lambda.

(** * Vocabulary of the statements *)

(** ** Calendar arithmetic *)
Module PydatetimeSpec.
Import Pydatetime.

Definition valid_datetime (dt : datetime) : Prop :=
  MINYEAR <= year dt <= MAXYEAR
  /\ 1 <= month dt <= 12
  /\ 1 <= day dt <= days_in_month (year dt) (month dt)
  /\ 0 <= hour dt <= 23
  /\ 0 <= minute dt <= 59
  /\ 0 <= second dt <= 59
  /\ 0 <= microsecond dt <= 999999.

(** Microseconds from the start of day 0 of the proleptic calendar (the
    day before 0001-01-01) to the wall-clock reading of [dt]. *)
Definition epoch_us (dt : datetime) : Z :=
  ((toordinal dt * 86400 + hour dt * 3600 + minute dt * 60 + second dt)
   * 1000000) + microsecond dt.

Definition timedelta_us (td : timedelta) : Z :=
  (td_days td * 86400 + td_seconds td) * 1000000 + td_microseconds td.

Definition normal_timedelta (td : timedelta) : Prop :=
  0 <= td_seconds td < 86400 /\ 0 <= td_microseconds td < 1000000
  /\ Z.abs (td_days td) <= 999999999.

(** First and last representable instants: 0001-01-01T00:00:00.000000 and
    9999-12-31T23:59:59.999999. *)
Definition MIN_US : Z := 86400 * 1000000.
Definition MAX_US : Z := (MAXORDINAL + 1) * 86400 * 1000000 - 1.

(** [us] is the reading of a representable datetime. *)
Definition in_range (us : Z) : bool := (MIN_US <=? us) && (us <=? MAX_US).

(** The month search of [ord2ymd] on a day-of-year index. *)
Definition month_of_yday (leapyear : bool) (n : Z) : Z * Z :=
  let month := Z.shiftr (n + 50) 5 in
  let preceding :=
    DAYS_BEFORE_MONTH month + (if (2 <? month) && leapyear then 1 else 0) in
  let '(month, preceding) :=
    if n <? preceding
    then (month - 1,
          preceding - (DAYS_IN_MONTH (month - 1)
                       + (if (month - 1 =? 2) && leapyear then 1 else 0)))
    else (month, preceding) in
  (month, n - preceding + 1).

Definition month_of_yday_ok (leapyear : bool) (n : Z) : bool :=
  let '(mo, d) := month_of_yday leapyear n in
  (1 <=? mo) && (mo <=? 12) && (1 <=? d)
  && (d <=? (if (mo =? 2) && leapyear then 29 else DAYS_IN_MONTH mo))
  && (DAYS_BEFORE_MONTH mo + (if (2 <? mo) && leapyear then 1 else 0) + d
      =? n + 1).

End PydatetimeSpec.

(** ** Relative deltas *)
Module DateutilSpec.
Import Pydatetime Dateutil.

Definition relativedelta_us (rd : relativedelta) : Z :=
  ((((days rd * 24 + hours rd) * 60 + minutes rd) * 60 + seconds rd)
   * 1000000) + microseconds rd.

End DateutilSpec.

(** ** Digit strings *)
Module PyStrSpec.
Import PyStr.

(** The number a run of decimal digits denotes. *)
Definition decimal_value (cs : list ascii) : Z :=
  fold_left (fun acc c => acc * 10 + digit_value c) cs 0.

Definition all_digits (cs : list ascii) : bool := forallb is_digit cs.
Definition no_digit (cs : list ascii) : bool :=
  forallb (fun c => negb (is_digit c)) cs.

(** [cs] does not start with a digit. *)
Definition no_leading_digit (cs : list ascii) : bool :=
  match cs with
  | c :: _ => negb (is_digit c)
  | [] => true
  end.

End PyStrSpec.

(** ** Rendered timestamps *)
Module RenderSpec.
Import PyStr PyStrSpec Pydatetime Lambda.

(** The shape [dddd-dd-ddTdd:dd:ddZ]. *)
Definition is_DATETIME_FORMAT (s : string) : bool :=
  match chars s with
  | [y1; y2; y3; y4; d1; m1; m2; d2; a1; a2; t; h1; h2; c1; n1; n2; c2;
     s1; s2; z] =>
      all_digits [y1; y2; y3; y4; m1; m2; a1; a2; h1; h2; n1; n2; s1; s2]
      && Ascii.eqb d1 "-" && Ascii.eqb d2 "-" && Ascii.eqb t "T"
      && Ascii.eqb c1 ":" && Ascii.eqb c2 ":" && Ascii.eqb z "Z"
  | _ => false
  end.

(** The six numbers written in a string of that shape. *)
Definition rendered_fields (s : string) : Z * Z * Z * Z * Z * Z :=
  let cs := chars s in
  (decimal_value (slice 0 4 cs), decimal_value (slice 5 7 cs),
   decimal_value (slice 8 10 cs), decimal_value (slice 11 13 cs),
   decimal_value (slice 14 16 cs), decimal_value (slice 17 19 cs)).

Definition fields (dt : datetime) : Z * Z * Z * Z * Z * Z :=
  (year dt, month dt, day dt, hour dt, minute dt, second dt).

End RenderSpec.

(** ** The handler up to its final call *)
Module LambdaSpec.
Import Requests Runtime Lambda.

(** The values [lambda_handler] has computed when it reaches the call of
    [submit_job]. *)
Record prepared : Type := mk_prepared {
  p_time : string;
  p_query_end : Pydatetime.datetime;
  p_MINUTES : string;
  p_minutes : string;
  p_m : Z;
  p_query_start : Pydatetime.datetime;
  p_temporal_start : string;
  p_bounding_box : option string;
  p_JOB_TYPE : string;
  p_JOB_RELEASE : string;
  p_JOB_QUEUE : string;
  p_ENDPOINT : string;
  p_DOWNLOAD_JOB_QUEUE : string;
  p_CHUNK_SIZE : string;
  p_SMOKE_RUN : string;
  p_smoke_run : Z;
  p_DRY_RUN : string;
  p_dry_run : Z;
  p_NO_SCHEDULE_DOWNLOAD : string;
  p_no_schedule_download : Z;
  p_USE_TEMPORAL : string;
  p_use_temporal : Z
}.

(** What [get_temporal_start_datetime] returns (it always returns). *)
Definition temporal_start_of (w : world) (query_end : Pydatetime.datetime)
  : string :=
  match fst (get_temporal_start_datetime query_end w []) with
  | Ok s => s
  | Raise _ => ""
  end.

(** Every step of [lambda_handler] before the call of [submit_job]
    succeeds, with the values recorded in [p]. *)
Record prepares (w : world) (event : list (string * pyval)) (p : prepared)
  : Prop := {
  pr_time : Dict.get event "time" = Some (PStr (p_time p));
  pr_query_end : Dateutil.isoparse (p_time p) = Ok (p_query_end p);
  pr_MINUTES : environ w !! "MINUTES" = Some (p_MINUTES p);
  pr_minutes : PyStr.search_digits (p_MINUTES p) = Some (p_minutes p);
  pr_m : PyStr.int (p_minutes p) = Ok (p_m p);
  pr_query_start :
    Dateutil.add (Dateutil.relativedelta_new 0 0 (- p_m p) 0 0)
                 (p_query_end p) = Ok (p_query_start p);
  pr_temporal_start :
    p_temporal_start p = temporal_start_of w (p_query_end p);
  pr_bounding_box : environ w !! "BOUNDING_BOX" = p_bounding_box p;
  pr_JOB_TYPE : environ w !! "JOB_TYPE" = Some (p_JOB_TYPE p);
  pr_JOB_RELEASE : environ w !! "JOB_RELEASE" = Some (p_JOB_RELEASE p);
  pr_JOB_QUEUE : environ w !! "JOB_QUEUE" = Some (p_JOB_QUEUE p);
  pr_ENDPOINT : environ w !! "ENDPOINT" = Some (p_ENDPOINT p);
  pr_DOWNLOAD_JOB_QUEUE :
    environ w !! "DOWNLOAD_JOB_QUEUE" = Some (p_DOWNLOAD_JOB_QUEUE p);
  pr_CHUNK_SIZE : environ w !! "CHUNK_SIZE" = Some (p_CHUNK_SIZE p);
  pr_SMOKE_RUN : environ w !! "SMOKE_RUN" = Some (p_SMOKE_RUN p);
  pr_smoke_run : Distutils.strtobool (p_SMOKE_RUN p) = Ok (p_smoke_run p);
  pr_DRY_RUN : environ w !! "DRY_RUN" = Some (p_DRY_RUN p);
  pr_dry_run : Distutils.strtobool (p_DRY_RUN p) = Ok (p_dry_run p);
  pr_NO_SCHEDULE_DOWNLOAD :
    environ w !! "NO_SCHEDULE_DOWNLOAD" = Some (p_NO_SCHEDULE_DOWNLOAD p);
  pr_no_schedule_download :
    Distutils.strtobool (p_NO_SCHEDULE_DOWNLOAD p)
    = Ok (p_no_schedule_download p);
  pr_USE_TEMPORAL : environ w !! "USE_TEMPORAL" = Some (p_USE_TEMPORAL p);
  pr_use_temporal :
    Distutils.strtobool (p_USE_TEMPORAL p) = Ok (p_use_temporal p)
}.

(** The [job_params] dictionary built from the prepared values. *)
Definition job_params_of (p : prepared) : list (string * pyval) :=
  [ ("start_datetime",
      PStr ("--start-date="
            +:+ Pydatetime.strftime (p_query_start p) DATETIME_FORMAT));
    ("end_datetime",
      PStr ("--end-date="
            +:+ Pydatetime.strftime (p_query_end p) DATETIME_FORMAT));
    ("endpoint", PStr ("--endpoint=" +:+ p_ENDPOINT p));
    ("download_job_release",
      PStr ("--release-version=" +:+ p_JOB_RELEASE p));
    ("download_job_queue",
      PStr ("--job-queue=" +:+ p_DOWNLOAD_JOB_QUEUE p));
    ("chunk_size", PStr ("--chunk-size=" +:+ p_CHUNK_SIZE p));
    ("smoke_run",
      PStr (if truthy (p_smoke_run p) then "--smoke-run" else ""));
    ("dry_run", PStr (if truthy (p_dry_run p) then "--dry-run" else ""));
    ("no_schedule_download",
      PStr (if truthy (p_no_schedule_download p)
            then "--no-schedule-download" else ""));
    ("use_temporal",
      PStr (if truthy (p_use_temporal p) then "--use-temporal" else ""));
    ("temporal_start_datetime",
      PStr (if nonempty (p_temporal_start p)
            then "--temporal-start-date=" +:+ p_temporal_start p
            else ""));
    ("bounding_box",
      PStr (match p_bounding_box p with
            | Some b => if nonempty b then "--bounds=" +:+ b else ""
            | None => ""
            end)) ].

Definition job_name_of (w : world) (p : prepared) : string :=
  "data-subscriber-query-timer-"
  +:+ Pydatetime.strftime (utcnow w) JOB_NAME_DATETIME_FORMAT
  +:+ "_" +:+ p_minutes p.

Definition job_spec_of (p : prepared) : string :=
  "job-" +:+ p_JOB_TYPE p +:+ ":" +:+ p_JOB_RELEASE p.

Definition TAGS : pyval := PList [PStr "data-subscriber-query-timer"].

(** The call of [submit_job] that ends [lambda_handler]. *)
Definition submission (JOB_SUBMIT_URL : string) (w : world) (p : prepared)
  : M pyval :=
  submit_job JOB_SUBMIT_URL (job_name_of w p) (job_spec_of p)
             (PDict (job_params_of p)) (p_JOB_QUEUE p) TAGS None.

End LambdaSpec.

(** ** The submission *)
Module SubmitSpec.
Import Requests Runtime Lambda.

(** The [params] dictionary that [submit_job] posts. *)
Definition form_of (job_name job_spec : string) (job_params : pyval)
           (queue : string) (tags : pyval) (priority : option Z)
  : list (string * form_value) :=
  [ ("queue", FStr queue);
    ("priority", FInt (default 0 priority));
    ("tags", FStr (Json.dumps tags));
    ("type", FStr job_spec);
    ("params", FStr (Json.dumps job_params));
    ("name", FStr job_name) ].

Definition request_of (JOB_SUBMIT_URL job_name job_spec : string)
           (job_params : pyval) (queue : string) (tags : pyval)
           (priority : option Z) : request :=
  mk_request JOB_SUBMIT_URL
             (form_of job_name job_spec job_params queue tags priority)
             false.

(** Statuses on which [raise_for_status] raises. *)
Definition is_error_status (status : Z) : bool :=
  (400 <=? status) && (status <? 600).

Definition TRUE_TOKENS : list string := ["y"; "yes"; "t"; "true"; "on"; "1"].
Definition FALSE_TOKENS : list string :=
  ["n"; "no"; "f"; "false"; "off"; "0"].

Definition is_token (tokens : list string) (v : string) : bool :=
  existsb (String.eqb (PyStr.lower v)) tokens.

End SubmitSpec.

(** ** Tables of keys *)
Module ClaimSpec.
Import Requests Runtime Lambda LambdaSpec.

(** The settings read with [os.environ[...]] (and the import-time check):
    an absent one raises. *)
Definition REQUIRED : list string :=
  ["MOZART_URL"; "MINUTES"; "JOB_TYPE"; "JOB_RELEASE"; "JOB_QUEUE";
   "ENDPOINT"; "DOWNLOAD_JOB_QUEUE"; "CHUNK_SIZE"; "SMOKE_RUN"; "DRY_RUN";
   "NO_SCHEDULE_DOWNLOAD"; "USE_TEMPORAL"].

(** The boolean flags: environment key, [job_params] key, token. *)
Definition FLAGS : list (string * string * string) :=
  [ ("SMOKE_RUN", "smoke_run", "--smoke-run");
    ("DRY_RUN", "dry_run", "--dry-run");
    ("NO_SCHEDULE_DOWNLOAD", "no_schedule_download",
      "--no-schedule-download");
    ("USE_TEMPORAL", "use_temporal", "--use-temporal") ].


Definition is_PStr (v : pyval) : bool :=
  match v with PStr _ => true | _ => false end.

Definition US_PER_DAY : Z := 86400 * 1000000.
Definition US_PER_MINUTE : Z := 60 * 1000000.

Definition JOB_SUBMIT_URL_of (MOZART_URL : string) : string :=
  MOZART_URL +:+ "/api/v0.1/job/submit?enable_dedup=false".

End ClaimSpec.

(** ** Reading a request back *)
Module WireSpec.
Import PyStr Requests.

(** *** Reading a JSON text (RFC 8259), integers for numbers *)

Definition hex_value (c : ascii) : option Z :=
  let n := ord c in
  if (48 <=? n) && (n <=? 57) then Some (n - 48)
  else if (65 <=? n) && (n <=? 70) then Some (n - 55)
  else if (97 <=? n) && (n <=? 102) then Some (n - 87)
  else None.

Definition hex2 (a b : ascii) : option Z :=
  match hex_value a, hex_value b with
  | Some x, Some y => Some (x * 16 + y)
  | _, _ => None
  end.

(** The character after a backslash, [u] apart. *)
Definition unescape (c : ascii) : option ascii :=
  let n := ord c in
  if n =? 34 then Some (chr 34)
  else if n =? 92 then Some (chr 92)
  else if n =? 47 then Some (chr 47)
  else if n =? 98 then Some (chr 8)
  else if n =? 102 then Some (chr 12)
  else if n =? 110 then Some (chr 10)
  else if n =? 114 then Some (chr 13)
  else if n =? 116 then Some (chr 9)
  else None.

Definition push {A B} (a : A) (o : option (list A * B))
  : option (list A * B) :=
  match o with
  | Some (l, r) => Some (a :: l, r)
  | None => None
  end.

(** The characters of a string, from after its opening quote to its
    closing quote; what follows the closing quote is returned too.  An
    escape [\uXXXX] is read when it names a code point below 256. *)
Fixpoint read_chars (cs : list ascii) : option (list ascii * list ascii) :=
  match cs with
  | [] => None
  | c :: r =>
      if ord c =? 34 then Some ([], r)
      else if ord c =? 92
      then match r with
           | e :: r' =>
               if ord e =? 117
               then match r' with
                    | a :: b :: x :: y :: r'' =>
                        match hex2 a b, hex2 x y with
                        | Some 0, Some n => push (chr n) (read_chars r'')
                        | _, _ => None
                        end
                    | _ => None
                    end
               else match unescape e with
                    | Some ch => push ch (read_chars r')
                    | None => None
                    end
           | [] => None
           end
      else if ord c <? 32 then None
      else push c (read_chars r)
  end.

(** White space between tokens. *)
Definition is_ws (c : ascii) : bool :=
  let n := ord c in (n =? 32) || (n =? 9) || (n =? 10) || (n =? 13).

Definition skip_ws (cs : list ascii) : list ascii := lstrip is_ws cs.

Definition is_number_char (c : ascii) : bool :=
  is_digit c || (ord c =? 45).

Fixpoint span_number (cs : list ascii) : list ascii * list ascii :=
  match cs with
  | c :: r =>
      if is_number_char c
      then let '(n, rest) := span_number r in (c :: n, rest)
      else ([], cs)
  | [] => ([], [])
  end.

(** The grammar of an integer: an optional minus sign, then [0] alone
    or digits that do not start with [0]. *)
Definition is_integer (n : list ascii) : bool :=
  let ds := match n with
            | c :: r => if ord c =? 45 then r else n
            | [] => []
            end in
  match ds with
  | [] => false
  | d :: r =>
      forallb is_digit ds
      && (negb (ord d =? 48) || match r with [] => true | _ => false end)
  end.

Definition read_int (cs : list ascii) : option (Z * list ascii) :=
  let '(n, rest) := span_number cs in
  if is_integer n
  then match NilZero.int_of_string (str n) with
       | Some d => Some (Z.of_int d, rest)
       | None => None
       end
  else None.

(** [cs] without the prefix [lit]. *)
Fixpoint after (lit cs : list ascii) : option (list ascii) :=
  match lit, cs with
  | [], _ => Some cs
  | l :: lit', c :: cs' => if Ascii.eqb l c then after lit' cs' else None
  | _ :: _, [] => None
  end.

(** Items separated by commas up to the closing bracket [close]; at
    least one item. *)
Fixpoint read_seq {A} (item : list ascii -> option (A * list ascii))
         (close : ascii) (n : nat) (cs : list ascii)
  : option (list A * list ascii) :=
  match n with
  | O => None
  | S n' =>
      match item (skip_ws cs) with
      | Some (a, r) =>
          match skip_ws r with
          | c :: r' =>
              if Ascii.eqb c close then Some ([a], r')
              else if ord c =? 44
                   then push a (read_seq item close n' r')
                   else None
          | [] => None
          end
      | None => None
      end
  end.

(** A member of an object: a string, a colon, a value. *)
Definition read_member (value : list ascii -> option (pyval * list ascii))
           (cs : list ascii) : option ((string * pyval) * list ascii) :=
  match cs with
  | q :: r =>
      if ord q =? 34
      then match read_chars r with
           | Some (k, r') =>
               match skip_ws r' with
               | c :: r'' =>
                   if ord c =? 58
                   then match value (skip_ws r'') with
                        | Some (v, rest) => Some ((str k, v), rest)
                        | None => None
                        end
                   else None
               | [] => None
               end
           | None => None
           end
      else None
  | [] => None
  end.

(** A value at the head of [cs], and what follows it.  [fuel] bounds
    the nesting and the number of items of a list or an object. *)
Fixpoint read_value (fuel : nat) (cs : list ascii)
  : option (pyval * list ascii) :=
  match fuel with
  | O => None
  | S fuel' =>
      match cs with
      | [] => None
      | c :: r =>
          if ord c =? 34
          then match read_chars r with
               | Some (s, rest) => Some (PStr (str s), rest)
               | None => None
               end
          else if ord c =? 91
          then match skip_ws r with
               | c' :: r' =>
                   if ord c' =? 93 then Some (PList [], r')
                   else match read_seq (read_value fuel') "]" fuel' r with
                        | Some (l, rest) => Some (PList l, rest)
                        | None => None
                        end
               | [] => None
               end
          else if ord c =? 123
          then match skip_ws r with
               | c' :: r' =>
                   if ord c' =? 125 then Some (PDict [], r')
                   else match read_seq (read_member (read_value fuel'))
                                       "}" fuel' r with
                        | Some (d, rest) => Some (PDict d, rest)
                        | None => None
                        end
               | [] => None
               end
          else match after (chars "null") cs with
               | Some rest => Some (PNone, rest)
               | None =>
               match after (chars "true") cs with
               | Some rest => Some (PBool true, rest)
               | None =>
               match after (chars "false") cs with
               | Some rest => Some (PBool false, rest)
               | None =>
               match read_int cs with
               | Some (z, rest) => Some (PInt z, rest)
               | None => None
               end end end end
      end
  end.

(** The number of nodes of a value: fuel enough for [read_value]. *)
Fixpoint size (v : pyval) : nat :=
  match v with
  | PList l => S (list_sum (map size l))
  | PDict d => S (list_sum (map (fun kv => size (snd kv)) d))
  | _ => 1
  end.

(** [cs] does not go on with a digit or a sign. *)
Definition number_ends (cs : list ascii) : bool :=
  match cs with
  | c :: _ => negb (is_number_char c)
  | [] => true
  end.

(** The value that a JSON text denotes, when it is one. *)
Definition loads (s : string) : option pyval :=
  let cs := skip_ws (chars s) in
  match read_value (S (length cs)) cs with
  | Some (v, rest) =>
      match skip_ws rest with
      | [] => Some v
      | _ => None
      end
  | None => None
  end.

(** *** Reading an [application/x-www-form-urlencoded] body *)

(** The characters [quote_plus] lets through or produces: letters,
    digits, [_.-~], [+] and [%]. *)
Definition is_quoted (c : ascii) : bool :=
  let n := PyStr.ord c in
  ((48 <=? n) && (n <=? 57)) || ((65 <=? n) && (n <=? 90))
  || ((97 <=? n) && (n <=? 122))
  || (n =? 95) || (n =? 46) || (n =? 45) || (n =? 126)
  || (n =? 43) || (n =? 37).

(** How many times [c] occurs in [s]. *)
Definition occurrences (c : ascii) (s : list ascii) : nat :=
  length (List.filter (Ascii.eqb c) s).

(** [+] is a space and [%XX] the byte [XX]. *)
Fixpoint percent_decode (cs : list ascii) : option (list ascii) :=
  match cs with
  | [] => Some []
  | c :: r =>
      if ord c =? 43 then option_map (cons (chr 32)) (percent_decode r)
      else if ord c =? 37
      then match r with
           | a :: b :: r' =>
               match hex2 a b with
               | Some n => option_map (cons (chr n)) (percent_decode r')
               | None => None
               end
           | _ => None
           end
      else option_map (cons c) (percent_decode r)
  end.

(** UTF-8, for code points below 256: one byte below 128, two bytes
    with the lead byte [C2] or [C3] from 128 on. *)
Fixpoint utf8_decode (bs : list ascii) : option (list ascii) :=
  match bs with
  | [] => Some []
  | b :: r =>
      let n := ord b in
      if n <? 128 then option_map (cons b) (utf8_decode r)
      else if (194 <=? n) && (n <=? 195)
      then match r with
           | b' :: r' =>
               let n' := ord b' in
               if (128 <=? n') && (n' <=? 191)
               then option_map (cons (chr ((n - 192) * 64 + (n' - 128))))
                               (utf8_decode r')
               else None
           | [] => None
           end
      else None
  end.

(** The bytes of a character in UTF-8. *)
Definition utf8_char (c : ascii) : list ascii :=
  let n := ord c in
  if n <? 128 then [c] else [chr (192 + n / 64); chr (128 + n mod 64)].

Definition unquote_plus (cs : list ascii) : option (list ascii) :=
  match percent_decode cs with
  | Some bs => utf8_decode bs
  | None => None
  end.

(** [cs] cut at the occurrences of [sep]. *)
Fixpoint split_on (sep : ascii) (cs : list ascii) : list (list ascii) :=
  match cs with
  | [] => [[]]
  | c :: r =>
      if Ascii.eqb c sep then [] :: split_on sep r
      else match split_on sep r with
           | x :: xs => (c :: x) :: xs
           | [] => [[c]]
           end
  end.

(** [cs] cut at the first occurrence of [sep]. *)
Fixpoint cut (sep : ascii) (cs : list ascii) : list ascii * list ascii :=
  match cs with
  | [] => ([], [])
  | c :: r =>
      if Ascii.eqb c sep then ([], r)
      else let '(x, y) := cut sep r in (c :: x, y)
  end.

Definition read_field (cs : list ascii) : option (string * string) :=
  let '(k, v) := cut "=" cs in
  match unquote_plus k, unquote_plus v with
  | Some k', Some v' => Some (str k', str v')
  | _, _ => None
  end.

Fixpoint read_fields (items : list (list ascii))
  : option (list (string * string)) :=
  match items with
  | [] => Some []
  | x :: r =>
      match read_field x, read_fields r with
      | Some f, Some fs => Some (f :: fs)
      | _, _ => None
      end
  end.

(** The name-value pairs of a form body, in their order. *)
Definition parse_form (body : string) : option (list (string * string)) :=
  match chars body with
  | [] => Some []
  | cs => read_fields (split_on "&" cs)
  end.

(** *** What a request says, read from its body *)

(** The value of the field [k] in the body of [r]. *)
Definition field (r : request) (k : string) : option string :=
  match parse_form (form_body (data r)) with
  | Some fs => Dict.get fs k
  | None => None
  end.

(** The job parameters of [r]: the object that its [params] field
    denotes. *)
Definition params (r : request) : option (list (string * pyval)) :=
  match field r "params" with
  | Some s =>
      match loads s with
      | Some (PDict d) => Some d
      | _ => None
      end
  | None => None
  end.

(** The job parameter [k] of [r]. *)
Definition param (r : request) (k : string) : option pyval :=
  match params r with
  | Some d => Dict.get d k
  | None => None
  end.

End WireSpec.

(** ** Concrete worlds and events used to exercise the statements *)
Module Examples.
Import Pydatetime Requests Runtime Lambda LambdaSpec.

Definition settings (MINUTES : string) : list (string * string) :=
  [ ("MOZART_URL", "https://mozart.example");
    ("MINUTES", MINUTES);
    ("JOB_TYPE", "data-subscriber-query");
    ("JOB_RELEASE", "1.0.0");
    ("JOB_QUEUE", "factotum-job_worker-small");
    ("ENDPOINT", "OPS");
    ("DOWNLOAD_JOB_QUEUE", "download-queue");
    ("CHUNK_SIZE", "2");
    ("SMOKE_RUN", "true");
    ("DRY_RUN", "False");
    ("NO_SCHEDULE_DOWNLOAD", "0");
    ("USE_TEMPORAL", "yes") ].

Definition env (MINUTES : string) (more : list (string * string))
  : gmap string string :=
  list_to_map (more ++ settings MINUTES).

Definition now : datetime := mk_datetime 2024 1 1 0 10 7 0 None.

Definition body_ok : pyval :=
  PDict [("success", PBool true); ("result", PStr "job-123")].

Definition body_failed : pyval :=
  PDict [("success", PBool false); ("message", PStr "bad params")].

(** A job service that answers every request the same way. *)
Definition answers (status : Z) (body : pyval) (_ : request)
  : result response :=
  Ok (mk_response status (Ok body)).

Definition event : list (string * pyval) :=
  [("time", PStr "2024-01-01T00:10:00Z")].

Definition query_end : datetime :=
  mk_datetime 2024 1 1 0 10 0 0 (Some tzutc).

Definition world_ok : world :=
  mk_world (env "5" [("TEMPORAL_START_DATETIME_MARGIN_DAYS", "3");
                     ("BOUNDING_BOX", "-180,-90,180,90")])
           now (answers 200 body_ok).

Definition prepared_ok : prepared :=
  mk_prepared "2024-01-01T00:10:00Z" query_end "5" "5" 5
              (mk_datetime 2024 1 1 0 5 0 0 (Some tzutc))
              "2023-12-29T00:10:00Z" (Some "-180,-90,180,90")
              "data-subscriber-query" "1.0.0" "factotum-job_worker-small"
              "OPS" "download-queue" "2"
              "true" 1 "False" 0 "0" 0 "yes" 1.

(** [MINUTES] with text around the digits. *)
Definition world_15min : world :=
  mk_world (env "15min" []) now (answers 200 body_ok).

Definition prepared_15min : prepared :=
  mk_prepared "2024-01-01T00:10:00Z" query_end "15min" "15" 15
              (mk_datetime 2023 12 31 23 55 0 0 (Some tzutc))
              "" None
              "data-subscriber-query" "1.0.0" "factotum-job_worker-small"
              "OPS" "download-queue" "2"
              "true" 1 "False" 0 "0" 0 "yes" 1.

(** A margin that leads before year 1, with a literal fallback. *)
Definition world_margin_overflow : world :=
  mk_world (env "5" [("TEMPORAL_START_DATETIME_MARGIN_DAYS", "4000000");
                     ("TEMPORAL_START_DATETIME", "1999-01-01T00:00:00Z")])
           now (answers 200 body_ok).

Definition world_failed : world :=
  mk_world (env "5" []) now (answers 200 body_failed).

Definition world_500 : world :=
  mk_world (env "5" []) now (answers 500 body_failed).

(** Statuses outside 2xx/3xx on which [raise_for_status] does not
    raise. *)
Definition world_600 : world :=
  mk_world (env "5" []) now (answers 600 body_ok).

Definition world_102 : world :=
  mk_world (env "5" []) now (answers 102 body_ok).

(** A 200 answer whose JSON body is a list. *)
Definition world_list_body : world :=
  mk_world (env "5" []) now (answers 200 (PList [])).

(** [MINUTES] with a minus sign. *)
Definition world_minus5 : world :=
  mk_world (env "-5" []) now (answers 200 body_ok).

(** No digit in [MINUTES]. *)
Definition world_no_digit : world :=
  mk_world (env "five" []) now (answers 200 body_ok).

(** Nothing configured at all. *)
Definition world_unconfigured : world :=
  mk_world empty now (answers 200 body_ok).

Definition event_unparseable : list (string * pyval) :=
  [("time", PStr "yesterday")].

Definition world_bad_flag : world :=
  mk_world (env "5" [("DRY_RUN", "maybe")]) now (answers 200 body_ok).

(** A trigger in the year 999. *)
Definition event_999 : list (string * pyval) :=
  [("time", PStr "0999-01-01T00:10:00Z")].

End Examples.

(** ** Vocabulary and scenarios of the further properties *)
Module Scenarios.
Import Pydatetime Requests Runtime Lambda LambdaSpec.

(** [p] with other values of the two optional parameters. *)
Definition with_optional (p : prepared) (temporal_start : string)
           (bounding_box : option string) : prepared :=
  mk_prepared (p_time p) (p_query_end p) (p_MINUTES p) (p_minutes p)
              (p_m p) (p_query_start p) temporal_start bounding_box
              (p_JOB_TYPE p) (p_JOB_RELEASE p) (p_JOB_QUEUE p)
              (p_ENDPOINT p) (p_DOWNLOAD_JOB_QUEUE p) (p_CHUNK_SIZE p)
              (p_SMOKE_RUN p) (p_smoke_run p) (p_DRY_RUN p) (p_dry_run p)
              (p_NO_SCHEDULE_DOWNLOAD p) (p_no_schedule_download p)
              (p_USE_TEMPORAL p) (p_use_temporal p).

(** The classes of the exceptions that the date arithmetic raises. *)
Definition is_ValueError (e : exn) : bool :=
  match e with ValueError _ => true | _ => false end.

Definition is_OverflowError (e : exn) : bool :=
  match e with OverflowError _ => true | _ => false end.

(** The characters [yyyy-mm-dd] and [hh:mm:ssZ]. *)
Definition date_text (y1 y2 y3 y4 m1 m2 d1 d2 : ascii) : list ascii :=
  [y1; y2; y3; y4; "-"%char; m1; m2; "-"%char; d1; d2].

Definition time_text (h1 h2 n1 n2 s1 s2 : ascii) : list ascii :=
  [h1; h2; ":"%char; n1; n2; ":"%char; s1; s2; "Z"%char].

(** The event of the next scheduled trigger, five minutes later. *)
Definition event_next : list (string * pyval) :=
  [("time", PStr "2024-01-01T00:15:00Z")].

(** A job service that cannot be reached. *)
Definition unreachable (_ : request) : result response :=
  Raise (RequestException "connection refused").

Definition world_unreachable : world :=
  mk_world (Examples.env "5" []) Examples.now unreachable.

Definition prepared_plain : prepared :=
  mk_prepared "2024-01-01T00:10:00Z" Examples.query_end "5" "5" 5
              (mk_datetime 2024 1 1 0 5 0 0 (Some tzutc))
              "" None
              "data-subscriber-query" "1.0.0" "factotum-job_worker-small"
              "OPS" "download-queue" "2"
              "true" 1 "False" 0 "0" 0 "yes" 1.

(** The same invocation a minute later by the clock, against a service
    that is down. *)
Definition world_later : world :=
  mk_world (environ Examples.world_ok)
           (mk_datetime 2024 1 1 0 11 7 0 None) unreachable.

(** [world_ok] with other optional settings. *)
Definition world_other_optional : world :=
  mk_world (Examples.env "5" [("TEMPORAL_START_DATETIME", "not a date");
                              ("BOUNDING_BOX", "")])
           Examples.now (Examples.answers 200 Examples.body_ok).

(** A window of 2000 years, from an event in the year 1999. *)
Definition world_long_window : world :=
  mk_world (Examples.env "1051920000" []) Examples.now
           (Examples.answers 200 Examples.body_ok).

Definition event_1999 : list (string * pyval) :=
  [("time", PStr "1999-01-01T00:00:00Z")].

(** The same trigger time read on a clock five hours ahead of UTC, with a
    fraction of a second. *)
Definition event_offset : list (string * pyval) :=
  [("time", PStr "2024-01-01T00:10:00.5+05:00")].

Definition prepared_offset : prepared :=
  mk_prepared "2024-01-01T00:10:00.5+05:00"
              (mk_datetime 2024 1 1 0 10 0 500000 (Some (tzoffset 18000)))
              "5" "5" 5
              (mk_datetime 2024 1 1 0 5 0 500000 (Some (tzoffset 18000)))
              "2023-12-29T00:10:00Z" (Some "-180,-90,180,90")
              "data-subscriber-query" "1.0.0" "factotum-job_worker-small"
              "OPS" "download-queue" "2"
              "true" 1 "False" 0 "0" 0 "yes" 1.

End Scenarios.

(** * Lemmas *)

(** ** Facts about the calendar *)
Module PydatetimeFacts.
Import Pydatetime PydatetimeSpec.

Lemma month_of_yday_table :
  forallb (fun n => month_of_yday_ok false (Z.of_nat n)
                    && month_of_yday_ok true (Z.of_nat n))
          (seq 0 365) = true.
Proof. vm_compute. reflexivity. Qed.

Lemma month_of_yday_spec leapyear n :
  0 <= n <= 364 -> month_of_yday_ok leapyear n = true.
Proof.
  intros Hn.
  pose proof month_of_yday_table as T.
  rewrite forallb_forall in T.
  specialize (T (Z.to_nat n)).
  rewrite Z2Nat.id in T by lia.
  assert (In (Z.to_nat n) (seq 0 365)) as Hin by (apply in_seq; lia).
  apply T in Hin. apply andb_true_iff in Hin.
  destruct leapyear; tauto.
Qed.

Lemma days_before_year_cycles a b c e :
  0 <= b <= 3 -> 0 <= c <= 24 -> 0 <= e <= 3 ->
  days_before_year (400 * a + 100 * b + 4 * c + e + 1)
  = 146097 * a + 36524 * b + 1461 * c + 365 * e.
Proof.
  intros Hb Hc He. unfold days_before_year.
  Z.to_euclidean_division_equations. lia.
Qed.

Lemma is_leap_cycles a b c e :
  0 <= b <= 3 -> 0 <= c <= 24 -> 0 <= e <= 3 ->
  is_leap (400 * a + 100 * b + 4 * c + e + 1)
  = (e =? 3) && (negb (c =? 24) || (b =? 3)).
Proof.
  intros Hb Hc He. unfold is_leap.
  apply eq_true_iff_eq.
  rewrite !andb_true_iff, !orb_true_iff, !negb_true_iff,
          !Z.eqb_eq, !Z.eqb_neq.
  Z.to_euclidean_division_equations. lia.
Qed.

Lemma ord2ymd_cycles n :
  exists a b c e r,
    n - 1 = 146097 * a + 36524 * b + 1461 * c + 365 * e + r
    /\ 0 <= b <= 4 /\ 0 <= c <= 24 /\ 0 <= e <= 4 /\ 0 <= r <= 364
    /\ (b = 4 -> c = 0 /\ e = 0 /\ r = 0)
    /\ (e = 4 -> r = 0 /\ c <= 23)
    /\ ord2ymd n =
       if (e =? 4) || (b =? 4)
       then (400 * a + 100 * b + 4 * c + e, 12, 31)
       else
         let '(mo, d) :=
           month_of_yday ((e =? 3) && (negb (c =? 24) || (b =? 3))) r in
         (400 * a + 100 * b + 4 * c + e + 1, mo, d).
Proof.
  unfold ord2ymd, month_of_yday, DI400Y, DI100Y, DI4Y. cbv zeta.
  set (n0 := n - 1).
  set (a := n0 / 146097). set (r400 := n0 mod 146097).
  set (b := r400 / 36524). set (r100 := r400 mod 36524).
  set (c := r100 / 1461). set (r4 := r100 mod 1461).
  set (e := r4 / 365). set (r := r4 mod 365).
  exists a, b, c, e, r.
  assert (n0 = 146097 * a + r400 /\ 0 <= r400 < 146097) as [E1 B1]
    by (subst a r400; split; [apply Z.div_mod | apply Z.mod_pos_bound]; lia).
  assert (r400 = 36524 * b + r100 /\ 0 <= r100 < 36524) as [E2 B2]
    by (subst b r100; split; [apply Z.div_mod | apply Z.mod_pos_bound]; lia).
  assert (r100 = 1461 * c + r4 /\ 0 <= r4 < 1461) as [E3 B3]
    by (subst c r4; split; [apply Z.div_mod | apply Z.mod_pos_bound]; lia).
  assert (r4 = 365 * e + r /\ 0 <= r < 365) as [E4 B4]
    by (subst e r; split; [apply Z.div_mod | apply Z.mod_pos_bound]; lia).
  assert (0 <= b) by (subst b; apply Z.div_pos; lia).
  assert (0 <= c) by (subst c; apply Z.div_pos; lia).
  assert (0 <= e) by (subst e; apply Z.div_pos; lia).
  clearbody n0 a r400 b r100 c r4 e r.
  repeat split; try lia.
  destruct ((e =? 4) || (b =? 4)) eqn:Hsp.
  - f_equal. f_equal. lia.
  - replace (a * 400 + 1 + (b * 100 + c * 4 + e))
      with (400 * a + 100 * b + 4 * c + e + 1) by lia.
    destruct (_ <? _); reflexivity.
Qed.

Lemma ord2ymd_spec n y mo d :
  ord2ymd n = (y, mo, d) ->
  1 <= mo <= 12 /\ 1 <= d <= days_in_month y mo /\ ymd2ord y mo d = n.
Proof.
  destruct (ord2ymd_cycles n)
    as (a & b & c & e & r & En & Hb & Hc & He & Hr & Hb4 & He4 & ->).
  destruct ((e =? 4) || (b =? 4)) eqn:Hsp.
  - intros [= <- <- <-].
    apply orb_true_iff in Hsp. rewrite !Z.eqb_eq in Hsp.
    set (Y := 400 * a + 100 * b + 4 * c + e).
    assert (is_leap Y = true) as HL.
    { unfold is_leap. apply andb_true_iff.
      rewrite orb_true_iff, negb_true_iff, Z.eqb_neq, !Z.eqb_eq.
      subst Y. Z.to_euclidean_division_equations. lia. }
    change (days_in_month Y 12) with 31.
    unfold ymd2ord, days_before_month. rewrite HL.
    change (DAYS_BEFORE_MONTH 12 + (if (2 <? 12) && true then 1 else 0))
      with 335.
    split; [lia|]. split; [lia|].
    unfold days_before_year. subst Y.
    Z.to_euclidean_division_equations. lia.
  - apply orb_false_iff in Hsp. rewrite !Z.eqb_neq in Hsp.
    destruct Hsp as [He' Hb'].
    assert (0 <= b <= 3) as Hb3 by lia.
    assert (0 <= e <= 3) as He3 by lia.
    pose proof (month_of_yday_spec
                  ((e =? 3) && (negb (c =? 24) || (b =? 3))) r Hr) as Hm.
    unfold month_of_yday_ok in Hm.
    destruct (month_of_yday _ r) as [mo' d'].
    intros [= <- <- <-].
    rewrite !andb_true_iff, !Z.leb_le, Z.eqb_eq in Hm.
    destruct Hm as ((((M1 & M2) & D1) & D2) & S).
    unfold ymd2ord, days_in_month, days_before_month.
    rewrite is_leap_cycles, days_before_year_cycles by lia.
    repeat split; try lia.
Qed.

Lemma ord2ymd_year n y mo d :
  1 <= n <= MAXORDINAL -> ord2ymd n = (y, mo, d) ->
  MINYEAR <= y <= MAXYEAR.
Proof.
  unfold MAXORDINAL, MINYEAR, MAXYEAR. intros Hn.
  destruct (ord2ymd_cycles n)
    as (a & b & c & e & r & En & Hb & Hc & He & Hr & Hb4 & He4 & ->).
  destruct ((e =? 4) || (b =? 4)) eqn:Hsp.
  - intros [= <- <- <-].
    apply orb_true_iff in Hsp. rewrite !Z.eqb_eq in Hsp. lia.
  - apply orb_false_iff in Hsp. rewrite !Z.eqb_neq in Hsp.
    destruct (month_of_yday _ r) as [mo' d'].
    intros [= <- <- <-]. lia.
Qed.

Lemma days_before_year_succ y :
  days_before_year (y + 1)
  = days_before_year y + 365 + (if is_leap y then 1 else 0).
Proof.
  unfold days_before_year, is_leap.
  destruct (y mod 4 =? 0) eqn:E4; destruct (y mod 100 =? 0) eqn:E100;
    destruct (y mod 400 =? 0) eqn:E400; cbn [andb orb negb];
    rewrite ?Z.eqb_eq, ?Z.eqb_neq in *;
    Z.to_euclidean_division_equations; lia.
Qed.

Lemma days_before_year_mono y y' :
  y <= y' -> days_before_year y <= days_before_year y'.
Proof.
  unfold days_before_year. intros H.
  Z.to_euclidean_division_equations. lia.
Qed.

Lemma yday_bounds y mo d :
  1 <= mo <= 12 -> 1 <= d <= days_in_month y mo ->
  1 <= days_before_month y mo + d <= 365 + (if is_leap y then 1 else 0).
Proof.
  intros Hmo Hd. unfold days_in_month, days_before_month in *.
  assert (mo = 1 \/ mo = 2 \/ mo = 3 \/ mo = 4 \/ mo = 5 \/ mo = 6 \/ mo = 7
          \/ mo = 8 \/ mo = 9 \/ mo = 10 \/ mo = 11 \/ mo = 12) as Hc by lia.
  destruct (is_leap y);
    repeat (destruct Hc as [-> | Hc]; [cbn in *; lia |]); subst;
    cbn in *; lia.
Qed.

Lemma toordinal_bounds dt :
  valid_datetime dt -> 1 <= toordinal dt <= MAXORDINAL.
Proof.
  intros (Hy & Hmo & Hd & _). unfold toordinal, ymd2ord.
  pose proof (yday_bounds _ _ _ Hmo Hd) as Hyd.
  pose proof (days_before_year_succ (year dt)) as Hs.
  pose proof (days_before_year_mono 1 (year dt)) as H1.
  pose proof (days_before_year_mono (year dt + 1) 10000) as H2.
  change (days_before_year 1) with 0 in H1.
  change (days_before_year 10000) with 3652059 in H2.
  unfold MINYEAR, MAXYEAR, MAXORDINAL in *. lia.
Qed.

Lemma datetime_new_Ok y mo d h mi s us t dt :
  datetime_new y mo d h mi s us t = Ok dt ->
  dt = mk_datetime y mo d h mi s us t /\ valid_datetime dt.
Proof.
  unfold datetime_new, valid_datetime.
  repeat match goal with
         | |- context [negb ((?a <=? ?b) && (?c <=? ?e))] =>
             destruct (Z.leb_spec a b); destruct (Z.leb_spec c e);
             cbn [negb andb]; try discriminate
         end.
  intros [= <-]. cbn. repeat split; lia.
Qed.

Lemma datetime_new_valid dt :
  valid_datetime dt ->
  datetime_new (year dt) (month dt) (day dt) (hour dt) (minute dt)
               (second dt) (microsecond dt) (tz dt) = Ok dt.
Proof.
  intros (Hy & Hmo & Hd & Hh & Hmi & Hs & Hus). unfold datetime_new.
  repeat match goal with
         | |- context [negb ((?a <=? ?b) && (?c <=? ?e))] =>
             destruct (Z.leb_spec a b); destruct (Z.leb_spec c e);
             cbn [negb andb]; try lia
         end.
  destruct dt; reflexivity.
Qed.

Lemma timedelta_new_Ok d h mi s us td :
  timedelta_new d h mi s us = Ok td ->
  timedelta_us td = (d * 86400 + h * 3600 + mi * 60 + s) * 1000000 + us
  /\ normal_timedelta td.
Proof.
  unfold timedelta_new, timedelta_us, normal_timedelta.
  destruct (Z.ltb_spec 999999999
              (Z.abs (d + (s + mi * 60 + h * 3600 + us / 1000000) / 86400)));
    [discriminate|].
  intros [= <-]. cbn [td_days td_seconds td_microseconds].
  split; [|split; [|split]]; try assumption;
    Z.to_euclidean_division_equations; lia.
Qed.

Lemma timedelta_new_total d h mi s us :
  Z.abs ((d * 86400 + h * 3600 + mi * 60 + s) * 1000000 + us)
  <= 999999999 * 86400 * 1000000 ->
  exists td, timedelta_new d h mi s us = Ok td.
Proof.
  intros H. unfold timedelta_new.
  destruct (Z.ltb_spec 999999999
              (Z.abs (d + (s + mi * 60 + h * 3600 + us / 1000000) / 86400)));
    [|eauto].
  exfalso. revert H H0. Z.to_euclidean_division_equations. lia.
Qed.

Lemma epoch_us_bounds dt :
  valid_datetime dt -> MIN_US <= epoch_us dt <= MAX_US.
Proof.
  intros Hv. pose proof (toordinal_bounds dt Hv) as Ho.
  destruct Hv as (_ & _ & _ & Hh & Hmi & Hs & Hus).
  unfold epoch_us, MIN_US, MAX_US, MAXORDINAL in *. lia.
Qed.

Lemma datetime_add_Ok dt td dt' :
  datetime_add dt td = Ok dt' ->
  epoch_us dt' = epoch_us dt + timedelta_us td
  /\ tz dt' = tz dt /\ valid_datetime dt'.
Proof.
  unfold datetime_add, rbind.
  destruct (timedelta_new (toordinal dt) _ _ _ _) as [d0|] eqn:E0;
    [|discriminate].
  apply timedelta_new_Ok in E0 as [U0 N0].
  unfold timedelta_add.
  destruct (timedelta_new (td_days d0 + td_days td) _ _ _ _) as [d1|] eqn:E1;
    [|discriminate].
  apply timedelta_new_Ok in E1 as [U1 (S1 & M1 & _)].
  destruct (Z.ltb_spec 0 (td_days d1)); [|discriminate].
  destruct (Z.leb_spec (td_days d1) MAXORDINAL); [|discriminate].
  cbn [andb].
  destruct (ord2ymd (td_days d1)) as [[y mo] d] eqn:Eo.
  intros [= <-].
  pose proof (ord2ymd_spec _ _ _ _ Eo) as (Hmo & Hd & Hord).
  assert (1 <= td_days d1 <= MAXORDINAL) as Hin by lia.
  pose proof (ord2ymd_year _ _ _ _ Hin Eo) as Hy.
  unfold epoch_us, valid_datetime, toordinal, timedelta_us in *.
  cbn [year month day hour minute second microsecond tz].
  rewrite Hord.
  split; [|split; [reflexivity|]].
  - rewrite <- U0 in *. clear U0.
    Z.to_euclidean_division_equations. lia.
  - repeat split; try lia; Z.to_euclidean_division_equations; lia.
Qed.

Lemma datetime_add_total dt td :
  valid_datetime dt -> normal_timedelta td ->
  MIN_US <= epoch_us dt + timedelta_us td <= MAX_US ->
  exists dt', datetime_add dt td = Ok dt'.
Proof.
  intros Hv (S & M & D) Hr.
  pose proof (epoch_us_bounds dt Hv) as Hb.
  pose proof (toordinal_bounds dt Hv) as Ho.
  destruct Hv as (_ & _ & _ & Hh & Hmi & Hs & Hus).
  unfold datetime_add, rbind.
  destruct (timedelta_new_total (toordinal dt) (hour dt) (minute dt)
              (second dt) (microsecond dt)) as [d0 E0].
  { unfold MAXORDINAL in *. lia. }
  rewrite E0. apply timedelta_new_Ok in E0 as [U0 (S0 & M0 & D0)].
  unfold timedelta_add.
  destruct (timedelta_new_total (td_days d0 + td_days td) 0 0
              (td_seconds d0 + td_seconds td)
              (td_microseconds d0 + td_microseconds td)) as [d1 E1].
  { unfold timedelta_us, epoch_us, MIN_US, MAX_US, MAXORDINAL in *. lia. }
  rewrite E1. apply timedelta_new_Ok in E1 as [U1 (S1 & M1 & D1)].
  assert (0 < td_days d1 <= MAXORDINAL) as Hd1.
  { unfold timedelta_us, epoch_us, MIN_US, MAX_US, MAXORDINAL in *. lia. }
  destruct (Z.ltb_spec 0 (td_days d1)); [|lia].
  destruct (Z.leb_spec (td_days d1) MAXORDINAL); [|lia].
  cbn [andb]. destruct (ord2ymd (td_days d1)) as [[y mo] d]. eauto.
Qed.

Lemma datetime_add_out_of_range dt td :
  valid_datetime dt ->
  ~ (MIN_US <= epoch_us dt + timedelta_us td <= MAX_US) ->
  is_ok (datetime_add dt td) = false.
Proof.
  intros Hv Hr. destruct (datetime_add dt td) as [dt'|] eqn:E; [|reflexivity].
  apply datetime_add_Ok in E as (E & _ & Hv').
  apply epoch_us_bounds in Hv'. lia.
Qed.

Lemma days_before_month_step y mo :
  1 <= mo <= 11 ->
  days_before_month y (mo + 1) = days_before_month y mo + days_in_month y mo.
Proof.
  intros Hmo. unfold days_in_month, days_before_month.
  assert (mo = 1 \/ mo = 2 \/ mo = 3 \/ mo = 4 \/ mo = 5 \/ mo = 6 \/ mo = 7
          \/ mo = 8 \/ mo = 9 \/ mo = 10 \/ mo = 11) as Hc by lia.
  destruct (is_leap y);
    repeat (destruct Hc as [-> | Hc]; [reflexivity |]); subst; reflexivity.
Qed.

Lemma days_before_month_mono y mo mo' :
  1 <= mo -> mo <= mo' -> mo' <= 12 ->
  days_before_month y mo <= days_before_month y mo'.
Proof.
  intros H1 H H12.
  replace mo' with (mo + Z.of_nat (Z.to_nat (mo' - mo))) in * by lia.
  induction (Z.to_nat (mo' - mo)) as [|k IH]; [rewrite Z.add_0_r; lia|].
  rewrite Nat2Z.inj_succ in *.
  replace (mo + Z.succ (Z.of_nat k)) with (mo + Z.of_nat k + 1) in * by lia.
  rewrite days_before_month_step by lia.
  assert (0 < days_in_month y (mo + Z.of_nat k)).
  { unfold days_in_month.
    destruct (_ && _); [lia|].
    assert (mo + Z.of_nat k = 1 \/ mo + Z.of_nat k = 2
          \/ mo + Z.of_nat k = 3 \/ mo + Z.of_nat k = 4
          \/ mo + Z.of_nat k = 5 \/ mo + Z.of_nat k = 6
          \/ mo + Z.of_nat k = 7 \/ mo + Z.of_nat k = 8
          \/ mo + Z.of_nat k = 9 \/ mo + Z.of_nat k = 10
          \/ mo + Z.of_nat k = 11) as Hc by lia.
    repeat (destruct Hc as [-> | Hc]; [reflexivity |]).
    rewrite Hc. reflexivity. }
  specialize (IH ltac:(lia)). lia.
Qed.

(** Distinct valid dates have distinct ordinals. *)
Lemma ymd2ord_inj y mo d y' mo' d' :
  1 <= mo <= 12 -> 1 <= d <= days_in_month y mo ->
  1 <= mo' <= 12 -> 1 <= d' <= days_in_month y' mo' ->
  ymd2ord y mo d = ymd2ord y' mo' d' ->
  y = y' /\ mo = mo' /\ d = d'.
Proof.
  intros Hmo Hd Hmo' Hd' E. unfold ymd2ord in E.
  pose proof (yday_bounds _ _ _ Hmo Hd) as B.
  pose proof (yday_bounds _ _ _ Hmo' Hd') as B'.
  assert (y = y') as <-.
  { pose proof (days_before_year_succ y) as S.
    pose proof (days_before_year_succ y') as S'.
    destruct (Z.lt_trichotomy y y') as [L|[L|L]]; [|exact L|].
    - pose proof (days_before_year_mono (y + 1) y' ltac:(lia)). lia.
    - pose proof (days_before_year_mono (y' + 1) y ltac:(lia)). lia. }
  assert (mo = mo') as <-.
  { destruct (Z.lt_trichotomy mo mo') as [L|[L|L]]; [|exact L|].
    - pose proof (days_before_month_step y mo ltac:(lia)).
      pose proof (days_before_month_mono y (mo + 1) mo'
                    ltac:(lia) ltac:(lia) ltac:(lia)). lia.
    - pose proof (days_before_month_step y mo' ltac:(lia)).
      pose proof (days_before_month_mono y (mo' + 1) mo
                    ltac:(lia) ltac:(lia) ltac:(lia)). lia. }
  repeat split. lia.
Qed.

(** A valid datetime is determined by its reading and its time zone. *)
Lemma epoch_us_inj a b :
  valid_datetime a -> valid_datetime b ->
  epoch_us a = epoch_us b -> tz a = tz b -> a = b.
Proof.
  intros (_ & Amo & Ad & Ah & Ami & As & Aus)
         (_ & Bmo & Bd & Bh & Bmi & Bs & Bus) E T.
  unfold epoch_us, toordinal in E.
  assert (ymd2ord (year a) (month a) (day a)
          = ymd2ord (year b) (month b) (day b)) as Eo by lia.
  destruct (ymd2ord_inj _ _ _ _ _ _ Amo Ad Bmo Bd Eo) as (Ey & Em & Edd).
  destruct a, b. cbn in *. subst. f_equal; lia.
Qed.

End PydatetimeFacts.

(** ** Facts about digit strings *)
Module PyStrFacts.
Import PyStr PyStrSpec.

Lemma chars_str cs : chars (str cs) = cs.
Proof. apply list_ascii_of_string_of_list_ascii. Qed.

Lemma is_digit_not_space c :
  is_digit c = true -> is_space_unicode c = false /\ is_space_ascii c = false.
Proof.
  unfold is_digit, is_space_unicode, is_space_ascii.
  rewrite andb_true_iff, !Z.leb_le. intros H.
  rewrite !orb_false_iff, !andb_false_iff, !Z.leb_gt, !Z.eqb_neq. lia.
Qed.

Lemma is_digit_not_sign c :
  is_digit c = true -> Ascii.eqb c "+" = false /\ Ascii.eqb c "-" = false
                       /\ Ascii.eqb c "_" = false.
Proof.
  intros H. repeat split; apply Ascii.eqb_neq; intros ->; discriminate.
Qed.

Lemma digit_value_range c : is_digit c = true -> 0 <= digit_value c <= 9.
Proof.
  unfold is_digit, digit_value. rewrite andb_true_iff, !Z.leb_le. lia.
Qed.

Lemma int_body_digits cs : forall acc,
  all_digits cs = true ->
  int_body acc false cs
  = Some (fold_left (fun a c => a * 10 + digit_value c) cs acc).
Proof.
  induction cs as [|c cs IH]; intros acc H; [reflexivity|].
  cbn in H. apply andb_true_iff in H as [Hc Hcs].
  cbn [int_body fold_left]. rewrite Hc. apply IH, Hcs.
Qed.

Lemma fold_digits_nonneg cs : forall acc,
  all_digits cs = true -> 0 <= acc ->
  0 <= fold_left (fun a c => a * 10 + digit_value c) cs acc.
Proof.
  induction cs as [|c cs IH]; intros acc H Hacc; [exact Hacc|].
  cbn in H. apply andb_true_iff in H as [Hc Hcs].
  cbn [fold_left]. apply IH; [exact Hcs|].
  pose proof (digit_value_range c Hc). lia.
Qed.

Lemma lstrip_digit sp c cs : sp c = false -> lstrip sp (c :: cs) = c :: cs.
Proof. intros H. cbn. rewrite H. reflexivity. Qed.

Lemma strip_digits sp cs :
  (forall c, is_digit c = true -> sp c = false) ->
  all_digits cs = true -> strip sp cs = cs.
Proof.
  intros Hsp H. unfold strip.
  assert (forall l, all_digits l = true -> lstrip sp l = l) as L.
  { intros [|c l] Hl; [reflexivity|]. cbn in Hl.
    apply andb_true_iff in Hl as [Hc _]. apply lstrip_digit, Hsp, Hc. }
  rewrite (L cs H). rewrite L, rev_involutive; [reflexivity|].
  unfold all_digits in *. rewrite forallb_forall in *. intros x Hx.
  apply H. apply in_rev. exact Hx.
Qed.

Lemma filter_all_digits cs :
  all_digits cs = true -> List.filter is_digit cs = cs.
Proof.
  induction cs as [|c cs IH]; [reflexivity|]. cbn. intros H.
  apply andb_true_iff in H as [Hc Hcs]. rewrite Hc, IH by exact Hcs.
  reflexivity.
Qed.

Lemma int_with_digits sp cs :
  (forall c, is_digit c = true -> sp c = false) ->
  cs <> [] -> all_digits cs = true ->
  int_with sp cs
  = if (MAX_STR_DIGITS <? length cs)%nat then None
    else Some (decimal_value cs).
Proof.
  intros Hsp Hne H. unfold int_with. rewrite (strip_digits sp cs Hsp H).
  destruct cs as [|c cs]; [congruence|].
  pose proof H as H'. cbn in H'. apply andb_true_iff in H' as [Hc _].
  destruct (is_digit_not_sign c Hc) as (-> & -> & _).
  rewrite Hc, (filter_all_digits _ H), (int_body_digits (c :: cs) 0 H).
  destruct (_ <? _)%nat; [reflexivity|]. cbn [option_map].
  f_equal. unfold decimal_value. lia.
Qed.

(** [int] on a run of digits: its value, unless the run is too long. *)
Lemma int_digits cs :
  cs <> [] -> all_digits cs = true ->
  int (str cs)
  = (if (MAX_STR_DIGITS <? length cs)%nat
     then Raise (ValueError "invalid literal for int() with base 10")
     else Ok (decimal_value cs))
  /\ 0 <= decimal_value cs.
Proof.
  intros Hne H. unfold int. rewrite chars_str, int_with_digits; auto.
  - split; [destruct (_ <? _)%nat; reflexivity|].
    apply fold_digits_nonneg; [exact H|lia].
  - intros c Hc. apply is_digit_not_space, Hc.
Qed.

Lemma take_digits_all cs : all_digits (take_digits cs) = true.
Proof.
  induction cs as [|c cs IH]; [reflexivity|]. cbn.
  destruct (is_digit c) eqn:E; [|reflexivity]. cbn. rewrite E. exact IH.
Qed.

Lemma take_digits_split cs :
  exists post, cs = take_digits cs ++ post /\ no_leading_digit post = true.
Proof.
  induction cs as [|c cs (post & E & H)]; [exists []; split; reflexivity|].
  cbn. destruct (is_digit c) eqn:Ec.
  - exists post. split; [cbn; f_equal; exact E | exact H].
  - exists (c :: cs). split; [reflexivity|]. cbn. rewrite Ec. reflexivity.
Qed.

(** [re.search(r"\d+", s)] matches the first maximal run of digits. *)
Lemma search_digits_chars_Some cs g :
  search_digits_chars cs = Some g <->
  exists pre post,
    cs = pre ++ g ++ post /\ no_digit pre = true
    /\ g <> [] /\ all_digits g = true /\ no_leading_digit post = true.
Proof.
  split.
  - revert g. induction cs as [|c cs IH]; intros g; [discriminate|].
    cbn [search_digits_chars].
    destruct (is_digit c) eqn:Ec.
    + intros [= <-]. destruct (take_digits_split (c :: cs)) as (post & E & H).
      exists [], post. cbn [app no_digit forallb].
      repeat split; try assumption.
      * cbn. rewrite Ec. discriminate.
      * apply (take_digits_all (c :: cs)).
    + intros H. destruct (IH g H) as (pre & post & E & Hp & Hg & Hd & Hpost).
      exists (c :: pre), post. subst cs. cbn. rewrite Ec. auto.
  - intros (pre & post & -> & Hp & Hg & Hd & Hpost).
    induction pre as [|c pre IH].
    + destruct g as [|c g]; [congruence|]. cbn in Hd |- *.
      apply andb_true_iff in Hd as [Hc Hd]. rewrite Hc. do 2 f_equal.
      clear Hg Hc c. induction g as [|c g IHg].
      * destruct post as [|c post]; [reflexivity|]. cbn in *.
        apply negb_true_iff in Hpost. rewrite Hpost. reflexivity.
      * cbn in Hd |- *. apply andb_true_iff in Hd as [Hc Hd]. rewrite Hc.
        f_equal. apply IHg, Hd.
    + cbn in Hp |- *. apply andb_true_iff in Hp as [Hc Hp].
      apply negb_true_iff in Hc. rewrite Hc. apply IH, Hp.
Qed.

Lemma search_digits_chars_None cs :
  search_digits_chars cs = None <-> no_digit cs = true.
Proof.
  induction cs as [|c cs IH]; [tauto|]. cbn.
  destruct (is_digit c); cbn; [split; discriminate | exact IH].
Qed.

Lemma is_digit_digit_char d : 0 <= d <= 9 -> is_digit (digit_char d) = true.
Proof.
  intros H.
  assert (d = 0 \/ d = 1 \/ d = 2 \/ d = 3 \/ d = 4 \/ d = 5 \/ d = 6
          \/ d = 7 \/ d = 8 \/ d = 9) as Hc by lia.
  repeat (destruct Hc as [-> | Hc]; [reflexivity|]). subst. reflexivity.
Qed.

Lemma digit_value_digit_char d : 0 <= d <= 9 -> digit_value (digit_char d) = d.
Proof.
  intros H.
  assert (d = 0 \/ d = 1 \/ d = 2 \/ d = 3 \/ d = 4 \/ d = 5 \/ d = 6
          \/ d = 7 \/ d = 8 \/ d = 9) as Hc by lia.
  repeat (destruct Hc as [-> | Hc]; [reflexivity|]). subst. reflexivity.
Qed.

Lemma decimal_value_snoc cs c :
  decimal_value (cs ++ [c]) = decimal_value cs * 10 + digit_value c.
Proof. unfold decimal_value. rewrite fold_left_app. reflexivity. Qed.

(** In range, the padded rendering denotes the number. *)
Lemma decimal_value_zpad w n :
  0 <= n < 10 ^ Z.of_nat w -> decimal_value (zpad w n) = n.
Proof.
  revert n. induction w as [|w IH]; intros n Hn.
  - cbn in *. lia.
  - cbn [zpad]. rewrite decimal_value_snoc, IH.
    + rewrite digit_value_digit_char
        by (pose proof (Z.mod_pos_bound n 10); lia).
      pose proof (Z.div_mod n 10). lia.
    + rewrite Nat2Z.inj_succ, Z.pow_succ_r in Hn by lia.
      split; [apply Z.div_pos; lia|].
      apply Z.div_lt_upper_bound; lia.
Qed.

End PyStrFacts.

(** ** Facts about [relativedelta] and [isoparse] *)
Module DateutilFacts.
Import Pydatetime PydatetimeSpec PydatetimeFacts.
Import Dateutil DateutilSpec.

Lemma carry_sum bound base lo hi lo' hi' :
  0 < base -> carry bound base lo hi = (lo', hi') ->
  lo' + base * hi' = lo + base * hi.
Proof.
  intros Hb. unfold carry, sign.
  destruct (bound <? Z.abs lo); [|intros [= <- <-]; reflexivity].
  destruct (lo <? 0); intros [= <- <-];
    Z.to_euclidean_division_equations; lia.
Qed.

Lemma fix_us rd : relativedelta_us (fix_ rd) = relativedelta_us rd.
Proof.
  unfold fix_, relativedelta_us. destruct rd as [d h mi s us].
  cbn [days hours minutes seconds microseconds].
  destruct (carry 999999 _ us s) as [us1 s1] eqn:E1.
  destruct (carry 59 _ s1 mi) as [s2 mi1] eqn:E2.
  destruct (carry 59 _ mi1 h) as [mi2 h1] eqn:E3.
  destruct (carry 23 _ h1 d) as [h2 d1] eqn:E4.
  apply carry_sum in E1, E2, E3, E4; try lia.
  cbn [days hours minutes seconds microseconds]. lia.
Qed.

Lemma relativedelta_new_us d h mi s us :
  relativedelta_us (relativedelta_new d h mi s us)
  = ((((d * 24 + h) * 60 + mi) * 60 + s) * 1000000) + us.
Proof. unfold relativedelta_new. rewrite fix_us. reflexivity. Qed.

Lemma neg_us rd : relativedelta_us (neg rd) = - relativedelta_us rd.
Proof.
  unfold neg. rewrite relativedelta_new_us. unfold relativedelta_us. lia.
Qed.

Lemma add_replace other :
  valid_datetime other ->
  datetime_new (year other) (month other)
    (Z.min (days_in_month (year other) (month other)) (day other))
    (hour other) (minute other) (second other) (microsecond other)
    (tz other) = Ok other.
Proof.
  intros Hv. rewrite Z.min_r by (destruct Hv as (_ & _ & Hd & _); lia).
  apply datetime_new_valid, Hv.
Qed.

Lemma add_Ok rd other r :
  valid_datetime other -> add rd other = Ok r ->
  epoch_us r = epoch_us other + relativedelta_us rd
  /\ tz r = tz other /\ valid_datetime r.
Proof.
  intros Hv. unfold add. rewrite (add_replace other Hv). cbn [rbind].
  destruct (timedelta_new _ _ _ _ _) as [td|] eqn:E; [|discriminate].
  cbn [rbind]. intros H.
  apply timedelta_new_Ok in E as [U _].
  apply datetime_add_Ok in H as (E & T & V).
  rewrite E, U. unfold relativedelta_us.
  split; [lia|]. split; assumption.
Qed.

Lemma add_total rd other :
  valid_datetime other ->
  MIN_US <= epoch_us other + relativedelta_us rd <= MAX_US ->
  exists r, add rd other = Ok r.
Proof.
  intros Hv Hr. unfold add. rewrite (add_replace other Hv). cbn [rbind].
  pose proof (epoch_us_bounds other Hv) as Hb.
  destruct (timedelta_new_total (days rd) (hours rd) (minutes rd)
              (seconds rd) (microseconds rd)) as [td E].
  { unfold relativedelta_us, MIN_US, MAX_US, MAXORDINAL in *. lia. }
  rewrite E. cbn [rbind].
  apply timedelta_new_Ok in E as [U N].
  apply datetime_add_total; try assumption.
  rewrite U. unfold relativedelta_us in Hr. lia.
Qed.

Lemma add_out_of_range rd other :
  valid_datetime other ->
  ~ (MIN_US <= epoch_us other + relativedelta_us rd <= MAX_US) ->
  is_ok (add rd other) = false.
Proof.
  intros Hv Hr. destruct (add rd other) as [r|] eqn:E; [|reflexivity].
  apply add_Ok in E as (E & _ & Hv'); [|assumption].
  apply epoch_us_bounds in Hv'. lia.
Qed.

(** Adding a relative delta succeeds exactly when the sum is a
    representable datetime. *)
Lemma add_is_ok rd other :
  valid_datetime other ->
  is_ok (add rd other) = in_range (epoch_us other + relativedelta_us rd).
Proof.
  intros Hv. unfold in_range.
  destruct (Z.leb_spec MIN_US (epoch_us other + relativedelta_us rd));
    destruct (Z.leb_spec (epoch_us other + relativedelta_us rd) MAX_US);
    cbn [andb];
    try (apply add_out_of_range; [exact Hv|lia]).
  destruct (add_total rd other Hv) as [r ->]; [lia|reflexivity].
Qed.

Lemma isoparse_valid s dt : isoparse s = Ok dt -> valid_datetime dt.
Proof.
  unfold isoparse.
  destruct (negb (forallb _ _)); [discriminate|].
  destruct (parse_isodate _) as [[[[y mo] d] pos]|]; [|discriminate].
  cbn [rbind].
  destruct (_ <? _)%nat.
  - destruct (parse_isotime _) as [t|]; [|discriminate]. cbn [rbind].
    destruct (it_hour t =? 24).
    + destruct (datetime_new _ _ _ _ _ _ _ _) as [dt0|]; [|discriminate].
      cbn [rbind].
      destruct (timedelta_new 1 0 0 0 0); [|discriminate]. cbn [rbind].
      intros H. apply datetime_add_Ok in H. tauto.
    + intros H. apply datetime_new_Ok in H. tauto.
  - intros H. apply datetime_new_Ok in H. tauto.
Qed.

End DateutilFacts.

(** ** Facts about [strftime] *)
Module RenderFacts.
Import PyStr PyStrSpec PyStrFacts Pydatetime PydatetimeSpec.
Import PydatetimeFacts Lambda RenderSpec.

Lemma mod10_digit n : is_digit (digit_char (n mod 10)) = true.
Proof.
  apply is_digit_digit_char. pose proof (Z.mod_pos_bound n 10). lia.
Qed.

(** [strftime] on [DATETIME_FORMAT], directive by directive. *)
Lemma strftime_DATETIME_FORMAT dt :
  strftime dt DATETIME_FORMAT
  = str (digits 4 (year dt) ++ ["-"%char]
         ++ zpad 2 (month dt) ++ ["-"%char]
         ++ zpad 2 (day dt) ++ ["T"%char]
         ++ zpad 2 (hour dt) ++ [":"%char]
         ++ zpad 2 (minute dt) ++ [":"%char]
         ++ zpad 2 (second dt) ++ ["Z"%char]).
Proof. reflexivity. Qed.

Lemma strftime_JOB_NAME_DATETIME_FORMAT dt :
  strftime dt JOB_NAME_DATETIME_FORMAT
  = str (digits 4 (year dt) ++ zpad 2 (month dt) ++ zpad 2 (day dt)
         ++ ["T"%char]
         ++ zpad 2 (hour dt) ++ zpad 2 (minute dt) ++ zpad 2 (second dt)).
Proof. reflexivity. Qed.

(** From 1000 on a year has its four digits. *)
Lemma digits_zpad n : 1000 <= n <= 9999 -> digits 4 n = zpad 4 n.
Proof.
  intros H. cbn [digits zpad app].
  assert ((n <? 10) = false) as -> by lia.
  assert ((n / 10 <? 10) = false) as ->
      by (apply Z.ltb_ge; Z.to_euclidean_division_equations; lia).
  assert ((n / 10 / 10 <? 10) = false) as ->
      by (apply Z.ltb_ge; Z.to_euclidean_division_equations; lia).
  assert ((n / 10 / 10 / 10 <? 10) = true) as ->
      by (apply Z.ltb_lt; Z.to_euclidean_division_equations; lia).
  assert (n / 10 / 10 / 10 mod 10 = n / 10 / 10 / 10) as ->
      by (Z.to_euclidean_division_equations; lia).
  reflexivity.
Qed.

(** Below 1000 it has fewer. *)
Lemma digits_short n : 0 <= n < 1000 -> (length (digits 4 n) < 4)%nat.
Proof.
  intros H. cbn [digits].
  destruct (n <? 10) eqn:E1; [cbn; lia|].
  destruct (n / 10 <? 10) eqn:E2; [cbn; lia|].
  destruct (n / 10 / 10 <? 10) eqn:E3; [cbn; lia|].
  exfalso. apply Z.ltb_ge in E3.
  Z.to_euclidean_division_equations. lia.
Qed.

Lemma strftime_DATETIME_FORMAT_4 dt :
  1000 <= year dt <= 9999 ->
  strftime dt DATETIME_FORMAT
  = str (zpad 4 (year dt) ++ ["-"%char]
         ++ zpad 2 (month dt) ++ ["-"%char]
         ++ zpad 2 (day dt) ++ ["T"%char]
         ++ zpad 2 (hour dt) ++ [":"%char]
         ++ zpad 2 (minute dt) ++ [":"%char]
         ++ zpad 2 (second dt) ++ ["Z"%char]).
Proof.
  intros H. rewrite strftime_DATETIME_FORMAT, digits_zpad by exact H.
  reflexivity.
Qed.

Lemma strftime_JOB_NAME_DATETIME_FORMAT_4 dt :
  1000 <= year dt <= 9999 ->
  strftime dt JOB_NAME_DATETIME_FORMAT
  = str (zpad 4 (year dt) ++ zpad 2 (month dt) ++ zpad 2 (day dt)
         ++ ["T"%char]
         ++ zpad 2 (hour dt) ++ zpad 2 (minute dt) ++ zpad 2 (second dt)).
Proof.
  intros H. rewrite strftime_JOB_NAME_DATETIME_FORMAT, digits_zpad
    by exact H.
  reflexivity.
Qed.

(** A rendering has the shape [dddd-dd-ddTdd:dd:ddZ] from the year 1000
    on, and only then. *)
Lemma strftime_shape dt :
  1000 <= year dt <= 9999 ->
  is_DATETIME_FORMAT (strftime dt DATETIME_FORMAT) = true.
Proof.
  intros H. unfold is_DATETIME_FORMAT.
  rewrite strftime_DATETIME_FORMAT_4 by exact H.
  rewrite chars_str. cbn [zpad app all_digits forallb].
  rewrite !mod10_digit. reflexivity.
Qed.

Lemma strftime_length dt :
  length (chars (strftime dt DATETIME_FORMAT))
  = (length (digits 4 (year dt)) + 16)%nat.
Proof.
  rewrite strftime_DATETIME_FORMAT, chars_str.
  rewrite length_app. reflexivity.
Qed.

Lemma strftime_no_shape dt :
  0 <= year dt < 1000 ->
  is_DATETIME_FORMAT (strftime dt DATETIME_FORMAT) = false.
Proof.
  intros H. pose proof (digits_short _ H) as L.
  pose proof (strftime_length dt) as E.
  unfold is_DATETIME_FORMAT.
  destruct (chars (strftime dt DATETIME_FORMAT))
    as [|? [|? [|? [|? [|? [|? [|? [|? [|? [|? [|? [|? [|? [|? [|?
       [|? [|? [|? [|? [|? [|? ?]]]]]]]]]]]]]]]]]]]]];
    try reflexivity.
  cbn [length] in E. lia.
Qed.

Lemma days_in_month_le y mo : days_in_month y mo <= 31.
Proof.
  unfold days_in_month, DAYS_IN_MONTH.
  destruct ((mo =? 2) && is_leap y); [lia|].
  destruct mo as [|p|p]; cbn; try lia.
  repeat (destruct p as [p|p|]; cbn; try lia).
Qed.

Lemma strftime_fields dt :
  valid_datetime dt -> 1000 <= year dt ->
  rendered_fields (strftime dt DATETIME_FORMAT) = fields dt.
Proof.
  intros (Hy & Hmo & Hd & Hh & Hmi & Hs & _) Hy4.
  pose proof (days_in_month_le (year dt) (month dt)).
  unfold MINYEAR, MAXYEAR in Hy.
  unfold rendered_fields, fields.
  rewrite strftime_DATETIME_FORMAT_4 by lia.
  rewrite chars_str.
  cbn [zpad app slice firstn skipn Nat.sub].
  change [digit_char (year dt / 10 / 10 / 10 mod 10);
          digit_char (year dt / 10 / 10 mod 10);
          digit_char (year dt / 10 mod 10); digit_char (year dt mod 10)]
    with (zpad 4 (year dt)).
  change [digit_char (month dt / 10 mod 10); digit_char (month dt mod 10)]
    with (zpad 2 (month dt)).
  change [digit_char (day dt / 10 mod 10); digit_char (day dt mod 10)]
    with (zpad 2 (day dt)).
  change [digit_char (hour dt / 10 mod 10); digit_char (hour dt mod 10)]
    with (zpad 2 (hour dt)).
  change [digit_char (minute dt / 10 mod 10); digit_char (minute dt mod 10)]
    with (zpad 2 (minute dt)).
  change [digit_char (second dt / 10 mod 10); digit_char (second dt mod 10)]
    with (zpad 2 (second dt)).
  rewrite !decimal_value_zpad by (cbn; lia). reflexivity.
Qed.

End RenderFacts.

(** ** Facts about [lambda_handler] *)
Module LambdaFacts.
Import Requests Runtime Lambda LambdaSpec.

Lemma get_temporal_start_datetime_returns query_end w sent :
  get_temporal_start_datetime query_end w sent
  = (Ok (temporal_start_of w query_end), sent).
Proof.
  unfold temporal_start_of, get_temporal_start_datetime, try_except, bind,
    lift, ret, environ_get_default.
  destruct (PyStr.int _); [|reflexivity].
  destruct (Dateutil.rsub _ _); reflexivity.
Qed.

Ltac unfold_handler :=
  unfold lambda_handler, flag_param, search_group, isoparse_value,
    event_time, bind, ret, raise, lift, environ_getitem, environ_get,
    datetime_utcnow.

(** When every step before it succeeds, the handler is its final call. *)
Lemma lambda_handler_prepared url w event p sent :
  prepares w event p ->
  lambda_handler url event w sent = submission url w p w sent.
Proof.
  intros Hp. unfold_handler.
  rewrite (pr_time _ _ _ Hp). cbv beta iota.
  rewrite (pr_query_end _ _ _ Hp), (pr_MINUTES _ _ _ Hp). cbv beta iota.
  rewrite (pr_minutes _ _ _ Hp), (pr_m _ _ _ Hp), (pr_query_start _ _ _ Hp).
  rewrite get_temporal_start_datetime_returns.
  rewrite <- (pr_temporal_start _ _ _ Hp).
  rewrite (pr_JOB_TYPE _ _ _ Hp), (pr_JOB_RELEASE _ _ _ Hp),
    (pr_JOB_QUEUE _ _ _ Hp), (pr_ENDPOINT _ _ _ Hp),
    (pr_DOWNLOAD_JOB_QUEUE _ _ _ Hp), (pr_CHUNK_SIZE _ _ _ Hp).
  rewrite (pr_SMOKE_RUN _ _ _ Hp), (pr_smoke_run _ _ _ Hp),
    (pr_DRY_RUN _ _ _ Hp), (pr_dry_run _ _ _ Hp),
    (pr_NO_SCHEDULE_DOWNLOAD _ _ _ Hp), (pr_no_schedule_download _ _ _ Hp),
    (pr_USE_TEMPORAL _ _ _ Hp), (pr_use_temporal _ _ _ Hp).
  rewrite (pr_bounding_box _ _ _ Hp).
  reflexivity.
Qed.

(** Otherwise it raises before anything is sent. *)
Lemma lambda_handler_cases url w event sent :
  (exists p, prepares w event p)
  \/ (exists e, lambda_handler url event w sent = (Raise e, sent)).
Proof.
  unfold_handler.
  destruct (Dict.get event "time") as [[| | |time| |]|] eqn:Htime;
    try (right; eexists; reflexivity);
    try (right; cbn [len]; destruct (_ <? 4)%nat; eexists; reflexivity).
  destruct (Dateutil.isoparse time) as [qe|] eqn:Hqe;
    [|right; eexists; reflexivity].
  destruct (environ w !! "MINUTES") as [MINUTES|] eqn:HMIN;
    [|right; eexists; reflexivity].
  destruct (PyStr.search_digits MINUTES) as [minutes|] eqn:Hmin;
    [|right; eexists; reflexivity].
  destruct (PyStr.int minutes) as [m|] eqn:Hm;
    [|right; eexists; reflexivity].
  destruct (Dateutil.add _ qe) as [qs|] eqn:Hqs;
    [|right; eexists; reflexivity].
  rewrite get_temporal_start_datetime_returns.
  destruct (environ w !! "JOB_TYPE") as [JT|] eqn:HJT;
    [|right; eexists; reflexivity].
  destruct (environ w !! "JOB_RELEASE") as [JR|] eqn:HJR;
    [|right; eexists; reflexivity].
  destruct (environ w !! "JOB_QUEUE") as [JQ|] eqn:HJQ;
    [|right; eexists; reflexivity].
  destruct (environ w !! "ENDPOINT") as [EP|] eqn:HEP;
    [|right; eexists; reflexivity].
  destruct (environ w !! "DOWNLOAD_JOB_QUEUE") as [DJQ|] eqn:HDJQ;
    [|right; eexists; reflexivity].
  destruct (environ w !! "CHUNK_SIZE") as [CS|] eqn:HCS;
    [|right; eexists; reflexivity].
  destruct (environ w !! "SMOKE_RUN") as [SR|] eqn:HSR;
    [|right; eexists; reflexivity].
  destruct (Distutils.strtobool SR) as [sr|] eqn:Hsr;
    [|right; eexists; reflexivity].
  destruct (environ w !! "DRY_RUN") as [DR|] eqn:HDR;
    [|right; eexists; reflexivity].
  destruct (Distutils.strtobool DR) as [dr|] eqn:Hdr;
    [|right; eexists; reflexivity].
  destruct (environ w !! "NO_SCHEDULE_DOWNLOAD") as [NS|] eqn:HNS;
    [|right; eexists; reflexivity].
  destruct (Distutils.strtobool NS) as [ns|] eqn:Hns;
    [|right; eexists; reflexivity].
  destruct (environ w !! "USE_TEMPORAL") as [UT|] eqn:HUT;
    [|right; eexists; reflexivity].
  destruct (Distutils.strtobool UT) as [ut|] eqn:Hut;
    [|right; eexists; reflexivity].
  left.
  exists (mk_prepared time qe MINUTES minutes m qs
            (temporal_start_of w qe) (environ w !! "BOUNDING_BOX")
            JT JR JQ EP DJQ CS SR sr DR dr NS ns UT ut).
  constructor; cbn; auto.
Qed.

End LambdaFacts.

(** ** Facts about [submit_job] and [strtobool] *)
Module SubmitFacts.
Import Requests Runtime Lambda SubmitSpec.

Lemma mem_keys {V} k (d : list (string * V)) :
  Dict.mem k (Dict.keys d) = true <-> Dict.get d k <> None.
Proof.
  induction d as [|[k' v] d IH]; cbn; [split; [discriminate|congruence]|].
  destruct (String.eqb k k'); cbn; [split; [discriminate|reflexivity]|].
  exact IH.
Qed.

Lemma mem_keys_false {V} k (d : list (string * V)) :
  Dict.mem k (Dict.keys d) = false <-> Dict.get d k = None.
Proof.
  pose proof (mem_keys k d) as H.
  destruct (Dict.mem k (Dict.keys d)), (Dict.get d k);
    split; try congruence; intros; exfalso; intuition congruence.
Qed.

Lemma raise_for_status_spec r :
  raise_for_status r
  = if is_error_status (status_code r)
    then Raise (HTTPError (status_code r)) else Ok tt.
Proof.
  unfold raise_for_status, is_error_status.
  destruct (Z.leb_spec 400 (status_code r)), (Z.ltb_spec (status_code r) 500),
    (Z.leb_spec 500 (status_code r)), (Z.ltb_spec (status_code r) 600);
    cbn; try reflexivity; lia.
Qed.

(** [submit_job] sends exactly one request, whatever comes back. *)
Lemma submit_job_sent url name spec jp queue tags prio w sent :
  snd (submit_job url name spec jp queue tags prio w sent)
  = sent ++ [request_of url name spec jp queue tags prio].
Proof.
  unfold submit_job, result_keys, result_getitem, bind, requests_post,
    lift, ret, raise.
  fold (form_of name spec jp queue tags prio).
  fold (request_of url name spec jp queue tags prio).
  destruct (service w _) as [resp|]; [|reflexivity].
  destruct (raise_for_status resp); [|reflexivity].
  destruct (json resp) as [[| | | | |d]|]; try reflexivity.
  destruct (Dict.mem "result" (Dict.keys d)
            && Dict.mem "success" (Dict.keys d))%bool;
    [|reflexivity].
  destruct (Dict.get d "success") as [v|]; [|reflexivity].
  destruct (is_True v); [|reflexivity].
  destruct (Dict.get d "result"); reflexivity.
Qed.

(** The outcome of [submit_job] as a function of the answer. *)
Lemma submit_job_result url name spec jp queue tags prio w sent :
  fst (submit_job url name spec jp queue tags prio w sent)
  = match service w (request_of url name spec jp queue tags prio) with
    | Raise e => Raise e
    | Ok resp =>
        if is_error_status (status_code resp)
        then Raise (HTTPError (status_code resp))
        else
          match json resp with
          | Raise e => Raise e
          | Ok (PDict d) =>
              match Dict.get d "result", Dict.get d "success" with
              | Some v, Some (PBool true) => Ok v
              | _, _ =>
                  Raise (Exception_ "job not submitted successfully: "
                                    (PDict d))
              end
          | Ok _ => Raise (AttributeError "object has no attribute 'keys'")
          end
    end.
Proof.
  unfold submit_job, result_keys, result_getitem, bind, requests_post,
    lift, ret, raise.
  fold (form_of name spec jp queue tags prio).
  fold (request_of url name spec jp queue tags prio).
  destruct (service w _) as [resp|]; [|reflexivity].
  rewrite raise_for_status_spec.
  destruct (is_error_status _); [reflexivity|].
  destruct (json resp) as [[| | | | |d]|]; try reflexivity.
  destruct (Dict.mem "result" (Dict.keys d)) eqn:Hr;
    destruct (Dict.mem "success" (Dict.keys d)) eqn:Hs; cbn [andb];
    rewrite ?mem_keys_false in *;
    rewrite ?Hr, ?Hs; try reflexivity.
  - apply mem_keys in Hr, Hs.
    destruct (Dict.get d "success") as [v|]; [|congruence].
    destruct (Dict.get d "result") as [v'|]; [|congruence].
    destruct v as [|[]| | | |]; reflexivity.
  - destruct (Dict.get d "result"); reflexivity.
Qed.

Lemma strtobool_spec v :
  Distutils.strtobool v
  = if is_token TRUE_TOKENS v then Ok 1
    else if is_token FALSE_TOKENS v then Ok 0
    else Raise (ValueError ("invalid truth value " +:+ PyStr.lower v)).
Proof. reflexivity. Qed.

Lemma strtobool_Ok v b :
  Distutils.strtobool v = Ok b ->
  truthy b = is_token TRUE_TOKENS v
  /\ (is_token TRUE_TOKENS v = false -> is_token FALSE_TOKENS v = true).
Proof.
  rewrite strtobool_spec.
  destruct (is_token TRUE_TOKENS v);
    [intros [= <-]; split; [reflexivity|discriminate]|].
  destruct (is_token FALSE_TOKENS v); [|discriminate].
  intros [= <-]. split; reflexivity.
Qed.

End SubmitFacts.

(** ** Facts about the readers *)
Module WireFacts.
Import PyStr PyStrSpec PyStrFacts Requests SubmitSpec WireSpec.

Lemma str_chars s : str (chars s) = s.
Proof. apply string_of_list_ascii_of_string. Qed.

(** **** The form body *)

Lemma quote_plus_char_quoted c :
  forallb is_quoted (quote_plus_char c) = true.
Proof. destruct c as [[] [] [] [] [] [] [] []]; vm_compute; reflexivity. Qed.

Lemma quote_plus_quoted s : forallb is_quoted (quote_plus s) = true.
Proof.
  unfold quote_plus. induction s as [|c s IH]; [reflexivity|].
  cbn [flat_map]. rewrite forallb_app, quote_plus_char_quoted, IH.
  reflexivity.
Qed.

Lemma occurrences_app c a b :
  occurrences c (a ++ b) = (occurrences c a + occurrences c b)%nat.
Proof.
  unfold occurrences. rewrite List.filter_app, length_app. reflexivity.
Qed.

Lemma occurrences_quoted c s :
  is_quoted c = false -> forallb is_quoted s = true ->
  occurrences c s = 0%nat.
Proof.
  intros Hc. unfold occurrences. induction s as [|x s IH]; [reflexivity|].
  cbn [forallb List.filter]. intros H. apply andb_prop in H as [Hx Hs].
  destruct (Ascii.eqb c x) eqn:E; [|apply IH, Hs].
  apply Ascii.eqb_eq in E. congruence.
Qed.

Lemma form_item_fields k v :
  let item := quote_plus k ++ "="%char :: quote_plus v in
  occurrences "&" item = 0%nat
  /\ occurrences "=" item = 1%nat
  /\ forallb (fun c => is_quoted c || Ascii.eqb c "&" || Ascii.eqb c "=")
             item = true.
Proof.
  pose proof (quote_plus_quoted k) as Qk.
  pose proof (quote_plus_quoted v) as Qv.
  cbv zeta.
  change ("="%char :: quote_plus v) with (["="%char] ++ quote_plus v).
  rewrite !occurrences_app, !forallb_app.
  rewrite (occurrences_quoted "&" (quote_plus k)),
    (occurrences_quoted "&" (quote_plus v)),
    (occurrences_quoted "=" (quote_plus k)),
    (occurrences_quoted "=" (quote_plus v)) by (assumption || reflexivity).
  split; [reflexivity|]. split; [reflexivity|].
  rewrite !andb_true_iff. repeat split.
  - rewrite forallb_forall in *. intros x Hx. rewrite (Qk x Hx). reflexivity.
  - rewrite forallb_forall in *. intros x Hx. rewrite (Qv x Hx). reflexivity.
Qed.

Lemma form_body_fields d :
  let body := chars (form_body d) in
  occurrences "&" body = Nat.pred (length d)
  /\ occurrences "=" body = length d
  /\ forallb (fun c => is_quoted c || Ascii.eqb c "&" || Ascii.eqb c "=")
             body = true.
Proof.
  unfold form_body. rewrite chars_str.
  induction d as [|kv d IH]; [repeat split|].
  destruct (form_item_fields (chars (fst kv)) (form_value_str (snd kv)))
    as (I1 & I2 & I3).
  cbn [map].
  set (item := quote_plus (chars (fst kv))
               ++ "="%char :: quote_plus (form_value_str (snd kv))) in *.
  destruct d as [|kv' d].
  - cbn [map join_amp length Nat.pred]. auto.
  - destruct IH as (IH1 & IH2 & IH3).
    set (rest := map _ (kv' :: d)) in *.
    assert (join_amp (item :: rest) = item ++ ["&"%char] ++ join_amp rest)
      as -> by reflexivity.
    rewrite !occurrences_app, !forallb_app.
    rewrite I1, I2, I3, IH1, IH2, IH3.
    cbn [length Nat.pred]. repeat split; cbn; lia.
Qed.

Lemma percent_decode_quote_plus_char c rest :
  percent_decode (quote_plus_char c ++ rest)
  = option_map (app (utf8_char c)) (percent_decode rest).
Proof.
  destruct c as [[] [] [] [] [] [] [] []]; simpl;
    destruct (percent_decode rest); reflexivity.
Qed.

Lemma utf8_decode_utf8_char c rest :
  utf8_decode (utf8_char c ++ rest) = option_map (cons c) (utf8_decode rest).
Proof.
  destruct c as [[] [] [] [] [] [] [] []]; simpl;
    destruct (utf8_decode rest); reflexivity.
Qed.

Lemma percent_decode_quote_plus s :
  percent_decode (quote_plus s) = Some (flat_map utf8_char s).
Proof.
  unfold quote_plus. induction s as [|c s IH]; [reflexivity|].
  cbn [flat_map]. rewrite percent_decode_quote_plus_char, IH. reflexivity.
Qed.

Lemma utf8_decode_flat_map s : utf8_decode (flat_map utf8_char s) = Some s.
Proof.
  induction s as [|c s IH]; [reflexivity|].
  cbn [flat_map]. rewrite utf8_decode_utf8_char, IH. reflexivity.
Qed.

(** [unquote_plus] undoes [quote_plus]. *)
Lemma unquote_plus_quote_plus s : unquote_plus (quote_plus s) = Some s.
Proof.
  unfold unquote_plus.
  rewrite percent_decode_quote_plus. apply utf8_decode_flat_map.
Qed.

Lemma cut_quoted sep a b :
  is_quoted sep = false -> forallb is_quoted a = true ->
  cut sep (a ++ sep :: b) = (a, b).
Proof.
  intros Hs. induction a as [|x a IH]; cbn [app cut forallb]; intros H.
  - rewrite Ascii.eqb_refl. reflexivity.
  - apply andb_prop in H as [Hx Ha].
    destruct (Ascii.eqb x sep) eqn:E;
      [apply Ascii.eqb_eq in E; congruence|].
    rewrite (IH Ha). reflexivity.
Qed.

Lemma split_on_last sep a :
  forallb (fun c => negb (Ascii.eqb c sep)) a = true ->
  split_on sep a = [a].
Proof.
  induction a as [|x a IH]; [reflexivity|].
  cbn [forallb split_on]. intros H. apply andb_prop in H as [Hx Ha].
  apply negb_true_iff in Hx. rewrite Hx, (IH Ha). reflexivity.
Qed.

Lemma split_on_app sep a b :
  forallb (fun c => negb (Ascii.eqb c sep)) a = true ->
  split_on sep (a ++ sep :: b) = a :: split_on sep b.
Proof.
  induction a as [|x a IH]; cbn [app forallb split_on]; intros H.
  - rewrite Ascii.eqb_refl. reflexivity.
  - apply andb_prop in H as [Hx Ha].
    apply negb_true_iff in Hx. rewrite Hx, (IH Ha). reflexivity.
Qed.

Lemma form_item_no_amp k v :
  forallb (fun c => negb (Ascii.eqb c "&"))
          (quote_plus k ++ "="%char :: quote_plus v) = true.
Proof.
  assert (forall s, forallb is_quoted s = true ->
                    forallb (fun c => negb (Ascii.eqb c "&")) s = true)
    as Hq.
  { intros s Hs. rewrite forallb_forall in *. intros x Hx.
    specialize (Hs x Hx). apply negb_true_iff, Ascii.eqb_neq.
    intros ->. discriminate Hs. }
  rewrite forallb_app. cbn [forallb].
  rewrite !Hq by apply quote_plus_quoted. reflexivity.
Qed.

Lemma read_field_item k v :
  read_field (quote_plus k ++ "="%char :: quote_plus v)
  = Some (str k, str v).
Proof.
  unfold read_field.
  rewrite cut_quoted by (reflexivity || apply quote_plus_quoted).
  rewrite !unquote_plus_quote_plus. reflexivity.
Qed.

(** Reading a form body gives back the pairs it was made of. *)
Lemma parse_form_form_body d :
  parse_form (form_body d)
  = Some (map (fun kv => (fst kv, str (form_value_str (snd kv)))) d).
Proof.
  unfold parse_form, form_body. rewrite chars_str.
  destruct d as [|kv d]; [reflexivity|].
  assert (read_fields
            (split_on "&"
               (join_amp
                  (map (fun kv => quote_plus (chars (fst kv))
                                  ++ "="%char
                                     :: quote_plus (form_value_str (snd kv)))
                       (kv :: d))))
          = Some (map (fun kv => (fst kv, str (form_value_str (snd kv))))
                      (kv :: d))) as H.
  { revert kv. induction d as [|kv' d IH]; intros kv.
    - cbn [map join_amp].
      rewrite split_on_last by apply form_item_no_amp.
      cbn [read_fields]. rewrite read_field_item, str_chars. reflexivity.
    - specialize (IH kv').
      change (join_amp (map _ (kv :: kv' :: d)))
        with ((quote_plus (chars (fst kv))
               ++ "="%char :: quote_plus (form_value_str (snd kv)))
              ++ "&"%char
                 :: join_amp
                      (map (fun kv => quote_plus (chars (fst kv))
                                      ++ "="%char
                                         :: quote_plus
                                              (form_value_str (snd kv)))
                           (kv' :: d))).
      rewrite split_on_app by apply form_item_no_amp.
      cbn [read_fields]. rewrite IH, read_field_item, str_chars.
      reflexivity. }
  destruct (join_amp _) as [|c cs] eqn:E; [|exact H].
  exfalso. cbn [map] in E.
  destruct (quote_plus (chars (fst kv))) as [|q qs] eqn:Q;
    destruct d; cbn in E; rewrite ?Q in E; cbn in E; discriminate E.
Qed.

(** **** JSON texts *)

(** Induction on values, through lists and dictionaries. *)
Lemma pyval_induction (P : pyval -> Prop) :
  P PNone -> (forall b, P (PBool b)) -> (forall z, P (PInt z)) ->
  (forall s, P (PStr s)) ->
  (forall l, Forall P l -> P (PList l)) ->
  (forall d, Forall (fun kv => P (snd kv)) d -> P (PDict d)) ->
  forall v, P v.
Proof.
  intros HN HB HI HS HL HD. fix IH 1. intros [|b|z|s|l|d].
  - exact HN.
  - apply HB.
  - apply HI.
  - apply HS.
  - apply HL.
    revert l. fix go 1. intros [|x l']; constructor; [apply IH|apply go].
  - apply HD.
    revert d. fix go 1. intros [|kv d']; constructor; [apply IH|apply go].
Qed.

Lemma read_chars_escape_char c rest :
  read_chars (Json.escape_char c ++ rest) = push c (read_chars rest).
Proof.
  destruct c as [[] [] [] [] [] [] [] []]; simpl;
    destruct (read_chars rest) as [[? ?]|]; reflexivity.
Qed.

Lemma read_chars_encode s rest :
  read_chars (flat_map Json.escape_char s ++ Json.quote :: rest)
  = Some (s, rest).
Proof.
  induction s as [|c s IH]; [reflexivity|].
  cbn [flat_map]. rewrite <- app_assoc, read_chars_escape_char, IH.
  reflexivity.
Qed.

Lemma string_of_uint_digits d :
  forallb is_digit (chars (NilEmpty.string_of_uint d)) = true.
Proof. induction d; cbn; try exact IHd; reflexivity. Qed.

Lemma str_of_int_number z :
  forallb is_number_char (Json.str_of_int z) = true
  /\ Json.str_of_int z <> [].
Proof.
  assert (forall d, forallb is_number_char
                      (chars (NilEmpty.string_of_uint d)) = true) as Hd.
  { intros d. pose proof (string_of_uint_digits d) as H.
    rewrite forallb_forall in *. intros x Hx. unfold is_number_char.
    rewrite (H x Hx). reflexivity. }
  assert (forall p, NilZero.string_of_uint (Pos.to_uint p)
                    = NilEmpty.string_of_uint (Pos.to_uint p)
                    /\ NilEmpty.string_of_uint (Pos.to_uint p) <> "")
    as Hp.
  { intros p. pose proof (Unsigned.to_uint_nonnil p) as Hn.
    destruct (Pos.to_uint p); try contradiction; split; try reflexivity;
      discriminate. }
  unfold Json.str_of_int. destruct z as [|p|p]; cbn [Z.to_int].
  - split; [reflexivity|discriminate].
  - cbn [NilZero.string_of_int]. destruct (Hp p) as [-> Hne].
    split; [apply Hd|].
    destruct (NilEmpty.string_of_uint (Pos.to_uint p));
      [contradiction|discriminate].
  - cbn [NilZero.string_of_int]. destruct (Hp p) as [-> Hne].
    split; [|discriminate].
    change (chars (String "-" ?s)) with ("-"%char :: chars s).
    cbn [chars list_ascii_of_string forallb]. apply Hd.
Qed.

Lemma to_uint_head p :
  match Pos.to_uint p with
  | Decimal.Nil | Decimal.D0 _ => False
  | _ => True
  end.
Proof.
  pose proof (Unsigned.to_of (Pos.to_uint p)) as H.
  rewrite Unsigned.of_to in H. cbn [N.to_uint] in H. symmetry in H.
  pose proof (Unsigned.to_uint_nonzero p) as Hz.
  destruct (Pos.to_uint p) as [|u| | | | | | | | |]; try exact I.
  - discriminate.
  - rewrite DecimalFacts.unorm_D0 in H.
    destruct u as [|u| | | | | | | | |]; try (apply Hz; reflexivity);
      match type of H with
      | _ = Decimal.D0 ?v =>
          assert (Hn : v <> Decimal.Nil) by discriminate;
          pose proof (DecimalFacts.nb_digits_unorm v Hn) as Hl;
          rewrite H in Hl; cbn [Decimal.nb_digits] in Hl; lia
      end.
Qed.

Lemma str_of_int_integer z : is_integer (Json.str_of_int z) = true.
Proof.
  assert (forall p, is_integer
                      (chars (NilEmpty.string_of_uint (Pos.to_uint p)))
                    = true
                    /\ NilZero.string_of_uint (Pos.to_uint p)
                       = NilEmpty.string_of_uint (Pos.to_uint p)) as Hp.
  { intros p. pose proof (to_uint_head p) as Hh.
    destruct (Pos.to_uint p) as [|u|u|u|u|u|u|u|u|u|u]; try contradiction;
      (split; [|reflexivity]);
      unfold is_integer;
      cbn [NilEmpty.string_of_uint chars list_ascii_of_string];
      match goal with
      | |- context [ord ?c =? 45] =>
          change (ord c =? 45) with false; cbv iota;
          change (ord c =? 48) with false
      end;
      cbn [negb orb forallb]; rewrite andb_true_r;
      change (is_digit _) with true at 1; cbn [andb];
      apply string_of_uint_digits. }
  unfold Json.str_of_int. destruct z as [|p|p]; cbn [Z.to_int].
  - reflexivity.
  - cbn [NilZero.string_of_int]. destruct (Hp p) as [H ->]. exact H.
  - cbn [NilZero.string_of_int]. destruct (Hp p) as [H ->].
    change (chars (String "-" ?s)) with ("-"%char :: chars s).
    unfold is_integer in *. change (ord "-" =? 45) with true. cbv iota.
    destruct (chars (NilEmpty.string_of_uint (Pos.to_uint p)))
      as [|c r] eqn:E; [discriminate|].
    destruct (ord c =? 45) eqn:E45; [|exact H].
    pose proof (string_of_uint_digits (Pos.to_uint p)) as Hd.
    rewrite E in Hd. cbn [forallb] in Hd. apply andb_prop in Hd as [Hd _].
    unfold is_digit in Hd. apply Z.eqb_eq in E45. lia.
Qed.

Lemma span_number_app n rest :
  forallb is_number_char n = true -> number_ends rest = true ->
  span_number (n ++ rest) = (n, rest).
Proof.
  intros Hn Hr. induction n as [|c n IH]; cbn [app].
  - destruct rest as [|c r]; [reflexivity|].
    cbn [number_ends] in Hr. apply negb_true_iff in Hr.
    cbn [span_number]. rewrite Hr. reflexivity.
  - cbn [forallb] in Hn. apply andb_prop in Hn as [Hc Hn].
    cbn [span_number]. rewrite Hc, (IH Hn). reflexivity.
Qed.

Lemma read_int_str_of_int z rest :
  number_ends rest = true ->
  read_int (Json.str_of_int z ++ rest) = Some (z, rest).
Proof.
  intros Hr. unfold read_int.
  rewrite span_number_app by (apply str_of_int_number || exact Hr).
  rewrite str_of_int_integer.
  unfold Json.str_of_int. rewrite str_chars, NilZero.isi.
  - rewrite DecimalZ.of_to. reflexivity.
  - destruct z; cbn; try discriminate.
    intros [= H]. exact (Unsigned.to_uint_nonnil _ H).
  - destruct z; cbn; try discriminate.
    intros [= H]. exact (Unsigned.to_uint_nonnil _ H).
Qed.

Lemma ord_neq_eqb c d : ord c <> ord d -> Ascii.eqb d c = false.
Proof. intros H. apply Ascii.eqb_neq. intros ->. apply H. reflexivity. Qed.

Lemma skip_ws_head c r : is_ws c = false -> skip_ws (c :: r) = c :: r.
Proof. intros H. unfold skip_ws. cbn [lstrip]. rewrite H. reflexivity. Qed.

Lemma size_pos v : (1 <= size v)%nat.
Proof. destruct v; cbn; lia. Qed.

Lemma number_char_ord c :
  is_number_char c = true -> ord c = 45 \/ 48 <= ord c <= 57.
Proof.
  unfold is_number_char, is_digit.
  rewrite orb_true_iff, andb_true_iff, !Z.leb_le, Z.eqb_eq. tauto.
Qed.

(** An encoding starts with a character that is neither white space
    nor a closing bracket. *)
Lemma encode_head v :
  exists c r,
    Json.encode v = c :: r /\ is_ws c = false
    /\ (ord c =? 93) = false /\ (ord c =? 125) = false.
Proof.
  destruct v as [|[]|z|s|l|d]; try (eexists _, _; repeat split; fail).
  cbn [Json.encode]. destruct (str_of_int_number z) as [Hn Hne].
  destruct (Json.str_of_int z) as [|c r]; [contradiction|].
  cbn [forallb] in Hn. apply andb_prop in Hn as [Hc _].
  exists c, r. split; [reflexivity|].
  apply number_char_ord in Hc. unfold is_ws. cbv zeta.
  rewrite !orb_false_iff, !Z.eqb_neq. lia.
Qed.

Lemma read_seq_space {A} (item : list ascii -> option (A * list ascii))
      close n cs :
  read_seq item close n (" "%char :: cs) = read_seq item close n cs.
Proof. destruct n; reflexivity. Qed.

Lemma read_seq_join {A} (item : list ascii -> option (A * list ascii))
      (enc : A -> list ascii) close rest items :
  is_ws close = false -> (ord close =? 44) = false ->
  is_number_char close = false ->
  Forall (fun x =>
            (exists c r, enc x = c :: r /\ is_ws c = false)
            /\ forall rest', number_ends rest' = true ->
                             item (enc x ++ rest') = Some (x, rest'))
         items ->
  items <> [] ->
  forall n, (length items <= n)%nat ->
  read_seq item close n (Json.join (map enc items) ++ close :: rest)
  = Some (items, rest).
Proof.
  intros Hws Hcomma Hnum H Hne.
  induction H as [|x items [(c & r & Hx & Hc) Hitem] Hitems IH];
    [contradiction|].
  intros [|n] Hn; [cbn in Hn; lia|].
  destruct items as [|y items].
  - cbn [map Json.join read_seq]. rewrite Hx. cbn [app].
    rewrite skip_ws_head by exact Hc.
    change (c :: r ++ close :: rest) with ((c :: r) ++ close :: rest).
    rewrite <- Hx, Hitem by (cbn; rewrite Hnum; reflexivity).
    rewrite skip_ws_head by exact Hws.
    rewrite Ascii.eqb_refl. reflexivity.
  - change (Json.join (map enc (x :: y :: items)))
      with (enc x ++ chars ", " ++ Json.join (map enc (y :: items))).
    cbn [read_seq]. rewrite <- !app_assoc. rewrite Hx at 1. cbn [app].
    rewrite skip_ws_head by exact Hc.
    change (c :: r ++ ?t) with ((c :: r) ++ t).
    rewrite <- Hx, Hitem by reflexivity.
    change (chars ", " ++ ?t) with (","%char :: " "%char :: t).
    rewrite skip_ws_head by reflexivity.
    assert (Ascii.eqb "," close = false) as ->.
    { apply ord_neq_eqb. apply Z.eqb_neq in Hcomma. exact Hcomma. }
    cbn [ord N_of_ascii N_of_digits Z.of_N Z.eqb Pos.eqb N.add N.mul].
    change (ord "," =? 44) with true. cbv iota.
    rewrite read_seq_space, IH; [reflexivity|discriminate|].
    cbn [length] in *. lia.
Qed.

Lemma list_sum_bound {A} (f : A -> nat) l :
  (forall x, (1 <= f x)%nat) ->
  (length l <= list_sum (map f l))%nat
  /\ Forall (fun x => (f x <= list_sum (map f l))%nat) l.
Proof.
  intros Hf.
  induction l as [|x l [IH1 IH2]]; [split; [cbn; lia|constructor]|].
  cbn [map length].
  change (list_sum (f x :: map f l)) with (f x + list_sum (map f l))%nat.
  pose proof (Hf x). split; [lia|].
  constructor; [lia|].
  eapply Forall_impl; [exact IH2|]. cbv beta. intros; lia.
Qed.

Lemma Forall_sized {A} (f : A -> nat) (P Q : A -> Prop) m l :
  Forall P l -> Forall (fun x => (f x <= m)%nat) l ->
  (forall x, P x -> (f x <= m)%nat -> Q x) ->
  Forall Q l.
Proof.
  intros HP Hm H. induction HP as [|x l Hx _ IH]; [constructor|].
  inversion Hm; subst. constructor; auto.
Qed.

Lemma join_head {A} (enc : A -> list ascii) x l t c r :
  enc x = c :: r ->
  exists t', Json.join (map enc (x :: l)) ++ t = c :: t'.
Proof.
  intros E. destruct l; cbn [map Json.join]; rewrite E; cbn [app];
    eexists; reflexivity.
Qed.

Lemma read_member_encode value k v rest :
  (exists c r, Json.encode v = c :: r /\ is_ws c = false) ->
  value (Json.encode v ++ rest) = Some (v, rest) ->
  read_member value
              ((Json.encode_str k ++ chars ": " ++ Json.encode v) ++ rest)
  = Some ((k, v), rest).
Proof.
  intros (c & r & E & W) Hv.
  unfold read_member, Json.encode_str. cbn [app].
  change (ord Json.quote =? 34) with true. cbv iota.
  rewrite <- !app_assoc. cbn [app].
  rewrite read_chars_encode.
  change (chars ": " ++ ?t) with (":"%char :: " "%char :: t).
  rewrite skip_ws_head by reflexivity.
  change (ord ":" =? 58) with true. cbv iota.
  assert (skip_ws (" "%char :: Json.encode v ++ rest)
          = Json.encode v ++ rest) as ->.
  { rewrite E. cbn [app]. unfold skip_ws. cbn [lstrip].
    change (is_ws " ") with true. cbv iota. rewrite W. reflexivity. }
  rewrite Hv, str_chars. reflexivity.
Qed.

(** Reading an encoding gives back the value. *)
Lemma read_value_encode v :
  forall fuel rest,
    (size v <= fuel)%nat -> number_ends rest = true ->
    read_value fuel (Json.encode v ++ rest) = Some (v, rest).
Proof.
  induction v as [|b|z|s|l IH|d IH] using pyval_induction;
    intros [|fuel] rest Hf Hr; try (cbn in Hf; lia).
  - reflexivity.
  - destruct b; reflexivity.
  - cbn [Json.encode]. destruct (str_of_int_number z) as [Hn Hne].
    pose proof (read_int_str_of_int z rest Hr) as Hi.
    destruct (Json.str_of_int z) as [|c r]; [contradiction|].
    cbn [forallb] in Hn. apply andb_prop in Hn as [Hc _].
    apply number_char_ord in Hc.
    cbn [app read_value] in *.
    assert ((ord c =? 34) = false) as -> by (apply Z.eqb_neq; lia).
    assert ((ord c =? 91) = false) as -> by (apply Z.eqb_neq; lia).
    assert ((ord c =? 123) = false) as -> by (apply Z.eqb_neq; lia).
    cbn [chars list_ascii_of_string after].
    rewrite (ord_neq_eqb c "n") by (change (ord "n") with 110; lia).
    rewrite (ord_neq_eqb c "t") by (change (ord "t") with 116; lia).
    rewrite (ord_neq_eqb c "f") by (change (ord "f") with 102; lia).
    rewrite Hi. reflexivity.
  - cbn [Json.encode Json.encode_str app read_value].
    change (ord Json.quote =? 34) with true. cbv iota.
    rewrite <- app_assoc. cbn [app].
    rewrite read_chars_encode, str_chars. reflexivity.
  - cbn [Json.encode app read_value].
    change (ord "[" =? 34) with false. change (ord "[" =? 91) with true.
    cbv iota. rewrite <- app_assoc. cbn [app].
    destruct l as [|x l]; [reflexivity|].
    destruct (encode_head x) as (c & r & Hx & Hc & H93 & _).
    destruct (list_sum_bound size (x :: l) size_pos) as [Hlen Hsz].
    change (size (PList (x :: l)))
      with (S (list_sum (map size (x :: l)))) in Hf.
    destruct (join_head Json.encode x l ("]"%char :: rest) c r Hx)
      as [t Ht].
    assert (skip_ws (Json.join (map Json.encode (x :: l))
                     ++ "]"%char :: rest) = c :: t) as ->
        by (rewrite Ht; apply skip_ws_head, Hc).
    rewrite H93.
    rewrite (read_seq_join (read_value fuel) Json.encode "]" rest (x :: l));
      try reflexivity; try discriminate; [|lia].
    apply (Forall_sized size _ _ _ _ IH Hsz).
    intros y Hy Sy. split.
    + destruct (encode_head y) as (c' & r' & E & W & _). eauto.
    + intros rest' Hr'. apply Hy; [lia|exact Hr'].
  - cbn [Json.encode app read_value].
    change (ord "{" =? 34) with false. change (ord "{" =? 91) with false.
    change (ord "{" =? 123) with true.
    cbv iota. rewrite <- app_assoc. cbn [app].
    destruct d as [|kv d]; [reflexivity|].
    set (enc := fun kv : string * pyval =>
                  Json.encode_str (fst kv) ++ chars ": "
                  ++ Json.encode (snd kv)).
    destruct (list_sum_bound (fun kv : string * pyval => size (snd kv))
                             (kv :: d) (fun kv => size_pos (snd kv)))
      as [Hlen Hsz].
    change (size (PDict (kv :: d)))
      with (S (list_sum (map (fun kv : string * pyval => size (snd kv))
                             (kv :: d)))) in Hf.
    assert (enc kv = Json.quote
                     :: (flat_map Json.escape_char (chars (fst kv))
                         ++ [Json.quote])
                        ++ chars ": " ++ Json.encode (snd kv)) as Hx
        by reflexivity.
    destruct (join_head enc kv d ("}"%char :: rest) _ _ Hx) as [t Ht].
    assert (skip_ws (Json.join (map enc (kv :: d)) ++ "}"%char :: rest)
            = Json.quote :: t) as ->
        by (rewrite Ht; apply skip_ws_head; reflexivity).
    change (ord Json.quote =? 125) with false. cbv iota.
    rewrite (read_seq_join (read_member (read_value fuel)) enc "}" rest
                           (kv :: d));
      try reflexivity; try discriminate; [|lia].
    apply (Forall_sized (fun kv : string * pyval => size (snd kv))
                        _ _ _ _ IH Hsz).
    intros [k v] Hy Sy. cbn [fst snd] in *. split.
    + eexists _, _. split; [reflexivity|reflexivity].
    + intros rest' Hr'. apply read_member_encode.
      * destruct (encode_head v) as (c' & r' & E & W & _). eauto.
      * apply Hy; [lia|exact Hr'].
Qed.

Lemma length_join_ge {A} (enc : A -> list ascii) (f : A -> nat) l :
  Forall (fun x => (f x <= length (enc x))%nat) l ->
  (list_sum (map f l) <= length (Json.join (map enc l)))%nat.
Proof.
  induction 1 as [|x l Hx _ IH]; [cbn; lia|].
  cbn [map]. change (list_sum (f x :: map f l))
    with (f x + list_sum (map f l))%nat.
  destruct l as [|y l]; [cbn in *; lia|].
  change (Json.join (enc x :: map enc (y :: l)))
    with (enc x ++ chars ", " ++ Json.join (map enc (y :: l))).
  rewrite !length_app. lia.
Qed.

Lemma size_le_length v : (size v <= length (Json.encode v))%nat.
Proof.
  induction v as [|b|z|s|l IH|d IH] using pyval_induction.
  - cbn. lia.
  - destruct b; cbn; lia.
  - cbn [size Json.encode]. destruct (str_of_int_number z) as [_ Hne].
    destruct (Json.str_of_int z); [contradiction|cbn; lia].
  - cbn. lia.
  - cbn [Json.encode length].
    change (size (PList l)) with (S (list_sum (map size l))).
    rewrite length_app.
    pose proof (length_join_ge Json.encode size l IH). lia.
  - cbn [Json.encode length].
    change (size (PDict d))
      with (S (list_sum (map (fun kv : string * pyval => size (snd kv))
                             d))).
    rewrite length_app.
    pose proof (length_join_ge
                  (fun kv : string * pyval =>
                     Json.encode_str (fst kv) ++ chars ": "
                     ++ Json.encode (snd kv))
                  (fun kv : string * pyval => size (snd kv)) d) as H.
    assert (Forall (fun kv : string * pyval =>
                      (size (snd kv)
                       <= length (Json.encode_str (fst kv) ++ chars ": "
                                  ++ Json.encode (snd kv)))%nat) d) as Hd.
    { eapply Forall_impl; [exact IH|]. cbv beta. intros kv Hkv.
      rewrite !length_app. lia. }
    specialize (H Hd). lia.
Qed.

(** [loads] undoes [json.dumps]: the text that [dumps] writes denotes
    the value it was given. *)
Lemma loads_dumps v : loads (Json.dumps v) = Some v.
Proof.
  unfold loads, Json.dumps. rewrite chars_str.
  destruct (encode_head v) as (c & r & E & W & _).
  assert (skip_ws (Json.encode v) = Json.encode v) as ->
      by (rewrite E; apply skip_ws_head, W).
  pose proof (read_value_encode v (S (length (Json.encode v))) []) as H.
  rewrite app_nil_r in H. rewrite H; [reflexivity| |reflexivity].
  pose proof (size_le_length v). lia.
Qed.

(** The fields of the request that [submit_job] posts, as its body
    reads. *)
Lemma fields_request_of url name spec jp queue tags prio :
  parse_form (form_body (data (request_of url name spec jp queue tags prio)))
  = Some [ ("queue", queue);
           ("priority", str (Json.str_of_int (default 0 prio)));
           ("tags", Json.dumps tags);
           ("type", spec);
           ("params", Json.dumps jp);
           ("name", name) ].
Proof.
  rewrite parse_form_form_body.
  cbn [request_of form_of data map fst snd form_value_str].
  rewrite !str_chars. reflexivity.
Qed.

Lemma field_request_of url name spec jp queue tags prio k :
  field (request_of url name spec jp queue tags prio) k
  = Dict.get [ ("queue", queue);
               ("priority", str (Json.str_of_int (default 0 prio)));
               ("tags", Json.dumps tags);
               ("type", spec);
               ("params", Json.dumps jp);
               ("name", name) ] k.
Proof. unfold field. rewrite fields_request_of. reflexivity. Qed.

Lemma params_request_of url name spec d queue tags prio :
  params (request_of url name spec (PDict d) queue tags prio) = Some d.
Proof.
  unfold params. rewrite field_request_of.
  change (Dict.get _ "params") with (Some (Json.dumps (PDict d))).
  cbv iota. rewrite loads_dumps. reflexivity.
Qed.

Lemma param_request_of url name spec d queue tags prio k :
  param (request_of url name spec (PDict d) queue tags prio) k
  = Dict.get d k.
Proof. unfold param. rewrite params_request_of. reflexivity. Qed.

End WireFacts.

(** ** The embedding on concrete inputs *)
Module Checks.
Import PyStr Pydatetime Dateutil Requests Runtime Lambda.

Example isoparse_utc :
  isoparse "2024-01-01T00:10:00Z"
  = Ok (mk_datetime 2024 1 1 0 10 0 0 (Some tzutc)).
Proof. reflexivity. Qed.

Example isoparse_offset_fraction :
  isoparse "20240229T101112.5+05:30"
  = Ok (mk_datetime 2024 2 29 10 11 12 500000 (Some (tzoffset 19800))).
Proof. reflexivity. Qed.

Example isoparse_midnight_24 :
  isoparse "2024-12-31T24:00"
  = Ok (mk_datetime 2025 1 1 0 0 0 0 None).
Proof. reflexivity. Qed.

Example isoparse_week_date :
  isoparse "2020-W53-7" = Ok (mk_datetime 2021 1 3 0 0 0 0 None).
Proof. reflexivity. Qed.

Example isoparse_ordinal_date :
  isoparse "2024-366" = Ok (mk_datetime 2024 12 31 0 0 0 0 None).
Proof. reflexivity. Qed.

Example isoparse_not_a_date :
  is_ok (isoparse "2023-02-29") = false
  /\ is_ok (isoparse "yesterday") = false
  /\ is_ok (isoparse "0000-01-01") = false.
Proof. repeat split. Qed.

Example ordinals :
  ymd2ord 2024 1 1 = 738886 /\ ord2ymd 738886 = (2024, 1, 1)
  /\ ord2ymd 1 = (1, 1, 1) /\ ord2ymd MAXORDINAL = (9999, 12, 31).
Proof. repeat split. Qed.

Example minus_minutes_across_a_leap_day :
  Dateutil.add (relativedelta_new 0 0 (- 1500) 0 0)
               (mk_datetime 2024 3 1 0 10 0 0 None)
  = Ok (mk_datetime 2024 2 28 23 10 0 0 None).
Proof. reflexivity. Qed.

Example minus_minutes_before_year_1 :
  is_ok (Dateutil.add (relativedelta_new 0 0 (- 5) 0 0)
                      (mk_datetime 1 1 1 0 0 0 0 None)) = false.
Proof. reflexivity. Qed.

Example int_literals :
  PyStr.int " +1_000 " = Ok 1000 /\ PyStr.int "-5" = Ok (-5)
  /\ is_ok (PyStr.int "") = false /\ is_ok (PyStr.int "1__0") = false
  /\ is_ok (PyStr.int "5.0") = false.
Proof. repeat split. Qed.

Example search_digits_runs :
  search_digits "15min" = Some "15" /\ search_digits "-5" = Some "5"
  /\ search_digits "a1b22" = Some "1" /\ search_digits "five" = None.
Proof. repeat split. Qed.

Example strtobool_tokens :
  Distutils.strtobool "True" = Ok 1 /\ Distutils.strtobool "OFF" = Ok 0
  /\ is_ok (Distutils.strtobool "maybe") = false
  /\ is_ok (Distutils.strtobool "") = false.
Proof. repeat split. Qed.

Example dumps_tags :
  Json.dumps (PList [PStr "data-subscriber-query-timer"])
  = PyStr.str ("["%char :: Json.quote
               :: PyStr.chars "data-subscriber-query-timer"
               ++ [Json.quote; "]"%char]).
Proof. reflexivity. Qed.

Example form_body_small :
  form_body [("queue", FStr "q 1"); ("priority", FInt 0);
             ("type", FStr "job-x:1")]
  = "queue=q+1&priority=0&type=job-x%3A1".
Proof. reflexivity. Qed.

Example run_ok :
  fst (run Examples.world_ok Examples.event) = Ok (PStr "job-123")
  /\ length (snd (run Examples.world_ok Examples.event)) = 1%nat.
Proof. vm_compute. split; reflexivity. Qed.

Example int_white_space :
  PyStr.int (PyStr.str [PyStr.chr 160; "3"%char; PyStr.chr 133]) = Ok 3
  /\ is_ok (PyStr.int (PyStr.str [PyStr.chr 28; "3"%char])) = false
  /\ is_ok (PyStr.int (PyStr.str [PyStr.chr 31; "3"%char])) = false.
Proof. repeat split. Qed.

Example strftime_small_years :
  strftime (mk_datetime 999 1 2 3 4 5 0 None) DATETIME_FORMAT
  = "999-01-02T03:04:05Z"
  /\ strftime (mk_datetime 1 1 2 3 4 5 0 None) JOB_NAME_DATETIME_FORMAT
     = "10102T030405"
  /\ strftime (mk_datetime 1000 1 2 3 4 5 0 None) DATETIME_FORMAT
     = "1000-01-02T03:04:05Z".
Proof. repeat split. Qed.

Example loads_texts :
  WireSpec.loads
    (PyStr.str (PyStr.chars "[1, -2, true, null, "
                ++ [Json.quote; "a"%char; Json.backslash; "n"%char;
                    Json.quote; "]"%char]))
  = Some (PList [PInt 1; PInt (-2); PBool true; PNone;
                 PStr (PyStr.str ["a"%char; PyStr.chr 10])])
  /\ WireSpec.loads " [ ] " = Some (PList [])
  /\ WireSpec.loads "[01]" = None
  /\ WireSpec.loads "[1,]" = None
  /\ WireSpec.loads "1 2" = None.
Proof. repeat split. Qed.

Example parse_form_text :
  WireSpec.parse_form "a=b+c&d=%26%C3%A9"
  = Some [("a", "b c"); ("d", PyStr.str ["&"%char; PyStr.chr 233])].
Proof. repeat split. Qed.

End Checks.

(** * The properties of the specification *)
Module Claims.
Import PyStr PyStrSpec PyStrFacts.
Import Pydatetime PydatetimeSpec PydatetimeFacts.
Import Dateutil DateutilSpec DateutilFacts.
Import Requests Runtime Lambda LambdaSpec LambdaFacts SubmitSpec SubmitFacts.
Import RenderSpec RenderFacts ClaimSpec WireSpec WireFacts.

Lemma run_unfold w event :
  run w event
  = match environ w !! "MOZART_URL" with
    | Some MOZART_URL =>
        lambda_handler (JOB_SUBMIT_URL_of MOZART_URL) event w []
    | None =>
        (Raise (RuntimeError "Need to specify MOZART_URL in environment."),
         [])
    end.
Proof.
  unfold run, invocation, module_import, bind, environ_get, ret, raise.
  destruct (environ w !! "MOZART_URL"); reflexivity.
Qed.

(** An invocation either raises with nothing sent, or reaches the call of
    [submit_job] with prepared values. *)
Lemma run_cases w event :
  (exists e, run w event = (Raise e, []))
  \/ (exists MOZART_URL p,
        environ w !! "MOZART_URL" = Some MOZART_URL
        /\ prepares w event p
        /\ run w event = submission (JOB_SUBMIT_URL_of MOZART_URL) w p w []).
Proof.
  rewrite run_unfold.
  destruct (environ w !! "MOZART_URL") as [u|]; [|left; eauto].
  destruct (lambda_handler_cases (JOB_SUBMIT_URL_of u) w event [])
    as [[p Hp]|[e He]]; [|left; eauto].
  right. exists u, p. split; [reflexivity|]. split; [exact Hp|].
  apply lambda_handler_prepared, Hp.
Qed.

Lemma prepared_window w event p :
  prepares w event p ->
  valid_datetime (p_query_end p)
  /\ valid_datetime (p_query_start p)
  /\ epoch_us (p_query_start p)
     = epoch_us (p_query_end p) - p_m p * US_PER_MINUTE
  /\ tz (p_query_start p) = tz (p_query_end p).
Proof.
  intros Hp.
  pose proof (isoparse_valid _ _ (pr_query_end _ _ _ Hp)) as Hv.
  destruct (add_Ok _ _ _ Hv (pr_query_start _ _ _ Hp)) as (E & T & V).
  rewrite relativedelta_new_us in E. unfold US_PER_MINUTE.
  split; [exact Hv|]. split; [exact V|]. split; [lia|exact T].
Qed.

Lemma prepared_minutes w event p :
  prepares w event p ->
  exists pre g post,
    chars (p_MINUTES p) = pre ++ g ++ post
    /\ no_digit pre = true /\ g <> [] /\ all_digits g = true
    /\ no_leading_digit post = true
    /\ p_minutes p = str g /\ p_m p = decimal_value g /\ 0 <= p_m p.
Proof.
  intros Hp. pose proof (pr_minutes _ _ _ Hp) as Hs.
  pose proof (pr_m _ _ _ Hp) as Hm.
  unfold search_digits in Hs.
  destruct (search_digits_chars (chars (p_MINUTES p))) as [g|] eqn:Hg;
    [|discriminate].
  injection Hs as Hs.
  apply search_digits_chars_Some in Hg
    as (pre & post & E & Hpre & Hne & Hd & Hpost).
  destruct (int_digits g Hne Hd) as [Hi H0].
  rewrite <- Hs, Hi in Hm.
  destruct (_ <? _)%nat; [discriminate|]. injection Hm as Hm.
  exists pre, g, post. rewrite <- Hm. auto 10.
Qed.

(** The handler reaches the submission whenever the event time parses,
    the window start is representable, the required settings are present
    and the four flags are recognized tokens. *)
Lemma reaches_submission w event time query_end MINUTES minutes m
      JT JR JQ EP DJQ CS SR DR NS UT :
  Dict.get event "time" = Some (PStr time) ->
  isoparse time = Ok query_end ->
  environ w !! "MINUTES" = Some MINUTES ->
  search_digits MINUTES = Some minutes ->
  PyStr.int minutes = Ok m ->
  in_range (epoch_us query_end - m * US_PER_MINUTE) = true ->
  environ w !! "JOB_TYPE" = Some JT ->
  environ w !! "JOB_RELEASE" = Some JR ->
  environ w !! "JOB_QUEUE" = Some JQ ->
  environ w !! "ENDPOINT" = Some EP ->
  environ w !! "DOWNLOAD_JOB_QUEUE" = Some DJQ ->
  environ w !! "CHUNK_SIZE" = Some CS ->
  environ w !! "SMOKE_RUN" = Some SR ->
  environ w !! "DRY_RUN" = Some DR ->
  environ w !! "NO_SCHEDULE_DOWNLOAD" = Some NS ->
  environ w !! "USE_TEMPORAL" = Some UT ->
  forallb (fun v => is_token TRUE_TOKENS v || is_token FALSE_TOKENS v)
          [SR; DR; NS; UT] = true ->
  exists p,
    prepares w event p /\ p_query_end p = query_end /\ p_m p = m.
Proof.
  intros Ht Hq HM Hs Hm Hr HJT HJR HJQ HEP HDJQ HCS HSR HDR HNS HUT Hfl.
  pose proof (isoparse_valid _ _ Hq) as Hv.
  pose proof (add_is_ok (relativedelta_new 0 0 (- m) 0 0) query_end Hv)
    as Hadd.
  assert (epoch_us query_end
          + relativedelta_us (relativedelta_new 0 0 (- m) 0 0)
          = epoch_us query_end - m * US_PER_MINUTE) as Hx
      by (rewrite relativedelta_new_us; unfold US_PER_MINUTE; lia).
  rewrite Hx in Hadd.
  rewrite Hr in Hadd.
  destruct (Dateutil.add _ query_end) as [qs|] eqn:Hqs; [|discriminate].
  assert (forall v,
             is_token TRUE_TOKENS v || is_token FALSE_TOKENS v = true ->
             exists b, Distutils.strtobool v = Ok b) as Hb.
  { intros v H. rewrite strtobool_spec.
    destruct (is_token TRUE_TOKENS v); [eauto|].
    destruct (is_token FALSE_TOKENS v); [eauto|discriminate]. }
  cbn [forallb] in Hfl. rewrite !andb_true_iff in Hfl.
  destruct Hfl as (F1 & F2 & F3 & F4 & _).
  destruct (Hb _ F1) as [sr Hsr]. destruct (Hb _ F2) as [dr Hdr].
  destruct (Hb _ F3) as [ns Hns]. destruct (Hb _ F4) as [ut Hut].
  exists (mk_prepared time query_end MINUTES minutes m qs
            (temporal_start_of w query_end) (environ w !! "BOUNDING_BOX")
            JT JR JQ EP DJQ CS SR sr DR dr NS ns UT ut).
  split; [constructor; cbn; auto|]. split; reflexivity.
Qed.

(** The first maximal digit run of a string is unique. *)
Lemma digit_run_unique cs pre g post pre' g' post' :
  cs = pre ++ g ++ post -> no_digit pre = true -> g <> [] ->
  all_digits g = true -> no_leading_digit post = true ->
  cs = pre' ++ g' ++ post' -> no_digit pre' = true -> g' <> [] ->
  all_digits g' = true -> no_leading_digit post' = true ->
  g = g'.
Proof.
  intros E H1 H2 H3 H4 E' H1' H2' H3' H4'.
  assert (search_digits_chars cs = Some g) as S
    by (apply search_digits_chars_Some; eauto 10).
  assert (search_digits_chars cs = Some g') as S'
    by (apply search_digits_chars_Some; eauto 10).
  congruence.
Qed.

(** A flag that is set is read by [strtobool] on the way to the
    submission, and decides its job parameter. *)
Lemma flag_read w event key name token v :
  In (key, name, token) FLAGS -> environ w !! key = Some v ->
  forall p, prepares w event p ->
    (exists b, Distutils.strtobool v = Ok b
               /\ Dict.get (job_params_of p) name
                  = Some (PStr (if truthy b then token else "")))
    /\ (exists b, Distutils.strtobool v = Ok b).
Proof.
  intros Hin Hv p Hp. cbn in Hin.
  assert (exists b, Distutils.strtobool v = Ok b
               /\ Dict.get (job_params_of p) name
                  = Some (PStr (if truthy b then token else ""))) as H.
  { destruct Hin as [H|[H|[H|[H|[]]]]]; injection H as <- <- <-.
    - rewrite (pr_SMOKE_RUN _ _ _ Hp) in Hv. injection Hv as <-.
      exists (p_smoke_run p). split; [apply Hp|reflexivity].
    - rewrite (pr_DRY_RUN _ _ _ Hp) in Hv. injection Hv as <-.
      exists (p_dry_run p). split; [apply Hp|reflexivity].
    - rewrite (pr_NO_SCHEDULE_DOWNLOAD _ _ _ Hp) in Hv. injection Hv as <-.
      exists (p_no_schedule_download p). split; [apply Hp|reflexivity].
    - rewrite (pr_USE_TEMPORAL _ _ _ Hp) in Hv. injection Hv as <-.
      exists (p_use_temporal p). split; [apply Hp|reflexivity]. }
  split; [exact H|]. destruct H as (b & Hb & _). eauto.
Qed.

Lemma submission_sent u w p sent :
  snd (submission u w p w sent)
  = sent ++ [request_of u (job_name_of w p) (job_spec_of p)
                        (PDict (job_params_of p)) (p_JOB_QUEUE p)
                        TAGS None].
Proof. unfold submission. apply submit_job_sent. Qed.

Lemma run_prepared w event u p :
  environ w !! "MOZART_URL" = Some u -> prepares w event p ->
  run w event = submission (JOB_SUBMIT_URL_of u) w p w [].
Proof.
  intros Hu Hp. rewrite run_unfold, Hu.
  apply lambda_handler_prepared, Hp.
Qed.

Lemma run_sent w event r :
  In r (snd (run w event)) ->
  exists u p,
    environ w !! "MOZART_URL" = Some u /\ prepares w event p
    /\ r = request_of (JOB_SUBMIT_URL_of u) (job_name_of w p)
                      (job_spec_of p) (PDict (job_params_of p))
                      (p_JOB_QUEUE p) TAGS None.
Proof.
  destruct (run_cases w event) as [[e He]|(u & p & Hu & Hp & Hr)].
  - rewrite He. intros [].
  - rewrite Hr, submission_sent. intros [<-|[]]. eauto.
Qed.

(** What the body of a request sent by an invocation says: the job
    parameters and the name that the handler computed. *)
Lemma run_sent_reads w event r :
  In r (snd (run w event)) ->
  exists p,
    prepares w event p
    /\ snd (run w event) = [r]
    /\ params r = Some (job_params_of p)
    /\ (forall k, param r k = Dict.get (job_params_of p) k)
    /\ field r "name" = Some (job_name_of w p).
Proof.
  intros Hr. pose proof Hr as Hin.
  apply run_sent in Hr as (u & p & Hu & Hp & ->).
  exists p. split; [exact Hp|]. split.
  { rewrite (run_prepared _ _ _ _ Hu Hp), submission_sent. reflexivity. }
  split; [apply params_request_of|].
  split; [intros k; apply param_request_of|].
  rewrite field_request_of. reflexivity.
Qed.

(** A rendered timestamp has the fixed shape exactly from the year 1000
    on. *)
Lemma shape_by_year dt :
  valid_datetime dt ->
  (1000 <= year dt ->
   is_DATETIME_FORMAT (strftime dt DATETIME_FORMAT) = true
   /\ rendered_fields (strftime dt DATETIME_FORMAT) = fields dt)
  /\ (year dt < 1000 ->
      is_DATETIME_FORMAT (strftime dt DATETIME_FORMAT) = false).
Proof.
  intros V. pose proof V as (Hy & _). unfold MINYEAR, MAXYEAR in Hy.
  split.
  - intros H. split; [apply strftime_shape; lia|].
    apply strftime_fields; assumption.
  - intros H. apply strftime_no_shape. lia.
Qed.

Ltac by_evaluation := constructor; vm_compute; reflexivity.

(** C1, as it holds of the code.  A request that an invocation sends
    carries, under [start_datetime] and [end_datetime], [--start-date=]
    and [--end-date=] followed by the renderings of [query_start] and
    [query_end]: [query_end] is the parsed event time, and [query_start]
    is the datetime exactly [m] minutes before it, [m] being the
    configured window.  A rendering has the shape YYYY-MM-DDTHH:MM:SSZ,
    and shows the fields of its datetime, when the year is 1000 or
    later; for an earlier year it is shorter, the year being written
    without leading zeros. *)
Theorem C1_query_window w event r :
  In r (snd (run w event)) ->
  exists time query_end MINUTES minutes m query_start,
    (Dict.get event "time" = Some (PStr time)
     /\ isoparse time = Ok query_end)
    /\ (environ w !! "MINUTES" = Some MINUTES
        /\ search_digits MINUTES = Some minutes
        /\ PyStr.int minutes = Ok m)
    /\ epoch_us query_start = epoch_us query_end - m * US_PER_MINUTE
    /\ tz query_start = tz query_end
    /\ valid_datetime query_start
    /\ (forall dt,
           valid_datetime dt ->
           epoch_us dt = epoch_us query_end - m * US_PER_MINUTE ->
           tz dt = tz query_end ->
           dt = query_start)
    /\ param r "start_datetime"
       = Some (PStr ("--start-date="
                     +:+ strftime query_start DATETIME_FORMAT))
    /\ param r "end_datetime"
       = Some (PStr ("--end-date="
                     +:+ strftime query_end DATETIME_FORMAT))
    /\ (1000 <= year query_start ->
        is_DATETIME_FORMAT (strftime query_start DATETIME_FORMAT) = true
        /\ rendered_fields (strftime query_start DATETIME_FORMAT)
           = fields query_start)
    /\ (1000 <= year query_end ->
        is_DATETIME_FORMAT (strftime query_end DATETIME_FORMAT) = true
        /\ rendered_fields (strftime query_end DATETIME_FORMAT)
           = fields query_end)
    /\ (year query_start < 1000 ->
        is_DATETIME_FORMAT (strftime query_start DATETIME_FORMAT) = false)
    /\ (year query_end < 1000 ->
        is_DATETIME_FORMAT (strftime query_end DATETIME_FORMAT) = false).
Proof.
  intros Hr.
  destruct (run_sent_reads _ _ _ Hr) as (p & Hp & _ & _ & Hpar & _).
  destruct (prepared_window w event p Hp) as (Ve & Vs & E & T).
  exists (p_time p), (p_query_end p), (p_MINUTES p), (p_minutes p),
    (p_m p), (p_query_start p).
  split; [split; [exact (pr_time _ _ _ Hp)|exact (pr_query_end _ _ _ Hp)]|].
  split; [split; [exact (pr_MINUTES _ _ _ Hp)|
                  split; [exact (pr_minutes _ _ _ Hp)
                         |exact (pr_m _ _ _ Hp)]]|].
  split; [exact E|]. split; [exact T|]. split; [exact Vs|].
  split.
  { intros dt Vd Ed Td. apply epoch_us_inj; congruence. }
  split; [rewrite Hpar; reflexivity|].
  split; [rewrite Hpar; reflexivity|].
  destruct (shape_by_year _ Vs) as [S1 S2].
  destruct (shape_by_year _ Ve) as [E1 E2].
  auto.
Qed.

Lemma C1_query_window_witness :
  exists r,
    snd (run Examples.world_ok Examples.event) = [r]
    /\ param r "start_datetime"
       = Some (PStr "--start-date=2024-01-01T00:05:00Z")
    /\ param r "end_datetime"
       = Some (PStr "--end-date=2024-01-01T00:10:00Z")
    /\ is_DATETIME_FORMAT "2024-01-01T00:05:00Z" = true.
Proof.
  assert (exists r, snd (run Examples.world_ok Examples.event) = [r])
    as [r Hr] by (eexists; vm_compute; reflexivity).
  exists r. split; [exact Hr|].
  destruct (C1_query_window Examples.world_ok Examples.event r)
    as (time & qe & MINUTES & minutes & m & qs & [Ht Hq] & (HM & Hs & Hm)
        & _ & _ & _ & Hu & Hstart & Hend & Hshape & _).
  { rewrite Hr. left. reflexivity. }
  vm_compute in Ht. injection Ht as <-.
  vm_compute in Hq. injection Hq as <-.
  vm_compute in HM. injection HM as <-.
  vm_compute in Hs. injection Hs as <-.
  vm_compute in Hm. injection Hm as <-.
  assert (mk_datetime 2024 1 1 0 5 0 0 (Some tzutc) = qs) as <-.
  { apply Hu; [vm_compute; intuition discriminate| |];
      vm_compute; reflexivity. }
  split; [exact Hstart|]. split; [exact Hend|].
  apply Hshape. vm_compute. discriminate.
Defined.

(** C1 as written fails: the trigger time 0999-01-01T00:10:00Z is valid
    ISO-8601 and parses; with a window of 5 minutes the request goes out,
    and its two bounds read 999-01-01T00:05:00Z and 999-01-01T00:10:00Z,
    which are not of the shape YYYY-MM-DDTHH:MM:SSZ. *)
Lemma C1_year_999_counterexample :
  isoparse "0999-01-01T00:10:00Z"
  = Ok (mk_datetime 999 1 1 0 10 0 0 (Some tzutc))
  /\ exists r,
      snd (run Examples.world_ok Examples.event_999) = [r]
      /\ param r "start_datetime"
         = Some (PStr "--start-date=999-01-01T00:05:00Z")
      /\ param r "end_datetime"
         = Some (PStr "--end-date=999-01-01T00:10:00Z")
      /\ is_DATETIME_FORMAT "999-01-01T00:05:00Z" = false
      /\ is_DATETIME_FORMAT "999-01-01T00:10:00Z" = false.
Proof.
  split; [reflexivity|]. eexists. split; [vm_compute; reflexivity|].
  repeat split; vm_compute; reflexivity.
Qed.

(** C2, as it holds of the code.  [get_temporal_start_datetime] always
    returns.  When the margin parses as an integer [d] and [query_end]
    minus [d] days is a representable datetime (years 1 to 9999), it
    returns the rendering of that datetime, which has the shape
    YYYY-MM-DDTHH:MM:SSZ when its year is 1000 or later; in every other
    case (margin absent, not an integer, or leading out of the
    representable range) it returns the configured
    [TEMPORAL_START_DATETIME], the empty string when that is absent. *)
Theorem C2_temporal_start w query_end sent :
  valid_datetime query_end ->
  let margin :=
    default "" (environ w !! "TEMPORAL_START_DATETIME_MARGIN_DAYS") in
  let literal := default "" (environ w !! "TEMPORAL_START_DATETIME") in
  exists temporal_start,
    get_temporal_start_datetime query_end w sent = (Ok temporal_start, sent)
    /\ match PyStr.int margin with
       | Ok d =>
           if in_range (epoch_us query_end - d * US_PER_DAY)
           then exists dt,
               temporal_start = strftime dt DATETIME_FORMAT
               /\ valid_datetime dt
               /\ epoch_us dt = epoch_us query_end - d * US_PER_DAY
               /\ tz dt = tz query_end
               /\ (1000 <= year dt ->
                   is_DATETIME_FORMAT temporal_start = true
                   /\ rendered_fields temporal_start = fields dt)
           else temporal_start = literal
       | Raise _ => temporal_start = literal
       end
    /\ (environ w !! "TEMPORAL_START_DATETIME_MARGIN_DAYS" = None ->
        temporal_start = literal).
Proof.
  intros Hv. cbv zeta.
  unfold get_temporal_start_datetime, try_except, bind, lift, ret,
    environ_get_default.
  destruct (environ w !! "TEMPORAL_START_DATETIME_MARGIN_DAYS")
    as [margin|] eqn:Hm; cbn [default from_option id].
  2: { eexists. split; [reflexivity|]. split; [reflexivity|]. reflexivity. }
  destruct (PyStr.int margin) as [d|] eqn:Hd.
  2: { eexists. split; [reflexivity|]. split; [reflexivity|]. discriminate. }
  unfold rsub.
  set (rd := neg (relativedelta_new d 0 0 0 0)).
  assert (relativedelta_us rd = - (d * US_PER_DAY)) as Hus.
  { subst rd. rewrite neg_us, relativedelta_new_us. unfold US_PER_DAY. lia. }
  destruct (in_range (epoch_us query_end - d * US_PER_DAY)) eqn:Hr.
  - unfold in_range in Hr. apply andb_true_iff in Hr as [H1 H2].
    apply Z.leb_le in H1, H2.
    destruct (add_total rd query_end Hv) as [dt Hdt]; [rewrite Hus; lia|].
    rewrite Hdt. destruct (add_Ok _ _ _ Hv Hdt) as (E & T & V).
    eexists. split; [reflexivity|]. split; [|discriminate].
    exists dt. split; [reflexivity|]. split; [exact V|].
    split; [lia|]. split; [exact T|].
    apply (shape_by_year dt V).
  - assert (is_ok (add rd query_end) = false) as Hf.
    { apply add_out_of_range; [exact Hv|]. rewrite Hus.
      unfold in_range in Hr. apply andb_false_iff in Hr.
      rewrite Z.leb_gt, Z.leb_gt in Hr. lia. }
    destruct (add rd query_end); [discriminate|].
    eexists. split; [reflexivity|]. split; [reflexivity|discriminate].
Qed.

Lemma C2_temporal_start_witness :
  valid_datetime Examples.query_end
  /\ exists temporal_start,
      get_temporal_start_datetime Examples.query_end Examples.world_ok []
      = (Ok temporal_start, [])
      /\ temporal_start = "2023-12-29T00:10:00Z".
Proof.
  assert (valid_datetime Examples.query_end) as Hv
      by (vm_compute; intuition discriminate).
  split; [exact Hv|].
  destruct (C2_temporal_start Examples.world_ok Examples.query_end [] Hv)
    as (ts & E & _).
  exists ts. split; [exact E|].
  vm_compute in E. injection E as <-. reflexivity.
Defined.

(** C2 as written fails: a margin of 4000000 days parses as an integer,
    no datetime lies that many days before 2024-01-01T00:10:00, and the
    function returns the configured literal. *)
Lemma C2_margin_overflow_counterexample :
  PyStr.int
    (default "" (environ Examples.world_margin_overflow
                 !! "TEMPORAL_START_DATETIME_MARGIN_DAYS"))
  = Ok 4000000
  /\ get_temporal_start_datetime Examples.query_end
       Examples.world_margin_overflow []
     = (Ok "1999-01-01T00:00:00Z", [])
  /\ ~ (exists dt,
           valid_datetime dt
           /\ epoch_us dt
              = epoch_us Examples.query_end - 4000000 * US_PER_DAY).
Proof.
  split; [reflexivity|]. split; [reflexivity|].
  intros (dt & Hv & E). apply epoch_us_bounds in Hv.
  assert (epoch_us Examples.query_end < 4000000 * US_PER_DAY) as Hlt
      by (vm_compute; reflexivity).
  unfold MIN_US in Hv. lia.
Qed.

(** C3, as it holds of the code.  For an answer with a 2xx/3xx status
    whose body decodes to a JSON object: when the object has [success]
    equal to [true] and a [result], [submit_job] returns the value of
    [result]; when it lacks [result] or [success], or [success] is
    anything but [true], [submit_job] raises the submission error, which
    carries the decoded body. *)
Theorem C3_submit_job_response url name spec jp queue tags prio w sent
        resp d :
  service w (request_of url name spec jp queue tags prio) = Ok resp ->
  200 <= status_code resp < 400 ->
  json resp = Ok (PDict d) ->
  (forall v,
      Dict.get d "success" = Some (PBool true) ->
      Dict.get d "result" = Some v ->
      fst (submit_job url name spec jp queue tags prio w sent) = Ok v)
  /\ (Dict.get d "result" = None \/ Dict.get d "success" = None
      \/ Dict.get d "success" <> Some (PBool true) ->
      fst (submit_job url name spec jp queue tags prio w sent)
      = Raise (Exception_ "job not submitted successfully: " (PDict d))).
Proof.
  intros Hs Hst Hj. rewrite submit_job_result, Hs.
  assert (is_error_status (status_code resp) = false) as ->.
  { unfold is_error_status. apply andb_false_iff. left.
    apply Z.leb_gt. lia. }
  rewrite Hj. split.
  - intros v Hsucc Hres. rewrite Hres, Hsucc. reflexivity.
  - intros H.
    destruct (Dict.get d "result") as [v|]; [|reflexivity].
    destruct (Dict.get d "success") as [[|[]| | | |]|];
      try reflexivity.
    destruct H as [H|[H|H]]; congruence.
Qed.

Lemma C3_submit_job_response_witness :
  fst (submit_job "u" "n" "t" (PDict []) "q" (PList []) None
                  Examples.world_ok [])
  = Ok (PStr "job-123")
  /\ fst (submit_job "u" "n" "t" (PDict []) "q" (PList []) None
                     Examples.world_failed [])
     = Raise (Exception_ "job not submitted successfully: "
                         Examples.body_failed).
Proof.
  split.
  - refine (proj1 (C3_submit_job_response
                     "u" "n" "t" (PDict []) "q" (PList []) None
                     Examples.world_ok [] (mk_response 200 (Ok _)) _
                     eq_refl _ eq_refl) _ eq_refl eq_refl).
    cbn; lia.
  - refine (proj2 (C3_submit_job_response
                     "u" "n" "t" (PDict []) "q" (PList []) None
                     Examples.world_failed [] (mk_response 200 (Ok _)) _
                     eq_refl _ eq_refl) _).
    + cbn; lia.
    + left. reflexivity.
Defined.

(** C3 as written fails: on a 200 answer whose JSON body is the empty
    list, which has neither key, the invocation raises [AttributeError],
    not the submission error. *)
Lemma C3_list_body_counterexample :
  (forall req, exists resp,
        service Examples.world_list_body req = Ok resp
        /\ status_code resp = 200 /\ json resp = Ok (PList []))
  /\ fst (run Examples.world_list_body Examples.event)
     = Raise (AttributeError "object has no attribute 'keys'")
  /\ ~ (exists msg body,
           fst (run Examples.world_list_body Examples.event)
           = Raise (Exception_ msg body)).
Proof.
  split; [intros req; eexists; repeat split|].
  assert (fst (run Examples.world_list_body Examples.event)
          = Raise (AttributeError "object has no attribute 'keys'")) as E
      by (vm_compute; reflexivity).
  split; [exact E|]. rewrite E. intros (msg & body & H). discriminate.
Qed.

(** C4, as it holds of the code.  For an answer whose status is 4xx or
    5xx, [submit_job] raises the HTTP error of [raise_for_status] right
    after the request went out; no job identifier is returned. *)
Theorem C4_http_error url name spec jp queue tags prio w sent resp :
  service w (request_of url name spec jp queue tags prio) = Ok resp ->
  400 <= status_code resp < 600 ->
  submit_job url name spec jp queue tags prio w sent
  = (Raise (HTTPError (status_code resp)),
     sent ++ [request_of url name spec jp queue tags prio]).
Proof.
  intros Hs Hst.
  rewrite (surjective_pairing (submit_job _ _ _ _ _ _ _ _ _)).
  rewrite submit_job_sent, submit_job_result, Hs.
  assert (is_error_status (status_code resp) = true) as ->.
  { unfold is_error_status. apply andb_true_iff.
    rewrite Z.leb_le, Z.ltb_lt. lia. }
  reflexivity.
Qed.

Lemma C4_http_error_witness :
  submit_job "u" "n" "t" (PDict []) "q" (PList []) None
             Examples.world_500 []
  = (Raise (HTTPError 500),
     [request_of "u" "n" "t" (PDict []) "q" (PList []) None])
  /\ fst (run Examples.world_500 Examples.event) = Raise (HTTPError 500).
Proof.
  split; [|vm_compute; reflexivity].
  refine (C4_http_error "u" "n" "t" (PDict []) "q" (PList []) None
                        Examples.world_500 [] (mk_response 500 (Ok _))
                        eq_refl _).
  cbn; lia.
Defined.

(** C4 as written fails: on an answer with status 600, or 102, which is
    not 2xx/3xx, the invocation returns the job identifier of the body. *)
Lemma C4_status_600_counterexample :
  (forall req, exists resp,
        service Examples.world_600 req = Ok resp
        /\ status_code resp = 600)
  /\ ~ (200 <= 600 < 400)
  /\ fst (run Examples.world_600 Examples.event) = Ok (PStr "job-123")
  /\ (forall req, exists resp,
          service Examples.world_102 req = Ok resp
          /\ status_code resp = 102)
  /\ ~ (200 <= 102 < 400)
  /\ fst (run Examples.world_102 Examples.event) = Ok (PStr "job-123").
Proof.
  split; [intros req; eexists; split; reflexivity|].
  split; [lia|]. split; [vm_compute; reflexivity|].
  split; [intros req; eexists; split; reflexivity|].
  split; [lia|]. vm_compute. reflexivity.
Qed.

(** C5.  For each of the four flags: once the handler reaches the
    submission, the flag's job parameter is the flag token when the
    configured string is one of the true tokens, and the empty string
    otherwise (the string is then one of the false tokens); a configured
    string that is neither makes the invocation raise, nothing sent. *)
Theorem C5_flag_tokens url w event sent key name token v :
  In (key, name, token) FLAGS ->
  environ w !! key = Some v ->
  (forall p,
      prepares w event p ->
      lambda_handler url event w sent = submission url w p w sent
      /\ Dict.get (job_params_of p) name
         = Some (PStr (if is_token TRUE_TOKENS v then token else ""))
      /\ (is_token TRUE_TOKENS v = true \/ is_token FALSE_TOKENS v = true))
  /\ (is_token TRUE_TOKENS v = false ->
      is_token FALSE_TOKENS v = false ->
      exists e, run w event = (Raise e, [])).
Proof.
  intros Hin Hv.
  pose proof (fun p Hp =>
                proj1 (flag_read w event key name token v Hin Hv p Hp))
    as Hflag.
  split.
  - intros p Hp. destruct (Hflag p Hp) as (b & Hb & Hget).
    apply strtobool_Ok in Hb as [Ht Hf].
    split; [apply lambda_handler_prepared, Hp|].
    rewrite Hget, Ht. split; [reflexivity|].
    destruct (is_token TRUE_TOKENS v); auto.
  - intros Ht Hf. destruct (run_cases w event) as [H|(u & p & _ & Hp & _)];
      [exact H|].
    destruct (Hflag p Hp) as (b & Hb & _).
    rewrite strtobool_spec, Ht, Hf in Hb. discriminate.
Qed.

Lemma C5_flag_tokens_witness :
  (Dict.get (job_params_of Examples.prepared_ok) "smoke_run"
   = Some (PStr "--smoke-run")
   /\ Dict.get (job_params_of Examples.prepared_ok) "dry_run"
      = Some (PStr ""))
  /\ exists e, run Examples.world_bad_flag Examples.event = (Raise e, []).
Proof.
  assert (prepares Examples.world_ok Examples.event Examples.prepared_ok)
    as H by by_evaluation.
  split; [split|].
  - exact (proj1 (proj2 (proj1 (C5_flag_tokens
             "" Examples.world_ok Examples.event []
             "SMOKE_RUN" "smoke_run" "--smoke-run" "true"
             (or_introl eq_refl) eq_refl) Examples.prepared_ok H))).
  - exact (proj1 (proj2 (proj1 (C5_flag_tokens
             "" Examples.world_ok Examples.event []
             "DRY_RUN" "dry_run" "--dry-run" "False"
             (or_intror (or_introl eq_refl)) eq_refl)
             Examples.prepared_ok H))).
  - exact (proj2 (C5_flag_tokens
             "" Examples.world_bad_flag Examples.event []
             "DRY_RUN" "dry_run" "--dry-run" "maybe"
             (or_intror (or_introl eq_refl)) eq_refl) eq_refl eq_refl).
Defined.

(** C6.  Once the handler reaches the submission, the [bounding_box] job
    parameter is [--bounds=] followed by the value of [BOUNDING_BOX] when
    that value is set and not empty, and the empty string when it is
    unset or empty. *)
Theorem C6_bounding_box url w event sent p :
  prepares w event p ->
  lambda_handler url event w sent = submission url w p w sent
  /\ (forall b,
         environ w !! "BOUNDING_BOX" = Some b -> b <> "" ->
         Dict.get (job_params_of p) "bounding_box"
         = Some (PStr ("--bounds=" +:+ b)))
  /\ (environ w !! "BOUNDING_BOX" = None
      \/ environ w !! "BOUNDING_BOX" = Some "" ->
      Dict.get (job_params_of p) "bounding_box" = Some (PStr "")).
Proof.
  intros Hp. split; [apply lambda_handler_prepared, Hp|].
  assert (Dict.get (job_params_of p) "bounding_box"
          = Some (PStr (match environ w !! "BOUNDING_BOX" with
                        | Some b => if nonempty b then "--bounds=" +:+ b
                                    else ""
                        | None => ""
                        end))) as ->
      by (rewrite (pr_bounding_box _ _ _ Hp); reflexivity).
  split.
  - intros b -> Hb. unfold nonempty.
    destruct (String.eqb_spec b ""); [contradiction|reflexivity].
  - intros [-> | ->]; reflexivity.
Qed.

Lemma C6_bounding_box_witness :
  prepares Examples.world_ok Examples.event Examples.prepared_ok
  /\ Dict.get (job_params_of Examples.prepared_ok) "bounding_box"
     = Some (PStr "--bounds=-180,-90,180,90")
  /\ Dict.get (job_params_of Examples.prepared_15min) "bounding_box"
     = Some (PStr "").
Proof.
  assert (prepares Examples.world_ok Examples.event Examples.prepared_ok)
    as H by by_evaluation.
  assert (prepares Examples.world_15min Examples.event
                   Examples.prepared_15min) as H' by by_evaluation.
  split; [exact H|]. split.
  - refine (proj1 (proj2 (C6_bounding_box "" _ _ [] _ H))
                  "-180,-90,180,90" eq_refl _).
    discriminate.
  - exact (proj2 (proj2 (C6_bounding_box "" _ _ [] _ H'))
                 (or_introl eq_refl)).
Defined.

(** C7.  Every call of [submit_job] posts one request, to
    [JOB_SUBMIT_URL] and with certificate verification off.  Its body
    reads as a form of exactly six fields, [queue], [priority], [tags],
    [type], [params], [name], in this order, holding the queue, the
    priority, the job type and the job name as they were given.  The
    texts of [tags] and [params] are JSON: they denote the tag list and
    the job parameters.  The priority is written in decimal; it is the
    caller's, 0 when none is given, and the handler gives none. *)
Theorem C7_submit_job_request url name spec jp queue tags prio w sent :
  exists r tags_text params_text priority_text,
    snd (submit_job url name spec jp queue tags prio w sent) = sent ++ [r]
    /\ Requests.url r = url
    /\ verify r = false
    /\ Dict.keys (data r)
       = ["queue"; "priority"; "tags"; "type"; "params"; "name"]
    /\ parse_form (form_body (data r))
       = Some [ ("queue", queue);
                ("priority", priority_text);
                ("tags", tags_text);
                ("type", spec);
                ("params", params_text);
                ("name", name) ]
    /\ loads tags_text = Some tags
    /\ loads params_text = Some jp
    /\ loads priority_text = Some (PInt (default 0 prio))
    /\ (prio = None -> priority_text = "0")
    /\ (forall event h,
           In h (snd (run w event)) -> field h "priority" = Some "0").
Proof.
  exists (request_of url name spec jp queue tags prio), (Json.dumps tags),
    (Json.dumps jp), (PyStr.str (Json.str_of_int (default 0 prio))).
  split; [apply submit_job_sent|].
  do 3 (split; [reflexivity|]).
  split; [apply fields_request_of|].
  split; [apply loads_dumps|]. split; [apply loads_dumps|].
  split; [apply (loads_dumps (PInt (default 0 prio)))|].
  split; [intros ->; reflexivity|].
  intros event h Hh. apply run_sent in Hh as (u & p & _ & _ & ->).
  rewrite field_request_of. reflexivity.
Qed.

(** C8.  When a required setting is absent, or the string of a boolean
    flag is not a recognized token, or the event carries no time that
    [isoparse] accepts, the invocation raises and the list of requests
    sent is empty: the failure comes before the POST. *)
Theorem C8_fatal_before_post w event :
  (exists key, In key REQUIRED /\ environ w !! key = None)
  \/ (exists key name token v,
         In (key, name, token) FLAGS /\ environ w !! key = Some v
         /\ is_token TRUE_TOKENS v = false
         /\ is_token FALSE_TOKENS v = false)
  \/ (forall time, Dict.get event "time" = Some (PStr time) ->
                   is_ok (isoparse time) = false) ->
  exists e, run w event = (Raise e, []).
Proof.
  intros H.
  destruct (run_cases w event) as [Hr|(u & p & Hu & Hp & _)]; [exact Hr|].
  exfalso. destruct H as [(key & Hin & Hnone)|[H|H]].
  - cbn in Hin.
    repeat (destruct Hin as [<-|Hin];
            [first [ rewrite Hu in Hnone
                   | rewrite (pr_MINUTES _ _ _ Hp) in Hnone
                   | rewrite (pr_JOB_TYPE _ _ _ Hp) in Hnone
                   | rewrite (pr_JOB_RELEASE _ _ _ Hp) in Hnone
                   | rewrite (pr_JOB_QUEUE _ _ _ Hp) in Hnone
                   | rewrite (pr_ENDPOINT _ _ _ Hp) in Hnone
                   | rewrite (pr_DOWNLOAD_JOB_QUEUE _ _ _ Hp) in Hnone
                   | rewrite (pr_CHUNK_SIZE _ _ _ Hp) in Hnone
                   | rewrite (pr_SMOKE_RUN _ _ _ Hp) in Hnone
                   | rewrite (pr_DRY_RUN _ _ _ Hp) in Hnone
                   | rewrite (pr_NO_SCHEDULE_DOWNLOAD _ _ _ Hp) in Hnone
                   | rewrite (pr_USE_TEMPORAL _ _ _ Hp) in Hnone ];
             discriminate|]).
    exact Hin.
  - destruct H as (key & name & token & v & Hin & Hv & Ht & Hf).
    destruct (proj2 (flag_read w event key name token v Hin Hv p Hp))
      as (b & Hb).
    rewrite strtobool_spec, Ht, Hf in Hb. discriminate.
  - specialize (H _ (pr_time _ _ _ Hp)).
    rewrite (pr_query_end _ _ _ Hp) in H. discriminate.
Qed.

Lemma C8_fatal_before_post_witness :
  (exists e, run Examples.world_unconfigured Examples.event = (Raise e, []))
  /\ (exists e, run Examples.world_bad_flag Examples.event = (Raise e, []))
  /\ (exists e, run Examples.world_ok Examples.event_unparseable
                = (Raise e, [])).
Proof.
  split; [|split].
  - apply C8_fatal_before_post. left. exists "MOZART_URL".
    split; [left; reflexivity|reflexivity].
  - apply C8_fatal_before_post. right. left.
    exists "DRY_RUN", "dry_run", "--dry-run", "maybe".
    split; [right; left; reflexivity|]. repeat split; reflexivity.
  - apply C8_fatal_before_post. right. right.
    intros time H. vm_compute in H. injection H as <-. reflexivity.
Defined.

(** C9.  The window length is the number written by the first maximal run
    of decimal digits in [MINUTES]: whatever precedes the run (a minus
    sign included) and whatever follows it is ignored.  In a request
    that an invocation sends, [start_datetime] is the rendering of the
    datetime that many minutes before the parsed event time, and the job
    name ends with the digits of the run.  When [MINUTES] holds no digit
    the invocation raises, nothing sent. *)
Theorem C9_minutes_digit_run w event MINUTES :
  environ w !! "MINUTES" = Some MINUTES ->
  (forall pre g post r,
      PyStr.chars MINUTES = pre ++ g ++ post ->
      no_digit pre = true -> g <> [] -> all_digits g = true ->
      no_leading_digit post = true ->
      In r (snd (run w event)) ->
      0 <= decimal_value g
      /\ exists time query_end query_start,
          Dict.get event "time" = Some (PStr time)
          /\ isoparse time = Ok query_end
          /\ valid_datetime query_start
          /\ epoch_us query_start
             = epoch_us query_end - decimal_value g * US_PER_MINUTE
          /\ tz query_start = tz query_end
          /\ param r "start_datetime"
             = Some (PStr ("--start-date="
                           +:+ strftime query_start DATETIME_FORMAT))
          /\ field r "name"
             = Some ("data-subscriber-query-timer-"
                     +:+ strftime (utcnow w) JOB_NAME_DATETIME_FORMAT
                     +:+ "_" +:+ PyStr.str g))
  /\ (no_digit (PyStr.chars MINUTES) = true ->
      exists e, run w event = (Raise e, [])).
Proof.
  intros HM. split.
  - intros pre g post r E Hpre Hne Hd Hpost Hr.
    destruct (run_sent_reads _ _ _ Hr) as (p & Hp & _ & _ & Hpar & Hname).
    destruct (prepared_minutes w event p Hp)
      as (pre' & g' & post' & E' & Hpre' & Hne' & Hd' & Hpost' & Hs & Hm
          & H0).
    rewrite (pr_MINUTES _ _ _ Hp) in HM. injection HM as HM.
    rewrite HM in E'.
    assert (g = g') as <-
        by (eapply (digit_run_unique (PyStr.chars MINUTES)); eassumption).
    destruct (prepared_window w event p Hp) as (_ & Vs & Ew & Tw).
    rewrite <- Hm. split; [exact H0|].
    exists (p_time p), (p_query_end p), (p_query_start p).
    split; [exact (pr_time _ _ _ Hp)|].
    split; [exact (pr_query_end _ _ _ Hp)|].
    split; [exact Vs|]. split; [exact Ew|]. split; [exact Tw|].
    split; [rewrite Hpar; reflexivity|].
    rewrite Hname. unfold job_name_of. rewrite Hs. reflexivity.
  - intros Hnd.
    destruct (run_cases w event) as [Hr|(u & p & _ & Hp & _)]; [exact Hr|].
    exfalso. pose proof (pr_minutes _ _ _ Hp) as Hs.
    rewrite (pr_MINUTES _ _ _ Hp) in HM. injection HM as HM.
    rewrite HM in Hs. unfold search_digits in Hs.
    apply search_digits_chars_None in Hnd. rewrite Hnd in Hs.
    discriminate.
Qed.

Lemma C9_minutes_digit_run_witness :
  (exists r,
      snd (run Examples.world_15min Examples.event) = [r]
      /\ param r "start_datetime"
         = Some (PStr "--start-date=2023-12-31T23:55:00Z")
      /\ field r "name"
         = Some "data-subscriber-query-timer-20240101T001007_15")
  /\ (exists r,
         snd (run Examples.world_minus5 Examples.event) = [r]
         /\ param r "start_datetime"
            = Some (PStr "--start-date=2024-01-01T00:05:00Z")
         /\ field r "name"
            = Some "data-subscriber-query-timer-20240101T001007_5")
  /\ exists e, run Examples.world_no_digit Examples.event = (Raise e, []).
Proof.
  split; [|split].
  - assert (exists r, snd (run Examples.world_15min Examples.event) = [r])
      as [r Hr] by (eexists; vm_compute; reflexivity).
    exists r. split; [exact Hr|].
    destruct (proj1 (C9_minutes_digit_run
                Examples.world_15min Examples.event "15min" eq_refl)
                [] (PyStr.chars "15") (PyStr.chars "min") r
                eq_refl eq_refl ltac:(discriminate) eq_refl eq_refl)
      as (_ & time & qe & qs & Ht & Hq & Vs & Es & Ts & Hstart & Hname).
    { rewrite Hr. left. reflexivity. }
    vm_compute in Ht. injection Ht as <-.
    vm_compute in Hq. injection Hq as <-.
    assert (qs = mk_datetime 2023 12 31 23 55 0 0 (Some tzutc)) as ->.
    { apply epoch_us_inj; [exact Vs|vm_compute; intuition discriminate
                          |rewrite Es; vm_compute; reflexivity|exact Ts]. }
    split; [exact Hstart|exact Hname].
  - assert (exists r, snd (run Examples.world_minus5 Examples.event) = [r])
      as [r Hr] by (eexists; vm_compute; reflexivity).
    exists r. split; [exact Hr|].
    destruct (proj1 (C9_minutes_digit_run
                Examples.world_minus5 Examples.event "-5" eq_refl)
                (PyStr.chars "-") (PyStr.chars "5") [] r
                eq_refl eq_refl ltac:(discriminate) eq_refl eq_refl)
      as (_ & time & qe & qs & Ht & Hq & Vs & Es & Ts & Hstart & Hname).
    { rewrite Hr. left. reflexivity. }
    vm_compute in Ht. injection Ht as <-.
    vm_compute in Hq. injection Hq as <-.
    assert (qs = mk_datetime 2024 1 1 0 5 0 0 (Some tzutc)) as ->.
    { apply epoch_us_inj; [exact Vs|vm_compute; intuition discriminate
                          |rewrite Es; vm_compute; reflexivity|exact Ts]. }
    split; [exact Hstart|exact Hname].
  - exact (proj2 (C9_minutes_digit_run
              Examples.world_no_digit Examples.event "five" eq_refl)
              eq_refl).
Defined.



End Claims.

(** * Further properties of the handler *)
Module Properties.
Import PyStr PyStrSpec PyStrFacts.
Import Pydatetime PydatetimeSpec PydatetimeFacts.
Import Dateutil DateutilSpec DateutilFacts.
Import Requests Runtime Lambda LambdaSpec LambdaFacts SubmitSpec SubmitFacts.
Import RenderSpec RenderFacts ClaimSpec WireSpec WireFacts Claims.
Import Scenarios.


(** X2.  [submit_job] returns [v] exactly when the service answered, the
    status is not 4xx/5xx, the body decodes to a JSON object whose
    [success] is [true], and [v] is the value under [result], of whatever
    JSON type. *)
Theorem X2_submit_job_returns url name spec jp queue tags prio w sent v :
  fst (submit_job url name spec jp queue tags prio w sent) = Ok v
  <-> exists resp d,
      service w (request_of url name spec jp queue tags prio) = Ok resp
      /\ is_error_status (status_code resp) = false
      /\ json resp = Ok (PDict d)
      /\ Dict.get d "success" = Some (PBool true)
      /\ Dict.get d "result" = Some v.
Proof.
  rewrite submit_job_result. split.
  - destruct (service w _) as [resp|]; [|discriminate].
    destruct (is_error_status (status_code resp)) eqn:Hst; [discriminate|].
    destruct (json resp) as [[| | | | |d]|] eqn:Hj; try discriminate.
    destruct (Dict.get d "result") as [v'|] eqn:Hr; [|discriminate].
    destruct (Dict.get d "success") as [[|[]| | | |]|] eqn:Hs;
      try discriminate.
    intros [= <-]. exists resp, d. auto.
  - intros (resp & d & -> & -> & -> & -> & ->). reflexivity.
Qed.

Lemma X2_submit_job_returns_witness :
  exists resp d,
    service Examples.world_600
      (request_of "u" "n" "t" (PDict []) "q" (PList []) None) = Ok resp
    /\ is_error_status (status_code resp) = false
    /\ json resp = Ok (PDict d)
    /\ Dict.get d "success" = Some (PBool true)
    /\ Dict.get d "result" = Some (PStr "job-123").
Proof.
  apply (proj1 (X2_submit_job_returns "u" "n" "t" (PDict []) "q" (PList [])
                  None Examples.world_600 [] (PStr "job-123"))).
  reflexivity.
Defined.

(** X3.  There is no retry and no wrapping: when [requests.post] raises,
    or when the body of a non-error answer does not decode, the handler
    raises that very exception, and the one request counts as sent. *)
Theorem X3_exceptions_propagate url w event sent p e :
  prepares w event p ->
  let req := request_of url (job_name_of w p) (job_spec_of p)
                        (PDict (job_params_of p)) (p_JOB_QUEUE p)
                        TAGS None in
  (service w req = Raise e ->
   lambda_handler url event w sent = (Raise e, sent ++ [req]))
  /\ (forall resp,
         service w req = Ok resp ->
         is_error_status (status_code resp) = false ->
         json resp = Raise e ->
         lambda_handler url event w sent = (Raise e, sent ++ [req])).
Proof.
  intros Hp req. rewrite (lambda_handler_prepared url w event p sent Hp).
  rewrite (surjective_pairing (submission url w p w sent)).
  rewrite submission_sent. unfold submission.
  rewrite submit_job_result. fold req. split.
  - intros ->. reflexivity.
  - intros resp -> -> ->. reflexivity.
Qed.

Lemma X3_exceptions_propagate_witness :
  run world_unreachable Examples.event
  = (Raise (RequestException "connection refused"),
     [request_of
        (JOB_SUBMIT_URL_of "https://mozart.example")
        (job_name_of world_unreachable prepared_plain)
        (job_spec_of prepared_plain)
        (PDict (job_params_of prepared_plain))
        (p_JOB_QUEUE prepared_plain) TAGS None]).
Proof.
  assert (prepares world_unreachable Examples.event
                   prepared_plain) as H.
  { constructor; vm_compute; reflexivity. }
  exact (proj1 (X3_exceptions_propagate
                  (JOB_SUBMIT_URL_of "https://mozart.example")
                  world_unreachable Examples.event []
                  prepared_plain
                  (RequestException "connection refused") H) eq_refl).
Defined.

Ltac raise_cases :=
  repeat match goal with
    | H : Ok _ = Raise _ |- _ => discriminate H
    | H : Raise _ = Raise _ |- _ => injection H as H; try subst
    | H : (if ?b then _ else _) = Raise _ |- _ => destruct b
    | H : (match ?x with _ => _ end) = Raise _ |- _ => destruct x eqn:?
    end.

Lemma int_bytes_raises b e :
  int_bytes b = Raise e -> is_ValueError e = true.
Proof. unfold int_bytes. intros H. raise_cases. reflexivity. Qed.

Lemma int_raises s e : PyStr.int s = Raise e -> is_ValueError e = true.
Proof. unfold PyStr.int. intros H. raise_cases. reflexivity. Qed.

Lemma strtobool_raises v e :
  Distutils.strtobool v = Raise e -> is_ValueError e = true.
Proof. unfold Distutils.strtobool. intros H. raise_cases. reflexivity. Qed.

Lemma datetime_new_raises y mo d h mi s us t e :
  datetime_new y mo d h mi s us t = Raise e -> is_ValueError e = true.
Proof. unfold datetime_new. intros H. raise_cases; reflexivity. Qed.

Lemma timedelta_new_raises d h mi s us e :
  timedelta_new d h mi s us = Raise e -> is_OverflowError e = true.
Proof. unfold timedelta_new. intros H. raise_cases; reflexivity. Qed.

Lemma datetime_add_raises dt td e :
  datetime_add dt td = Raise e -> is_OverflowError e = true.
Proof.
  unfold datetime_add, timedelta_add, rbind. intros H.
  raise_cases; eauto using timedelta_new_raises.
Qed.

Lemma add_raises rd other e :
  valid_datetime other -> add rd other = Raise e ->
  is_OverflowError e = true.
Proof.
  intros Hv. unfold add. rewrite (add_replace _ Hv). unfold rbind.
  intros H.
  raise_cases; eauto using timedelta_new_raises, datetime_add_raises.
Qed.

Lemma value_error e :
  is_ValueError e = true -> is_ValueError e || is_OverflowError e = true.
Proof. intros ->. reflexivity. Qed.

Lemma overflow_error e :
  is_OverflowError e = true -> is_ValueError e || is_OverflowError e = true.
Proof. intros ->. apply orb_true_r. Qed.

Lemma date_add_days_raises o n e :
  date_add_days o n = Raise e -> is_OverflowError e = true.
Proof.
  unfold date_add_days, rbind. intros H.
  raise_cases; eauto using timedelta_new_raises.
Qed.

Lemma calculate_weekdate_raises y week dayno e :
  calculate_weekdate y week dayno = Raise e ->
  is_ValueError e || is_OverflowError e = true.
Proof.
  unfold calculate_weekdate, date_ordinal, rbind. intros H.
  raise_cases;
    eauto using value_error, overflow_error, datetime_new_raises,
      date_add_days_raises.
Qed.

Lemma parse_isodate_common_raises cs e :
  parse_isodate_common cs = Raise e -> is_ValueError e = true.
Proof.
  unfold parse_isodate_common, rbind. intros H.
  raise_cases; eauto using int_bytes_raises.
Qed.

Lemma parse_isodate_uncommon_raises cs e :
  parse_isodate_uncommon cs = Raise e ->
  is_ValueError e || is_OverflowError e = true.
Proof.
  unfold parse_isodate_uncommon, date_ordinal, rbind. intros H.
  raise_cases;
    eauto using value_error, overflow_error, int_bytes_raises,
      datetime_new_raises, date_add_days_raises, calculate_weekdate_raises.
Qed.

Lemma parse_isodate_raises cs e :
  parse_isodate cs = Raise e ->
  is_ValueError e || is_OverflowError e = true.
Proof.
  unfold parse_isodate. intros H.
  destruct (parse_isodate_common cs) as [r|e0] eqn:E; [discriminate|].
  apply parse_isodate_common_raises in E.
  destruct e0; try discriminate E.
  eauto using parse_isodate_uncommon_raises.
Qed.

Lemma parse_tzstr_raises cs e :
  parse_tzstr cs = Raise e -> is_ValueError e = true.
Proof.
  unfold parse_tzstr, rbind. intros H.
  raise_cases; eauto using int_bytes_raises.
Qed.

Lemma isotime_loop_raises cs comps : forall st e,
  isotime_loop cs comps st = Raise e -> is_ValueError e = true.
Proof.
  induction comps as [|comp comps IH]; intros st e H; [discriminate|].
  cbn [isotime_loop] in H. unfold rbind in H.
  raise_cases; eauto using int_bytes_raises, parse_tzstr_raises.
Qed.

Lemma parse_isotime_raises cs e :
  parse_isotime cs = Raise e -> is_ValueError e = true.
Proof.
  unfold parse_isotime, rbind. intros H.
  raise_cases; eauto using isotime_loop_raises.
Qed.

(** [isoparse] raises [ValueError] or [OverflowError] only. *)
Lemma isoparse_raises s e :
  isoparse s = Raise e -> is_ValueError e || is_OverflowError e = true.
Proof.
  unfold isoparse, rbind. intros H.
  raise_cases;
    eauto using value_error, overflow_error, parse_isodate_raises,
      parse_isotime_raises, datetime_new_raises, timedelta_new_raises,
      datetime_add_raises.
Qed.

Lemma strtobool_Raise v e :
  Distutils.strtobool v = Raise e ->
  is_token TRUE_TOKENS v = false /\ is_token FALSE_TOKENS v = false.
Proof.
  rewrite strtobool_spec.
  destruct (is_token TRUE_TOKENS v); [discriminate|].
  destruct (is_token FALSE_TOKENS v); [discriminate|]. auto.
Qed.

Lemma int_run_Raise s g e :
  search_digits s = Some g -> PyStr.int g = Raise e ->
  (MAX_STR_DIGITS < length (chars g))%nat.
Proof.
  unfold search_digits. intros Hs Hi.
  destruct (search_digits_chars (chars s)) as [cs|] eqn:Hcs;
    [|discriminate].
  injection Hs as <-.
  apply search_digits_chars_Some in Hcs
    as (pre & post & _ & _ & Hne & Hd & _).
  destruct (int_digits cs Hne Hd) as [E _]. rewrite E in Hi.
  rewrite chars_str.
  destruct (MAX_STR_DIGITS <? length cs)%nat eqn:L; [|discriminate].
  apply Nat.ltb_lt, L.
Qed.

Lemma add_minutes_Raise qe m e :
  valid_datetime qe ->
  add (relativedelta_new 0 0 (- m) 0 0) qe = Raise e ->
  in_range (epoch_us qe - m * US_PER_MINUTE) = false.
Proof.
  intros Hv H.
  pose proof (add_is_ok (relativedelta_new 0 0 (- m) 0 0) qe Hv) as E.
  rewrite H, relativedelta_new_us in E. cbn [is_ok] in E.
  rewrite E. f_equal. unfold US_PER_MINUTE. lia.
Qed.

(** X4.  What an abort before the request means, for an event whose
    [time] is a string when present.  [RuntimeError]: [MOZART_URL] is
    unset.  [KeyError]: the key it names is the [time] that the event
    lacks, or a required setting that is unset.  [AttributeError]:
    [MINUTES] holds no digit.  [ValueError]: the time does not parse, the
    digit run of [MINUTES] has more than 4300 digits, or a flag is not a
    truth token.  [OverflowError]: the time does not parse, or the window
    would start outside the calendar.  No exception of another class is
    raised before the request. *)
Theorem X4_abort_causes w event e :
  (forall v, Dict.get event "time" = Some v -> is_PStr v = true) ->
  run w event = (Raise e, []) ->
  match e with
  | RuntimeError _ => environ w !! "MOZART_URL" = None
  | KeyError k =>
      (k = "time" /\ Dict.get event "time" = None)
      \/ (In k REQUIRED /\ environ w !! k = None)
  | AttributeError _ =>
      exists MINUTES,
        environ w !! "MINUTES" = Some MINUTES
        /\ no_digit (chars MINUTES) = true
  | ValueError _ =>
      (exists time,
          Dict.get event "time" = Some (PStr time)
          /\ isoparse time = Raise e)
      \/ (exists MINUTES minutes,
             environ w !! "MINUTES" = Some MINUTES
             /\ search_digits MINUTES = Some minutes
             /\ (MAX_STR_DIGITS < length (chars minutes))%nat)
      \/ (exists key name token v,
             In (key, name, token) FLAGS /\ environ w !! key = Some v
             /\ is_token TRUE_TOKENS v = false
             /\ is_token FALSE_TOKENS v = false)
  | OverflowError _ =>
      (exists time,
          Dict.get event "time" = Some (PStr time)
          /\ isoparse time = Raise e)
      \/ (exists time query_end MINUTES minutes m,
             Dict.get event "time" = Some (PStr time)
             /\ isoparse time = Ok query_end
             /\ environ w !! "MINUTES" = Some MINUTES
             /\ search_digits MINUTES = Some minutes
             /\ PyStr.int minutes = Ok m
             /\ in_range (epoch_us query_end - m * US_PER_MINUTE) = false)
  | _ => False
  end.
Proof.
  intros Hstr. rewrite run_unfold.
  destruct (environ w !! "MOZART_URL") as [u|] eqn:HU;
    [|intros [= <-]; reflexivity].
  unfold_handler.
  destruct (Dict.get event "time") as [v|] eqn:Htime;
    [|intros [= <-]; left; auto].
  pose proof (Hstr v eq_refl) as Hv.
  destruct v as [| | |time| |]; try discriminate Hv. clear Hv.
  destruct (isoparse time) as [qe|e0] eqn:Hqe.
  2:{ intros [= <-]. pose proof (isoparse_raises _ _ Hqe) as Hc.
      destruct e0; try discriminate Hc; left; eauto. }
  destruct (environ w !! "MINUTES") as [MINUTES|] eqn:HMIN;
    [|intros [= <-]; right; split; [cbn; tauto|assumption]].
  destruct (search_digits MINUTES) as [minutes|] eqn:Hmin.
  2:{ intros [= <-]. exists MINUTES. split; [reflexivity|].
      apply search_digits_chars_None. unfold search_digits in Hmin.
      destruct (search_digits_chars (chars MINUTES)); [discriminate|].
      reflexivity. }
  destruct (PyStr.int minutes) as [m|e0] eqn:Hm.
  2:{ intros [= <-]. pose proof (int_raises _ _ Hm) as Hc.
      destruct e0; try discriminate Hc. right; left.
      exists MINUTES, minutes. eauto using int_run_Raise. }
  destruct (add _ qe) as [qs|e0] eqn:Hqs.
  2:{ intros [= <-].
      pose proof (isoparse_valid _ _ Hqe) as Hval.
      pose proof (add_raises _ _ _ Hval Hqs) as Hc.
      destruct e0; try discriminate Hc. right.
      exists time, qe, MINUTES, minutes, m.
      eauto 10 using add_minutes_Raise. }
  rewrite get_temporal_start_datetime_returns.
  destruct (environ w !! "JOB_TYPE") as [JT|] eqn:HJT;
    [|intros [= <-]; right; split; [cbn; tauto|assumption]].
  destruct (environ w !! "JOB_RELEASE") as [JR|] eqn:HJR;
    [|intros [= <-]; right; split; [cbn; tauto|assumption]].
  destruct (environ w !! "JOB_QUEUE") as [JQ|] eqn:HJQ;
    [|intros [= <-]; right; split; [cbn; tauto|assumption]].
  destruct (environ w !! "ENDPOINT") as [EP|] eqn:HEP;
    [|intros [= <-]; right; split; [cbn; tauto|assumption]].
  destruct (environ w !! "DOWNLOAD_JOB_QUEUE") as [DJQ|] eqn:HDJQ;
    [|intros [= <-]; right; split; [cbn; tauto|assumption]].
  destruct (environ w !! "CHUNK_SIZE") as [CS|] eqn:HCS;
    [|intros [= <-]; right; split; [cbn; tauto|assumption]].
  destruct (environ w !! "SMOKE_RUN") as [SR|] eqn:HSR;
    [|intros [= <-]; right; split; [cbn; tauto|assumption]].
  destruct (Distutils.strtobool SR) as [sr|e0] eqn:Hsr.
  2:{ intros [= <-]. pose proof (strtobool_raises _ _ Hsr) as Hc.
      destruct (strtobool_Raise _ _ Hsr).
      destruct e0; try discriminate Hc. right; right.
      exists "SMOKE_RUN", "smoke_run", "--smoke-run", SR.
      split; [cbn; tauto|auto]. }
  destruct (environ w !! "DRY_RUN") as [DR|] eqn:HDR;
    [|intros [= <-]; right; split; [cbn; tauto|assumption]].
  destruct (Distutils.strtobool DR) as [dr|e0] eqn:Hdr.
  2:{ intros [= <-]. pose proof (strtobool_raises _ _ Hdr) as Hc.
      destruct (strtobool_Raise _ _ Hdr).
      destruct e0; try discriminate Hc. right; right.
      exists "DRY_RUN", "dry_run", "--dry-run", DR.
      split; [cbn; tauto|auto]. }
  destruct (environ w !! "NO_SCHEDULE_DOWNLOAD") as [NS|] eqn:HNS;
    [|intros [= <-]; right; split; [cbn; tauto|assumption]].
  destruct (Distutils.strtobool NS) as [ns|e0] eqn:Hns.
  2:{ intros [= <-]. pose proof (strtobool_raises _ _ Hns) as Hc.
      destruct (strtobool_Raise _ _ Hns).
      destruct e0; try discriminate Hc. right; right.
      exists "NO_SCHEDULE_DOWNLOAD", "no_schedule_download",
        "--no-schedule-download", NS.
      split; [cbn; tauto|auto]. }
  destruct (environ w !! "USE_TEMPORAL") as [UT|] eqn:HUT;
    [|intros [= <-]; right; split; [cbn; tauto|assumption]].
  destruct (Distutils.strtobool UT) as [ut|e0] eqn:Hut.
  2:{ intros [= <-]. pose proof (strtobool_raises _ _ Hut) as Hc.
      destruct (strtobool_Raise _ _ Hut).
      destruct e0; try discriminate Hc. right; right.
      exists "USE_TEMPORAL", "use_temporal", "--use-temporal", UT.
      split; [cbn; tauto|auto]. }
  intros H. apply (f_equal snd) in H. rewrite submit_job_sent in H.
  discriminate H.
Qed.

Lemma X4_abort_causes_witness :
  (exists MINUTES,
      environ Examples.world_no_digit !! "MINUTES" = Some MINUTES
      /\ no_digit (chars MINUTES) = true)
  /\ environ Examples.world_unconfigured !! "MOZART_URL" = None.
Proof.
  assert (forall v, Dict.get Examples.event "time" = Some v ->
                    is_PStr v = true) as Hs
      by (intros v [= <-]; reflexivity).
  split.
  - exact (X4_abort_causes Examples.world_no_digit Examples.event
             (AttributeError "'NoneType' object has no attribute 'group'")
             Hs eq_refl).
  - exact (X4_abort_causes Examples.world_unconfigured Examples.event
             (RuntimeError "Need to specify MOZART_URL in environment.")
             Hs eq_refl).
Defined.

(** Two worlds with the same required settings abort alike before the
    request, or both reach the call of [submit_job], with the same values
    but for the two optional parameters. *)
Lemma lambda_handler_agree url url' w w' event sent sent' :
  (forall k, In k REQUIRED -> environ w' !! k = environ w !! k) ->
  (exists e,
      lambda_handler url event w sent = (Raise e, sent)
      /\ lambda_handler url' event w' sent' = (Raise e, sent'))
  \/ (exists p,
         prepares w event p
         /\ prepares w' event
              (with_optional p (temporal_start_of w' (p_query_end p))
                             (environ w' !! "BOUNDING_BOX"))).
Proof.
  intros H.
  assert (environ w' !! "MINUTES" = environ w !! "MINUTES") as E1
      by (apply H; cbn; tauto).
  assert (environ w' !! "JOB_TYPE" = environ w !! "JOB_TYPE") as E2
      by (apply H; cbn; tauto).
  assert (environ w' !! "JOB_RELEASE" = environ w !! "JOB_RELEASE") as E3
      by (apply H; cbn; tauto).
  assert (environ w' !! "JOB_QUEUE" = environ w !! "JOB_QUEUE") as E4
      by (apply H; cbn; tauto).
  assert (environ w' !! "ENDPOINT" = environ w !! "ENDPOINT") as E5
      by (apply H; cbn; tauto).
  assert (environ w' !! "DOWNLOAD_JOB_QUEUE"
          = environ w !! "DOWNLOAD_JOB_QUEUE") as E6
      by (apply H; cbn; tauto).
  assert (environ w' !! "CHUNK_SIZE" = environ w !! "CHUNK_SIZE") as E7
      by (apply H; cbn; tauto).
  assert (environ w' !! "SMOKE_RUN" = environ w !! "SMOKE_RUN") as E8
      by (apply H; cbn; tauto).
  assert (environ w' !! "DRY_RUN" = environ w !! "DRY_RUN") as E9
      by (apply H; cbn; tauto).
  assert (environ w' !! "NO_SCHEDULE_DOWNLOAD"
          = environ w !! "NO_SCHEDULE_DOWNLOAD") as E10
      by (apply H; cbn; tauto).
  assert (environ w' !! "USE_TEMPORAL" = environ w !! "USE_TEMPORAL")
    as E11 by (apply H; cbn; tauto).
  unfold_handler. rewrite E1, E2, E3, E4, E5, E6, E7, E8, E9, E10, E11.
  destruct (Dict.get event "time") as [[| | |time| |]|] eqn:Htime;
    try (left; eexists; split; reflexivity);
    try (left; cbn [len]; destruct (_ <? 4)%nat; eexists; split;
         reflexivity).
  destruct (Dateutil.isoparse time) as [qe|] eqn:Hqe;
    [|left; eexists; split; reflexivity].
  destruct (environ w !! "MINUTES") as [MINUTES|] eqn:HMIN;
    [|left; eexists; split; reflexivity].
  destruct (PyStr.search_digits MINUTES) as [minutes|] eqn:Hmin;
    [|left; eexists; split; reflexivity].
  destruct (PyStr.int minutes) as [m|] eqn:Hm;
    [|left; eexists; split; reflexivity].
  destruct (Dateutil.add _ qe) as [qs|] eqn:Hqs;
    [|left; eexists; split; reflexivity].
  rewrite !get_temporal_start_datetime_returns.
  destruct (environ w !! "JOB_TYPE") as [JT|] eqn:HJT;
    [|left; eexists; split; reflexivity].
  destruct (environ w !! "JOB_RELEASE") as [JR|] eqn:HJR;
    [|left; eexists; split; reflexivity].
  destruct (environ w !! "JOB_QUEUE") as [JQ|] eqn:HJQ;
    [|left; eexists; split; reflexivity].
  destruct (environ w !! "ENDPOINT") as [EP|] eqn:HEP;
    [|left; eexists; split; reflexivity].
  destruct (environ w !! "DOWNLOAD_JOB_QUEUE") as [DJQ|] eqn:HDJQ;
    [|left; eexists; split; reflexivity].
  destruct (environ w !! "CHUNK_SIZE") as [CS|] eqn:HCS;
    [|left; eexists; split; reflexivity].
  destruct (environ w !! "SMOKE_RUN") as [SR|] eqn:HSR;
    [|left; eexists; split; reflexivity].
  destruct (Distutils.strtobool SR) as [sr|] eqn:Hsr;
    [|left; eexists; split; reflexivity].
  destruct (environ w !! "DRY_RUN") as [DR|] eqn:HDR;
    [|left; eexists; split; reflexivity].
  destruct (Distutils.strtobool DR) as [dr|] eqn:Hdr;
    [|left; eexists; split; reflexivity].
  destruct (environ w !! "NO_SCHEDULE_DOWNLOAD") as [NS|] eqn:HNS;
    [|left; eexists; split; reflexivity].
  destruct (Distutils.strtobool NS) as [ns|] eqn:Hns;
    [|left; eexists; split; reflexivity].
  destruct (environ w !! "USE_TEMPORAL") as [UT|] eqn:HUT;
    [|left; eexists; split; reflexivity].
  destruct (Distutils.strtobool UT) as [ut|] eqn:Hut;
    [|left; eexists; split; reflexivity].
  right.
  exists (mk_prepared time qe MINUTES minutes m qs
            (temporal_start_of w qe) (environ w !! "BOUNDING_BOX")
            JT JR JQ EP DJQ CS SR sr DR dr NS ns UT ut).
  split; constructor; cbn; auto; congruence.
Qed.

Lemma temporal_start_of_environ w w' query_end :
  environ w' = environ w ->
  temporal_start_of w' query_end = temporal_start_of w query_end.
Proof.
  intros E.
  unfold temporal_start_of, get_temporal_start_datetime, try_except, bind,
    lift, ret, environ_get_default.
  rewrite E. reflexivity.
Qed.

Lemma with_optional_same w event p :
  prepares w event p ->
  with_optional p (temporal_start_of w (p_query_end p))
                (environ w !! "BOUNDING_BOX") = p.
Proof.
  intros Hp. unfold with_optional.
  rewrite <- (pr_temporal_start _ _ _ Hp), (pr_bounding_box _ _ _ Hp).
  destruct p; reflexivity.
Qed.

Lemma prepares_unique w event p p' :
  prepares w event p -> prepares w event p' -> p = p'.
Proof.
  intros H H'.
  assert (p_time p = p_time p') as E1.
  { pose proof (pr_time _ _ _ H). pose proof (pr_time _ _ _ H').
    congruence. }
  assert (p_query_end p = p_query_end p') as E2.
  { pose proof (pr_query_end _ _ _ H).
    pose proof (pr_query_end _ _ _ H'). congruence. }
  assert (p_MINUTES p = p_MINUTES p') as E3.
  { pose proof (pr_MINUTES _ _ _ H). pose proof (pr_MINUTES _ _ _ H').
    congruence. }
  assert (p_minutes p = p_minutes p') as E4.
  { pose proof (pr_minutes _ _ _ H). pose proof (pr_minutes _ _ _ H').
    congruence. }
  assert (p_m p = p_m p') as E5.
  { pose proof (pr_m _ _ _ H). pose proof (pr_m _ _ _ H'). congruence. }
  assert (p_query_start p = p_query_start p') as E6.
  { pose proof (pr_query_start _ _ _ H).
    pose proof (pr_query_start _ _ _ H'). congruence. }
  assert (p_temporal_start p = p_temporal_start p') as E7.
  { rewrite (pr_temporal_start _ _ _ H), (pr_temporal_start _ _ _ H').
    congruence. }
  assert (p_bounding_box p = p_bounding_box p') as E8.
  { rewrite <- (pr_bounding_box _ _ _ H), <- (pr_bounding_box _ _ _ H').
    reflexivity. }
  assert (p_JOB_TYPE p = p_JOB_TYPE p') as E9.
  { pose proof (pr_JOB_TYPE _ _ _ H). pose proof (pr_JOB_TYPE _ _ _ H').
    congruence. }
  assert (p_JOB_RELEASE p = p_JOB_RELEASE p') as E10.
  { pose proof (pr_JOB_RELEASE _ _ _ H).
    pose proof (pr_JOB_RELEASE _ _ _ H'). congruence. }
  assert (p_JOB_QUEUE p = p_JOB_QUEUE p') as E11.
  { pose proof (pr_JOB_QUEUE _ _ _ H). pose proof (pr_JOB_QUEUE _ _ _ H').
    congruence. }
  assert (p_ENDPOINT p = p_ENDPOINT p') as E12.
  { pose proof (pr_ENDPOINT _ _ _ H). pose proof (pr_ENDPOINT _ _ _ H').
    congruence. }
  assert (p_DOWNLOAD_JOB_QUEUE p = p_DOWNLOAD_JOB_QUEUE p') as E13.
  { pose proof (pr_DOWNLOAD_JOB_QUEUE _ _ _ H).
    pose proof (pr_DOWNLOAD_JOB_QUEUE _ _ _ H'). congruence. }
  assert (p_CHUNK_SIZE p = p_CHUNK_SIZE p') as E14.
  { pose proof (pr_CHUNK_SIZE _ _ _ H).
    pose proof (pr_CHUNK_SIZE _ _ _ H'). congruence. }
  assert (p_SMOKE_RUN p = p_SMOKE_RUN p') as E15.
  { pose proof (pr_SMOKE_RUN _ _ _ H). pose proof (pr_SMOKE_RUN _ _ _ H').
    congruence. }
  assert (p_smoke_run p = p_smoke_run p') as E16.
  { pose proof (pr_smoke_run _ _ _ H). pose proof (pr_smoke_run _ _ _ H').
    congruence. }
  assert (p_DRY_RUN p = p_DRY_RUN p') as E17.
  { pose proof (pr_DRY_RUN _ _ _ H). pose proof (pr_DRY_RUN _ _ _ H').
    congruence. }
  assert (p_dry_run p = p_dry_run p') as E18.
  { pose proof (pr_dry_run _ _ _ H). pose proof (pr_dry_run _ _ _ H').
    congruence. }
  assert (p_NO_SCHEDULE_DOWNLOAD p = p_NO_SCHEDULE_DOWNLOAD p') as E19.
  { pose proof (pr_NO_SCHEDULE_DOWNLOAD _ _ _ H).
    pose proof (pr_NO_SCHEDULE_DOWNLOAD _ _ _ H'). congruence. }
  assert (p_no_schedule_download p = p_no_schedule_download p') as E20.
  { pose proof (pr_no_schedule_download _ _ _ H).
    pose proof (pr_no_schedule_download _ _ _ H'). congruence. }
  assert (p_USE_TEMPORAL p = p_USE_TEMPORAL p') as E21.
  { pose proof (pr_USE_TEMPORAL _ _ _ H).
    pose proof (pr_USE_TEMPORAL _ _ _ H'). congruence. }
  assert (p_use_temporal p = p_use_temporal p') as E22.
  { pose proof (pr_use_temporal _ _ _ H).
    pose proof (pr_use_temporal _ _ _ H'). congruence. }
  clear H H'. destruct p, p'. cbn in *. subst. reflexivity.
Qed.

Lemma form_of_get_other name name' spec jp queue tags prio k :
  k <> "name" ->
  Dict.get (form_of name' spec jp queue tags prio) k
  = Dict.get (form_of name spec jp queue tags prio) k.
Proof.
  intros Hne. unfold form_of. cbn [Dict.get].
  repeat (match goal with
          | |- context [String.eqb k ?x] => destruct (String.eqb k x) eqn:?
          end; [reflexivity|]).
  destruct (String.eqb k "name") eqn:Hn; [|reflexivity].
  apply String.eqb_eq in Hn. congruence.
Qed.

(** X5.  The wall clock and the job service have no part in what is
    asked for: in two worlds with the same environment, an event aborts
    with the same exception before the request, or a request goes out in
    both, and the two differ at most in the [name] field. *)
Theorem X5_clock_only_names w w' event :
  environ w' = environ w ->
  (forall e, run w event = (Raise e, []) ->
             run w' event = (Raise e, []))
  /\ (forall r,
         In r (snd (run w event)) ->
         exists r',
           snd (run w' event) = [r']
           /\ url r' = url r /\ verify r' = verify r
           /\ forall k, k <> "name" ->
                        Dict.get (data r') k = Dict.get (data r) k).
Proof.
  intros E.
  assert (forall k, In k REQUIRED -> environ w' !! k = environ w !! k)
    as Hk by (intros; rewrite E; reflexivity).
  split.
  - intros e He. rewrite run_unfold in *. rewrite E.
    destruct (environ w !! "MOZART_URL") as [u|]; [|exact He].
    destruct (lambda_handler_agree (JOB_SUBMIT_URL_of u)
                (JOB_SUBMIT_URL_of u) w w' event [] [] Hk)
      as [(e' & H1 & H2)|(p & Hp & _)].
    + congruence.
    + rewrite (lambda_handler_prepared _ _ _ _ _ Hp) in He.
      apply (f_equal snd) in He. rewrite submission_sent in He.
      discriminate He.
  - intros r Hr. apply run_sent in Hr as (u & p & Hu & Hp & ->).
    destruct (lambda_handler_agree (JOB_SUBMIT_URL_of u)
                (JOB_SUBMIT_URL_of u) w w' event [] [] Hk)
      as [(e' & H1 & _)|(p0 & Hp0 & Hp')].
    + rewrite (lambda_handler_prepared _ _ _ _ _ Hp) in H1.
      apply (f_equal snd) in H1. rewrite submission_sent in H1.
      discriminate H1.
    + rewrite (temporal_start_of_environ w w' _ E) in Hp'.
      replace (environ w' !! "BOUNDING_BOX")
        with (environ w !! "BOUNDING_BOX") in Hp'
        by (rewrite E; reflexivity).
      rewrite (with_optional_same _ _ _ Hp0) in Hp'.
      assert (p0 = p) as -> by exact (prepares_unique _ _ _ _ Hp0 Hp).
      rewrite <- E in Hu.
      rewrite (run_prepared _ _ _ _ Hu Hp'), submission_sent.
      eexists. split; [reflexivity|]. split; [reflexivity|].
      split; [reflexivity|]. intros k Hne.
      apply form_of_get_other, Hne.
Qed.

Lemma X5_clock_only_names_witness :
  exists r r',
    snd (run Examples.world_ok Examples.event) = [r]
    /\ snd (run world_later Examples.event) = [r']
    /\ Dict.get (data r') "params" = Dict.get (data r) "params"
    /\ Dict.get (data r') "name" <> Dict.get (data r) "name".
Proof.
  assert (exists r, snd (run Examples.world_ok Examples.event) = [r])
    as [r Hr] by (eexists; vm_compute; reflexivity).
  destruct (proj2 (X5_clock_only_names Examples.world_ok world_later
                     Examples.event eq_refl) r) as (r' & Hr' & _ & _ & Hk).
  { rewrite Hr. left. reflexivity. }
  exists r, r'. split; [exact Hr|]. split; [exact Hr'|].
  split; [apply Hk; discriminate|].
  vm_compute in Hr, Hr'. injection Hr as <-. injection Hr' as <-.
  vm_compute. discriminate.
Defined.

Lemma job_params_of_with_optional p temporal_start bounding_box k :
  k <> "temporal_start_datetime" -> k <> "bounding_box" ->
  Dict.get (job_params_of (with_optional p temporal_start bounding_box)) k
  = Dict.get (job_params_of p) k.
Proof.
  intros H1 H2. destruct p. unfold job_params_of, with_optional.
  cbn [Dict.get p_query_start p_query_end p_ENDPOINT p_JOB_RELEASE
         p_DOWNLOAD_JOB_QUEUE p_CHUNK_SIZE p_smoke_run p_dry_run
         p_no_schedule_download p_use_temporal p_temporal_start
         p_bounding_box].
  repeat (match goal with
          | |- context [String.eqb k ?x] => destruct (String.eqb k x) eqn:?
          end; [reflexivity|]).
  destruct (String.eqb k "temporal_start_datetime") eqn:Ha;
    [apply String.eqb_eq in Ha; congruence|].
  destruct (String.eqb k "bounding_box") eqn:Hb;
    [apply String.eqb_eq in Hb; congruence|].
  reflexivity.
Qed.

Lemma fields_get_other (queue prio tags spec a a' b b' k : string) :
  k <> "params" -> k <> "name" ->
  Dict.get [ ("queue", queue); ("priority", prio); ("tags", tags);
             ("type", spec); ("params", a'); ("name", b') ] k
  = Dict.get [ ("queue", queue); ("priority", prio); ("tags", tags);
               ("type", spec); ("params", a); ("name", b) ] k.
Proof.
  intros H1 H2. cbn [Dict.get].
  repeat (match goal with
          | |- context [String.eqb k ?x] => destruct (String.eqb k x) eqn:?
          end; [reflexivity|]).
  destruct (String.eqb k "params") eqn:Ha;
    [apply String.eqb_eq in Ha; congruence|].
  destruct (String.eqb k "name") eqn:Hb;
    [apply String.eqb_eq in Hb; congruence|].
  reflexivity.
Qed.

Lemma job_spec_of_with_optional p temporal_start bounding_box :
  job_spec_of (with_optional p temporal_start bounding_box) = job_spec_of p.
Proof. destruct p. reflexivity. Qed.

Lemma job_name_of_with_optional w p temporal_start bounding_box :
  job_name_of w (with_optional p temporal_start bounding_box)
  = job_name_of w p.
Proof. destruct p. reflexivity. Qed.

(** X6.  The optional settings ([BOUNDING_BOX] and the two temporal
    ones) can neither abort an invocation nor change another parameter.
    With the same required settings an event aborts with the same
    exception before the request, or a request goes out in both worlds,
    to the same URL; the bodies of the two requests read the same but
    for the job name, which shows the clock, and the two job parameters
    [temporal_start_datetime] and [bounding_box]. *)
Theorem X6_optional_settings w w' event :
  (forall k, In k REQUIRED -> environ w' !! k = environ w !! k) ->
  (forall e, run w event = (Raise e, []) ->
             run w' event = (Raise e, []))
  /\ (forall r,
         In r (snd (run w event)) ->
         exists r',
           snd (run w' event) = [r']
           /\ url r' = url r /\ verify r' = verify r
           /\ (forall k, k <> "params" -> k <> "name" ->
                         field r' k = field r k)
           /\ (utcnow w' = utcnow w -> field r' "name" = field r "name")
           /\ (forall k,
                  k <> "temporal_start_datetime" -> k <> "bounding_box" ->
                  param r' k = param r k)).
Proof.
  intros Hk. split.
  - intros e He. rewrite run_unfold in *.
    rewrite (Hk "MOZART_URL") by (cbn; tauto).
    destruct (environ w !! "MOZART_URL") as [u|]; [|exact He].
    destruct (lambda_handler_agree (JOB_SUBMIT_URL_of u)
                (JOB_SUBMIT_URL_of u) w w' event [] [] Hk)
      as [(e' & H1 & H2)|(p & Hp & _)].
    + congruence.
    + rewrite (lambda_handler_prepared _ _ _ _ _ Hp) in He.
      apply (f_equal snd) in He. rewrite submission_sent in He.
      discriminate He.
  - intros r Hr. apply run_sent in Hr as (u & p & Hu & Hp & ->).
    destruct (lambda_handler_agree "" "" w w' event [] [] Hk)
      as [(e' & H1 & _)|(p0 & Hp0 & Hp')].
    + rewrite (lambda_handler_prepared _ _ _ _ _ Hp) in H1.
      apply (f_equal snd) in H1. rewrite submission_sent in H1.
      discriminate H1.
    + assert (p0 = p) as -> by exact (prepares_unique _ _ _ _ Hp0 Hp).
      rewrite <- (Hk "MOZART_URL") in Hu by (cbn; tauto).
      rewrite (run_prepared _ _ _ _ Hu Hp'), submission_sent.
      eexists. split; [reflexivity|].
      split; [reflexivity|]. split; [reflexivity|].
      rewrite job_spec_of_with_optional, job_name_of_with_optional.
      split; [|split].
      * intros k H1 H2. rewrite !field_request_of.
        destruct p. apply fields_get_other; assumption.
      * intros E. rewrite !field_request_of. unfold job_name_of.
        rewrite E. reflexivity.
      * intros k H1 H2. rewrite !param_request_of.
        apply job_params_of_with_optional; assumption.
Qed.

Lemma X6_optional_settings_witness :
  exists r r',
    snd (run Examples.world_ok Examples.event) = [r]
    /\ snd (run world_other_optional Examples.event) = [r']
    /\ param r "bounding_box" = Some (PStr "--bounds=-180,-90,180,90")
    /\ param r' "bounding_box" = Some (PStr "")
    /\ param r' "temporal_start_datetime"
       = Some (PStr "--temporal-start-date=not a date")
    /\ param r "start_datetime"
       = Some (PStr "--start-date=2024-01-01T00:05:00Z")
    /\ param r' "start_datetime" = param r "start_datetime"
    /\ field r' "queue" = field r "queue".
Proof.
  assert (forall k, In k REQUIRED ->
                    environ world_other_optional !! k
                    = environ Examples.world_ok !! k) as Hk.
  { intros k Hin. cbn in Hin.
    repeat (destruct Hin as [<-|Hin]; [vm_compute; reflexivity|]).
    destruct Hin. }
  assert (exists r, snd (run Examples.world_ok Examples.event) = [r])
    as [r Hr] by (eexists; vm_compute; reflexivity).
  destruct (proj2 (X6_optional_settings Examples.world_ok
                     world_other_optional Examples.event Hk) r)
    as (r' & Hr' & _ & _ & Hf & _ & Hg).
  { rewrite Hr. left. reflexivity. }
  exists r, r'. split; [exact Hr|]. split; [exact Hr'|].
  vm_compute in Hr. injection Hr as Hr.
  pose proof Hr' as Hc. vm_compute in Hc. injection Hc as Hc.
  split; [rewrite <- Hr; vm_compute; reflexivity|].
  split; [rewrite <- Hc; vm_compute; reflexivity|].
  split; [rewrite <- Hc; vm_compute; reflexivity|].
  split; [rewrite <- Hr; vm_compute; reflexivity|].
  split; [apply Hg; discriminate|apply Hf; discriminate].
Defined.

(** The prepared values of a request, from the event and [MINUTES]. *)
Lemma prepared_reads w event p time query_end :
  prepares w event p ->
  Dict.get event "time" = Some (PStr time) -> isoparse time = Ok query_end ->
  p_time p = time /\ p_query_end p = query_end.
Proof.
  intros Hp Ht Hq. pose proof (pr_time _ _ _ Hp) as Ht'.
  pose proof (pr_query_end _ _ _ Hp) as Hq'.
  assert (p_time p = time) as E by congruence.
  split; [exact E|]. rewrite E in Hq'. congruence.
Qed.

Lemma prepared_digits w event p MINUTES minutes :
  prepares w event p ->
  environ w !! "MINUTES" = Some MINUTES ->
  search_digits MINUTES = Some minutes ->
  p_minutes p = minutes /\ p_m p = decimal_value (chars minutes).
Proof.
  intros Hp HM Hs.
  pose proof (pr_MINUTES _ _ _ Hp) as HM'.
  pose proof (pr_minutes _ _ _ Hp) as Hs'.
  assert (p_MINUTES p = MINUTES) as E by congruence.
  rewrite E in Hs'.
  assert (p_minutes p = minutes) as E' by congruence.
  split; [exact E'|].
  destruct (prepared_minutes w event p Hp)
    as (_ & g & _ & _ & _ & _ & _ & _ & Hg & Hm & _).
  rewrite <- E', Hg, chars_str. exact Hm.
Qed.

(** X7.  Consecutive windows tile: when a trigger fires exactly one
    window length after the previous one, with the same UTC offset, the
    [start_datetime] of its request carries the text that the
    [end_datetime] of the previous request carries, the rendering of the
    previous trigger time. *)
Theorem X7_windows_tile w w' event event' time time' query_end query_end'
        MINUTES' minutes' r r' :
  Dict.get event "time" = Some (PStr time) ->
  isoparse time = Ok query_end ->
  Dict.get event' "time" = Some (PStr time') ->
  isoparse time' = Ok query_end' ->
  environ w' !! "MINUTES" = Some MINUTES' ->
  search_digits MINUTES' = Some minutes' ->
  tz query_end' = tz query_end ->
  epoch_us query_end'
  = epoch_us query_end + decimal_value (chars minutes') * US_PER_MINUTE ->
  In r (snd (run w event)) -> In r' (snd (run w' event')) ->
  param r "end_datetime"
  = Some (PStr ("--end-date=" +:+ strftime query_end DATETIME_FORMAT))
  /\ param r' "start_datetime"
     = Some (PStr ("--start-date=" +:+ strftime query_end DATETIME_FORMAT)).
Proof.
  intros Ht Hq Ht' Hq' HM Hs Htz He Hr Hr'.
  destruct (run_sent_reads _ _ _ Hr) as (p & Hp & _ & _ & Hpar & _).
  destruct (run_sent_reads _ _ _ Hr') as (p' & Hp' & _ & _ & Hpar' & _).
  destruct (prepared_reads _ _ _ _ _ Hp Ht Hq) as [_ Eq].
  destruct (prepared_reads _ _ _ _ _ Hp' Ht' Hq') as [_ Eq'].
  destruct (prepared_digits _ _ _ _ _ Hp' HM Hs) as [_ Em].
  destruct (prepared_window _ _ _ Hp) as (Ve & _ & _ & _).
  destruct (prepared_window _ _ _ Hp') as (_ & Vs' & Es' & Ts').
  rewrite Eq in Ve. rewrite Eq', Em in Es'. rewrite Eq' in Ts'.
  assert (p_query_start p' = query_end) as E.
  { apply epoch_us_inj; [exact Vs'|exact Ve|lia|congruence]. }
  rewrite Hpar, Hpar'. unfold job_params_of.
  cbn [Dict.get String.eqb Ascii.eqb Bool.eqb].
  rewrite E, Eq. split; reflexivity.
Qed.

Lemma X7_windows_tile_witness :
  exists r r',
    snd (run Examples.world_ok Examples.event) = [r]
    /\ snd (run Examples.world_ok event_next) = [r']
    /\ param r "end_datetime"
       = Some (PStr "--end-date=2024-01-01T00:10:00Z")
    /\ param r' "start_datetime"
       = Some (PStr "--start-date=2024-01-01T00:10:00Z").
Proof.
  assert (exists r, snd (run Examples.world_ok Examples.event) = [r])
    as [r Hr] by (eexists; vm_compute; reflexivity).
  assert (exists r', snd (run Examples.world_ok event_next) = [r'])
    as [r' Hr'] by (eexists; vm_compute; reflexivity).
  exists r, r'. split; [exact Hr|]. split; [exact Hr'|].
  refine (X7_windows_tile Examples.world_ok Examples.world_ok
            Examples.event event_next
            "2024-01-01T00:10:00Z" "2024-01-01T00:15:00Z"
            Examples.query_end
            (mk_datetime 2024 1 1 0 15 0 0 (Some tzutc))
            "5" "5" r r' eq_refl eq_refl eq_refl eq_refl eq_refl eq_refl
            eq_refl _ _ _).
  - vm_compute. reflexivity.
  - rewrite Hr. left. reflexivity.
  - rewrite Hr'. left. reflexivity.
Defined.

(** X8.  A window that would start before 0001-01-01 aborts the
    invocation with [OverflowError] before the request: the handler does
    not clamp the start. *)
Theorem X8_window_out_of_range w event MOZART_URL time query_end MINUTES
        minutes m :
  environ w !! "MOZART_URL" = Some MOZART_URL ->
  Dict.get event "time" = Some (PStr time) ->
  isoparse time = Ok query_end ->
  environ w !! "MINUTES" = Some MINUTES ->
  search_digits MINUTES = Some minutes ->
  PyStr.int minutes = Ok m ->
  in_range (epoch_us query_end - m * US_PER_MINUTE) = false ->
  exists msg, run w event = (Raise (OverflowError msg), []).
Proof.
  intros HU Ht Hqe HM Hmin Hm Hr.
  pose proof (isoparse_valid _ _ Hqe) as Hv.
  assert (is_ok (add (relativedelta_new 0 0 (- m) 0 0) query_end) = false)
    as E.
  { rewrite add_is_ok by exact Hv. rewrite relativedelta_new_us.
    rewrite <- Hr. f_equal. unfold US_PER_MINUTE. lia. }
  destruct (add (relativedelta_new 0 0 (- m) 0 0) query_end)
    as [qs|e] eqn:Ha; [discriminate E|].
  pose proof (add_raises _ _ _ Hv Ha) as Hc.
  destruct e; try discriminate Hc. exists msg.
  rewrite run_unfold, HU. unfold_handler.
  rewrite Ht. cbv beta iota. rewrite Hqe, HM. cbv beta iota.
  rewrite Hmin, Hm, Ha. reflexivity.
Qed.

Lemma X8_window_out_of_range_witness :
  exists msg,
    run world_long_window event_1999 = (Raise (OverflowError msg), []).
Proof.
  apply (X8_window_out_of_range world_long_window event_1999
           "https://mozart.example" "1999-01-01T00:00:00Z"
           (mk_datetime 1999 1 1 0 0 0 0 (Some tzutc))
           "1051920000" "1051920000" 1051920000);
    vm_compute; reflexivity.
Defined.

Lemma epoch_us_floor dt :
  valid_datetime dt ->
  epoch_us dt / 1000000
  = toordinal dt * 86400 + hour dt * 3600 + minute dt * 60 + second dt.
Proof.
  intros (_ & _ & _ & _ & _ & _ & Hus). unfold epoch_us.
  Z.to_euclidean_division_equations. lia.
Qed.

(** Two datetimes show the same six fields exactly when they read the
    same second. *)
Lemma fields_floor a b :
  valid_datetime a -> valid_datetime b ->
  (epoch_us a / 1000000 = epoch_us b / 1000000 <-> fields a = fields b).
Proof.
  intros Va Vb. rewrite !epoch_us_floor by assumption.
  destruct Va as (_ & Hmo & Hd & Hh & Hmi & Hs & _).
  destruct Vb as (_ & Hmo' & Hd' & Hh' & Hmi' & Hs' & _).
  unfold fields, toordinal. split.
  - intros E.
    assert (ymd2ord (year a) (month a) (day a)
            = ymd2ord (year b) (month b) (day b)) as Eo by lia.
    destruct (ymd2ord_inj _ _ _ _ _ _ Hmo Hd Hmo' Hd' Eo) as (-> & -> & ->).
    assert (hour a = hour b) as -> by lia.
    assert (minute a = minute b) as -> by lia.
    assert (second a = second b) as -> by lia.
    reflexivity.
  - intros [= -> -> -> -> -> ->]. reflexivity.
Qed.

Lemma strftime_by_fields a b :
  fields a = fields b ->
  strftime a DATETIME_FORMAT = strftime b DATETIME_FORMAT.
Proof.
  rewrite !strftime_DATETIME_FORMAT. unfold fields.
  intros [= -> -> -> -> -> ->]. reflexivity.
Qed.

Lemma in_range_floor x y :
  x / 1000000 = y / 1000000 -> in_range x = in_range y.
Proof.
  intros E. unfold in_range, MIN_US, MAX_US, MAXORDINAL.
  destruct (Z.leb_spec (86400 * 1000000) x),
    (Z.leb_spec (86400 * 1000000) y),
    (Z.leb_spec x ((3652059 + 1) * 86400 * 1000000 - 1)),
    (Z.leb_spec y ((3652059 + 1) * 86400 * 1000000 - 1));
    try reflexivity; exfalso;
    Z.to_euclidean_division_equations; lia.
Qed.

(** Adding a whole number of seconds to two datetimes that show the same
    fields fails for both, or gives two that show the same fields. *)
Lemma add_by_fields rd a b k :
  valid_datetime a -> valid_datetime b -> fields a = fields b ->
  relativedelta_us rd = k * 1000000 ->
  match add rd a, add rd b with
  | Ok a', Ok b' => fields a' = fields b'
  | Raise _, Raise _ => True
  | _, _ => False
  end.
Proof.
  intros Va Vb F Hk.
  pose proof (proj2 (fields_floor a b Va Vb) F) as Efl.
  assert ((epoch_us a + relativedelta_us rd) / 1000000
          = (epoch_us b + relativedelta_us rd) / 1000000) as E.
  { rewrite Hk, !Z.div_add by lia. lia. }
  pose proof (add_is_ok rd a Va) as Ia. pose proof (add_is_ok rd b Vb) as Ib.
  rewrite (in_range_floor _ _ E) in Ia.
  destruct (add rd a) as [a'|] eqn:Ha, (add rd b) as [b'|] eqn:Hb;
    cbn [is_ok] in *; try congruence; [|exact I].
  destruct (add_Ok _ _ _ Va Ha) as (Ea & _ & Va').
  destruct (add_Ok _ _ _ Vb Hb) as (Eb & _ & Vb').
  apply fields_floor; [assumption..|]. congruence.
Qed.

Lemma temporal_start_of_fields w a b :
  valid_datetime a -> valid_datetime b -> fields a = fields b ->
  temporal_start_of w a = temporal_start_of w b.
Proof.
  intros Va Vb F.
  unfold temporal_start_of, get_temporal_start_datetime, try_except, bind,
    lift, ret, environ_get_default.
  destruct (PyStr.int _) as [d|]; [|reflexivity].
  unfold rsub.
  pose proof (add_by_fields (neg (relativedelta_new d 0 0 0 0)) a b
                (- (d * 86400)) Va Vb F) as H.
  rewrite neg_us, relativedelta_new_us in H.
  specialize (H ltac:(lia)).
  destruct (add _ a) as [a'|], (add _ b) as [b'|];
    try contradiction; [|reflexivity].
  cbn [fst]. apply strftime_by_fields, H.
Qed.

Lemma job_params_by_fields w event event' p p' :
  prepares w event p -> prepares w event' p' ->
  fields (p_query_end p') = fields (p_query_end p) ->
  job_params_of p' = job_params_of p.
Proof.
  intros Hp Hp' F.
  destruct (prepared_window _ _ _ Hp) as (Ve & Vs & Es & _).
  destruct (prepared_window _ _ _ Hp') as (Ve' & Vs' & Es' & _).
  assert (p_m p' = p_m p) as Em.
  { pose proof (pr_MINUTES _ _ _ Hp). pose proof (pr_MINUTES _ _ _ Hp').
    pose proof (pr_minutes _ _ _ Hp). pose proof (pr_minutes _ _ _ Hp').
    pose proof (pr_m _ _ _ Hp). pose proof (pr_m _ _ _ Hp').
    congruence. }
  assert (fields (p_query_start p') = fields (p_query_start p)) as Fs.
  { apply fields_floor; [assumption..|].
    apply (fields_floor _ _ Ve' Ve) in F.
    rewrite Es, Es', Em. unfold US_PER_MINUTE.
    replace (epoch_us (p_query_end p') - p_m p * (60 * 1000000))
      with (epoch_us (p_query_end p') + (- (p_m p * 60)) * 1000000) by lia.
    replace (epoch_us (p_query_end p) - p_m p * (60 * 1000000))
      with (epoch_us (p_query_end p) + (- (p_m p * 60)) * 1000000) by lia.
    rewrite !Z.div_add by lia. lia. }
  assert (p_temporal_start p' = p_temporal_start p) as Et.
  { rewrite (pr_temporal_start _ _ _ Hp), (pr_temporal_start _ _ _ Hp').
    apply temporal_start_of_fields; assumption. }
  unfold job_params_of.
  rewrite (strftime_by_fields _ _ Fs), (strftime_by_fields _ _ F), Et.
  assert (p_bounding_box p' = p_bounding_box p) as ->.
  { rewrite <- (pr_bounding_box _ _ _ Hp), <- (pr_bounding_box _ _ _ Hp').
    reflexivity. }
  assert (p_ENDPOINT p' = p_ENDPOINT p) as ->.
  { pose proof (pr_ENDPOINT _ _ _ Hp). pose proof (pr_ENDPOINT _ _ _ Hp').
    congruence. }
  assert (p_JOB_RELEASE p' = p_JOB_RELEASE p) as ->.
  { pose proof (pr_JOB_RELEASE _ _ _ Hp).
    pose proof (pr_JOB_RELEASE _ _ _ Hp'). congruence. }
  assert (p_DOWNLOAD_JOB_QUEUE p' = p_DOWNLOAD_JOB_QUEUE p) as ->.
  { pose proof (pr_DOWNLOAD_JOB_QUEUE _ _ _ Hp).
    pose proof (pr_DOWNLOAD_JOB_QUEUE _ _ _ Hp'). congruence. }
  assert (p_CHUNK_SIZE p' = p_CHUNK_SIZE p) as ->.
  { pose proof (pr_CHUNK_SIZE _ _ _ Hp).
    pose proof (pr_CHUNK_SIZE _ _ _ Hp'). congruence. }
  assert (p_smoke_run p' = p_smoke_run p) as ->.
  { pose proof (pr_SMOKE_RUN _ _ _ Hp). pose proof (pr_SMOKE_RUN _ _ _ Hp').
    pose proof (pr_smoke_run _ _ _ Hp). pose proof (pr_smoke_run _ _ _ Hp').
    congruence. }
  assert (p_dry_run p' = p_dry_run p) as ->.
  { pose proof (pr_DRY_RUN _ _ _ Hp). pose proof (pr_DRY_RUN _ _ _ Hp').
    pose proof (pr_dry_run _ _ _ Hp). pose proof (pr_dry_run _ _ _ Hp').
    congruence. }
  assert (p_no_schedule_download p' = p_no_schedule_download p) as ->.
  { pose proof (pr_NO_SCHEDULE_DOWNLOAD _ _ _ Hp).
    pose proof (pr_NO_SCHEDULE_DOWNLOAD _ _ _ Hp').
    pose proof (pr_no_schedule_download _ _ _ Hp).
    pose proof (pr_no_schedule_download _ _ _ Hp'). congruence. }
  assert (p_use_temporal p' = p_use_temporal p) as ->.
  { pose proof (pr_USE_TEMPORAL _ _ _ Hp).
    pose proof (pr_USE_TEMPORAL _ _ _ Hp').
    pose proof (pr_use_temporal _ _ _ Hp).
    pose proof (pr_use_temporal _ _ _ Hp'). congruence. }
  reflexivity.
Qed.

Lemma tokens_of_flag v b :
  Distutils.strtobool v = Ok b ->
  is_token TRUE_TOKENS v || is_token FALSE_TOKENS v = true.
Proof.
  intros H. apply strtobool_Ok in H as [_ H].
  destruct (is_token TRUE_TOKENS v); [reflexivity|]. apply H. reflexivity.
Qed.

(** With the same settings, an event whose time shows the same fields
    reaches the submission too. *)
Lemma prepares_by_fields w event event' p time' query_end' :
  prepares w event p ->
  Dict.get event' "time" = Some (PStr time') ->
  isoparse time' = Ok query_end' ->
  fields query_end' = fields (p_query_end p) ->
  exists p', prepares w event' p' /\ p_query_end p' = query_end'.
Proof.
  intros Hp Ht Hq F.
  destruct (prepared_window _ _ _ Hp) as (Ve & Vs & Es & _).
  pose proof (isoparse_valid _ _ Hq) as Ve'.
  assert (in_range (epoch_us query_end' - p_m p * US_PER_MINUTE) = true)
    as Hr.
  { rewrite (in_range_floor _ (epoch_us (p_query_start p))).
    - apply epoch_us_bounds in Vs. unfold in_range.
      apply andb_true_iff. rewrite !Z.leb_le. lia.
    - apply (fields_floor _ _ Ve' Ve) in F.
      rewrite Es. unfold US_PER_MINUTE.
      replace (epoch_us query_end' - p_m p * (60 * 1000000))
        with (epoch_us query_end' + (- (p_m p * 60)) * 1000000) by lia.
      replace (epoch_us (p_query_end p) - p_m p * (60 * 1000000))
        with (epoch_us (p_query_end p) + (- (p_m p * 60)) * 1000000)
        by lia.
      rewrite !Z.div_add by lia. lia. }
  destruct (reaches_submission w event' time' query_end'
              (p_MINUTES p) (p_minutes p) (p_m p)
              (p_JOB_TYPE p) (p_JOB_RELEASE p) (p_JOB_QUEUE p)
              (p_ENDPOINT p) (p_DOWNLOAD_JOB_QUEUE p) (p_CHUNK_SIZE p)
              (p_SMOKE_RUN p) (p_DRY_RUN p) (p_NO_SCHEDULE_DOWNLOAD p)
              (p_USE_TEMPORAL p))
    as (p' & Hp' & Eq & _); try apply Hp; try assumption.
  - cbn [forallb].
    rewrite (tokens_of_flag _ _ (pr_smoke_run _ _ _ Hp)),
      (tokens_of_flag _ _ (pr_dry_run _ _ _ Hp)),
      (tokens_of_flag _ _ (pr_no_schedule_download _ _ _ Hp)),
      (tokens_of_flag _ _ (pr_use_temporal _ _ _ Hp)).
    reflexivity.
  - eauto.
Qed.

(** X9.  The UTC offset and the fraction of a second of the event time
    do not reach the job: the handler renders the fields of the parsed
    time as they stand and appends [Z].  Two events whose times show the
    same date and time of day to the second make the same invocation
    send the same request, whatever their offsets; its [end_datetime]
    is the rendering of either time. *)
Theorem X9_offset_not_converted w event event' time time' query_end
        query_end' r :
  Dict.get event "time" = Some (PStr time) ->
  isoparse time = Ok query_end ->
  Dict.get event' "time" = Some (PStr time') ->
  isoparse time' = Ok query_end' ->
  fields query_end' = fields query_end ->
  In r (snd (run w event)) ->
  snd (run w event') = [r]
  /\ param r "end_datetime"
     = Some (PStr ("--end-date=" +:+ strftime query_end DATETIME_FORMAT))
  /\ strftime query_end' DATETIME_FORMAT
     = strftime query_end DATETIME_FORMAT.
Proof.
  intros Ht Hq Ht' Hq' F Hr.
  apply run_sent in Hr as (u & p & Hu & Hp & ->).
  destruct (prepared_reads _ _ _ _ _ Hp Ht Hq) as [_ Eq].
  rewrite <- Eq in F.
  destruct (prepares_by_fields _ _ _ _ _ _ Hp Ht' Hq' F) as (p' & Hp' & Eq').
  rewrite <- Eq' in F.
  pose proof (job_params_by_fields _ _ _ _ _ Hp Hp' F) as Ej.
  assert (p_minutes p' = p_minutes p) as Em.
  { pose proof (pr_MINUTES _ _ _ Hp). pose proof (pr_MINUTES _ _ _ Hp').
    pose proof (pr_minutes _ _ _ Hp). pose proof (pr_minutes _ _ _ Hp').
    congruence. }
  assert (p_JOB_TYPE p' = p_JOB_TYPE p) as Ejt.
  { pose proof (pr_JOB_TYPE _ _ _ Hp). pose proof (pr_JOB_TYPE _ _ _ Hp').
    congruence. }
  assert (p_JOB_RELEASE p' = p_JOB_RELEASE p) as Ejr.
  { pose proof (pr_JOB_RELEASE _ _ _ Hp).
    pose proof (pr_JOB_RELEASE _ _ _ Hp'). congruence. }
  assert (p_JOB_QUEUE p' = p_JOB_QUEUE p) as Ejq.
  { pose proof (pr_JOB_QUEUE _ _ _ Hp).
    pose proof (pr_JOB_QUEUE _ _ _ Hp'). congruence. }
  split; [|split].
  - rewrite (run_prepared _ _ _ _ Hu Hp'), submission_sent.
    unfold job_name_of, job_spec_of. rewrite Ej, Em, Ejt, Ejr, Ejq.
    reflexivity.
  - rewrite param_request_of, <- Eq. reflexivity.
  - rewrite <- Eq. rewrite <- Eq' at 1. apply strftime_by_fields, F.
Qed.

Lemma X9_offset_not_converted_witness :
  isoparse "2024-01-01T00:10:00.5+05:00"
  = Ok (mk_datetime 2024 1 1 0 10 0 500000 (Some (tzoffset 18000)))
  /\ exists r,
      snd (run Examples.world_ok Examples.event) = [r]
      /\ snd (run Examples.world_ok event_offset) = [r]
      /\ param r "end_datetime"
         = Some (PStr "--end-date=2024-01-01T00:10:00Z").
Proof.
  split; [reflexivity|].
  assert (exists r, snd (run Examples.world_ok Examples.event) = [r])
    as [r Hr] by (eexists; vm_compute; reflexivity).
  exists r. split; [exact Hr|].
  destruct (X9_offset_not_converted Examples.world_ok Examples.event
              event_offset "2024-01-01T00:10:00Z"
              "2024-01-01T00:10:00.5+05:00" Examples.query_end
              (mk_datetime 2024 1 1 0 10 0 500000 (Some (tzoffset 18000)))
              r eq_refl eq_refl eq_refl eq_refl eq_refl)
    as (H1 & H2 & _).
  { rewrite Hr. left. reflexivity. }
  split; [exact H1|exact H2].
Defined.

Lemma digit_ascii c : is_digit c = true -> (ord c <? 128) = true.
Proof. unfold is_digit. intros H. apply andb_prop in H as [_ H]. lia. Qed.

Lemma int_bytes_digits cs :
  cs <> [] -> all_digits cs = true -> (length cs <= 4300)%nat ->
  int_bytes cs = Ok (decimal_value cs).
Proof.
  intros Hne Hd Hl. unfold int_bytes.
  rewrite (int_with_digits is_space_ascii cs);
    [|intros c Hc; apply is_digit_not_space, Hc|exact Hne|exact Hd].
  destruct (MAX_STR_DIGITS <? length cs)%nat eqn:E; [|reflexivity].
  apply Nat.ltb_lt in E. unfold MAX_STR_DIGITS in E. lia.
Qed.

Ltac use_digits :=
  repeat match goal with
    | H : is_digit _ = true |- _ => rewrite H; clear H
    end.

Ltac digits_ok :=
  first [ discriminate
        | cbn [all_digits forallb]; use_digits; reflexivity
        | cbn [length]; lia ].

Ltac read_int :=
  cbn -[int_bytes decimal_value]; rewrite ?firstn_O;
  rewrite int_bytes_digits by digits_ok.

Lemma parse_isodate_common_rendered y1 y2 y3 y4 m1 m2 d1 d2 rest :
  all_digits [y1; y2; y3; y4; m1; m2; d1; d2] = true ->
  parse_isodate_common (date_text y1 y2 y3 y4 m1 m2 d1 d2 ++ rest)
  = Ok (decimal_value [y1; y2; y3; y4], decimal_value [m1; m2],
        decimal_value [d1; d2], 10%nat).
Proof.
  intros H. cbn [all_digits forallb] in H.
  repeat (apply andb_prop in H as [? H]). clear H.
  unfold parse_isodate_common, date_text.
  do 3 read_int. reflexivity.
Qed.

Lemma parse_isodate_rendered y1 y2 y3 y4 m1 m2 d1 d2 rest :
  all_digits [y1; y2; y3; y4; m1; m2; d1; d2] = true ->
  parse_isodate (date_text y1 y2 y3 y4 m1 m2 d1 d2 ++ rest)
  = Ok (decimal_value [y1; y2; y3; y4], decimal_value [m1; m2],
        decimal_value [d1; d2], 10%nat).
Proof.
  intros H. unfold parse_isodate.
  rewrite parse_isodate_common_rendered by exact H. reflexivity.
Qed.

Lemma is_digit_not_tz c :
  is_digit c = true ->
  Ascii.eqb "-" c = false /\ Ascii.eqb "+" c = false
  /\ Ascii.eqb "Z" c = false /\ Ascii.eqb "z" c = false.
Proof.
  intros H. repeat split; apply Ascii.eqb_neq; intros <-; discriminate H.
Qed.

Section Rendered.
Variables h1 h2 n1 n2 s1 s2 : ascii.
Hypothesis Hh1 : is_digit h1 = true.
Hypothesis Hh2 : is_digit h2 = true.
Hypothesis Hn1 : is_digit n1 = true.
Hypothesis Hn2 : is_digit n2 = true.
Hypothesis Hs1 : is_digit s1 = true.
Hypothesis Hs2 : is_digit s2 = true.

(** The four rounds of the loop of [_parse_isotime] on [hh:mm:ssZ]. *)
Lemma loop_hour rest a b c d e :
  isotime_loop (time_text h1 h2 n1 n2 s1 s2) (0 :: rest)
               (mk_isotime a b c d e 0 false)
  = isotime_loop (time_text h1 h2 n1 n2 s1 s2) rest
                 (mk_isotime (decimal_value [h1; h2]) b c d e 2 false).
Proof.
  destruct (is_digit_not_tz h1) as (E1 & E2 & E3 & E4); [assumption|].
  unfold time_text. cbn [isotime_loop].
  cbn -[int_bytes decimal_value isotime_loop Ascii.eqb].
  rewrite E1, E2, E3, E4.
  cbn -[int_bytes decimal_value isotime_loop Ascii.eqb].
  rewrite int_bytes_digits by digits_ok.
  reflexivity.
Qed.

Lemma loop_minute rest a b c d e :
  isotime_loop (time_text h1 h2 n1 n2 s1 s2) (1 :: rest)
               (mk_isotime a b c d e 2 false)
  = isotime_loop (time_text h1 h2 n1 n2 s1 s2) rest
                 (mk_isotime a (decimal_value [n1; n2]) c d e 5 true).
Proof.
  unfold time_text. cbn [isotime_loop].
  cbn -[int_bytes decimal_value isotime_loop].
  rewrite int_bytes_digits by digits_ok.
  reflexivity.
Qed.

Lemma loop_second rest a b c d e :
  isotime_loop (time_text h1 h2 n1 n2 s1 s2) (2 :: rest)
               (mk_isotime a b c d e 5 true)
  = isotime_loop (time_text h1 h2 n1 n2 s1 s2) rest
                 (mk_isotime a b (decimal_value [s1; s2]) d e 8 true).
Proof.
  unfold time_text. cbn [isotime_loop].
  cbn -[int_bytes decimal_value isotime_loop].
  rewrite int_bytes_digits by digits_ok.
  reflexivity.
Qed.

Lemma loop_tz rest a b c d e :
  isotime_loop (time_text h1 h2 n1 n2 s1 s2) (3 :: rest)
               (mk_isotime a b c d e 8 true)
  = Ok (mk_isotime a b c d (Some tzutc) 9 true).
Proof. reflexivity. Qed.

Lemma parse_isotime_rendered :
  decimal_value [h1; h2] <> 24 ->
  parse_isotime (time_text h1 h2 n1 n2 s1 s2)
  = Ok (mk_isotime (decimal_value [h1; h2]) (decimal_value [n1; n2])
                   (decimal_value [s1; s2]) 0 (Some tzutc) 9 true).
Proof.
  intros H24. unfold parse_isotime.
  change (length (time_text h1 h2 n1 n2 s1 s2)) with 9%nat.
  cbn [Nat.ltb Nat.leb].
  rewrite loop_hour, loop_minute, loop_second, loop_tz.
  cbn [rbind it_pos it_hour it_minute it_second it_microsecond Nat.ltb
         Nat.leb].
  apply Z.eqb_neq in H24. rewrite H24. reflexivity.
Qed.

(** [isoparse] on a text of the shape [yyyy-mm-ddThh:mm:ssZ] reads the
    six numbers and builds the datetime, in UTC. *)
Lemma isoparse_rendered y1 y2 y3 y4 m1 m2 d1 d2 :
  all_digits [y1; y2; y3; y4; m1; m2; d1; d2] = true ->
  decimal_value [h1; h2] <> 24 ->
  isoparse (str (date_text y1 y2 y3 y4 m1 m2 d1 d2
                 ++ "T"%char :: time_text h1 h2 n1 n2 s1 s2))
  = datetime_new (decimal_value [y1; y2; y3; y4]) (decimal_value [m1; m2])
                 (decimal_value [d1; d2]) (decimal_value [h1; h2])
                 (decimal_value [n1; n2]) (decimal_value [s1; s2]) 0
                 (Some tzutc).
Proof.
  intros Hd H24. unfold isoparse. rewrite chars_str.
  assert (forallb (fun c => ord c <? 128)
            (date_text y1 y2 y3 y4 m1 m2 d1 d2
             ++ "T"%char :: time_text h1 h2 n1 n2 s1 s2) = true) as ->.
  { pose proof Hd as Hd'. cbn [all_digits forallb] in Hd'.
    repeat (apply andb_prop in Hd' as [? Hd']). clear Hd'.
    unfold date_text, time_text. cbn [app forallb].
    rewrite (digit_ascii y1), (digit_ascii y2), (digit_ascii y3),
      (digit_ascii y4), (digit_ascii m1), (digit_ascii m2),
      (digit_ascii d1), (digit_ascii d2), (digit_ascii h1),
      (digit_ascii h2), (digit_ascii n1), (digit_ascii n2),
      (digit_ascii s1), (digit_ascii s2) by assumption.
    reflexivity. }
  cbn [negb]. rewrite parse_isodate_rendered by exact Hd.
  cbn [rbind]. change (10 + 1)%nat with 11%nat.
  change (drop 11 (date_text y1 y2 y3 y4 m1 m2 d1 d2
                   ++ "T"%char :: time_text h1 h2 n1 n2 s1 s2))
    with (time_text h1 h2 n1 n2 s1 s2).
  change (10 <? length (date_text y1 y2 y3 y4 m1 m2 d1 d2
                        ++ "T"%char :: time_text h1 h2 n1 n2 s1 s2))%nat
    with true.
  cbv iota. rewrite parse_isotime_rendered by exact H24.
  cbn [rbind it_pos it_hour it_minute it_second it_microsecond it_tz].
  apply Z.eqb_neq in H24. rewrite H24. reflexivity.
Qed.

End Rendered.

(** X10.  Rendering with [DATETIME_FORMAT] and parsing with [isoparse]
    round-trip on the six fields: the text of a rendered datetime parses,
    and gives the same date and time of day, with no microseconds, in
    UTC.  (Stated from the year 1000 on, where every platform writes the
    year with four digits.) *)
Theorem X10_render_parse_round_trip dt :
  valid_datetime dt -> 1000 <= year dt ->
  isoparse (strftime dt DATETIME_FORMAT)
  = Ok (mk_datetime (year dt) (month dt) (day dt) (hour dt) (minute dt)
                    (second dt) 0 (Some tzutc)).
Proof.
  intros (Hy & Hmo & Hd & Hh & Hmi & Hs & Hus) Hy4.
  pose proof (days_in_month_le (year dt) (month dt)).
  unfold MINYEAR, MAXYEAR in Hy.
  rewrite strftime_DATETIME_FORMAT_4 by lia.
  assert (decimal_value (zpad 4 (year dt)) = year dt) as Ey
    by (apply decimal_value_zpad; cbn; lia).
  assert (decimal_value (zpad 2 (month dt)) = month dt) as Emo
    by (apply decimal_value_zpad; cbn; lia).
  assert (decimal_value (zpad 2 (day dt)) = day dt) as Ed
    by (apply decimal_value_zpad; cbn; lia).
  assert (decimal_value (zpad 2 (hour dt)) = hour dt) as Eh
    by (apply decimal_value_zpad; cbn; lia).
  assert (decimal_value (zpad 2 (minute dt)) = minute dt) as Emi
    by (apply decimal_value_zpad; cbn; lia).
  assert (decimal_value (zpad 2 (second dt)) = second dt) as Es
    by (apply decimal_value_zpad; cbn; lia).
  cbn [zpad app] in *.
  match goal with
  | |- isoparse (str [?y1; ?y2; ?y3; ?y4; _; ?m1; ?m2; _; ?d1; ?d2; _;
                      ?h1; ?h2; _; ?n1; ?n2; _; ?s1; ?s2; _]) = _ =>
      change (isoparse (str (date_text y1 y2 y3 y4 m1 m2 d1 d2
                             ++ "T"%char :: time_text h1 h2 n1 n2 s1 s2))
              = Ok (mk_datetime (year dt) (month dt) (day dt) (hour dt)
                                (minute dt) (second dt) 0 (Some tzutc)))
  end.
  rewrite isoparse_rendered; try apply mod10_digit.
  - rewrite Ey, Emo, Ed, Eh, Emi, Es.
    apply (datetime_new_valid
             (mk_datetime (year dt) (month dt) (day dt) (hour dt)
                          (minute dt) (second dt) 0 (Some tzutc))).
    unfold valid_datetime, MINYEAR, MAXYEAR. cbn. lia.
  - cbn [all_digits forallb]. rewrite !mod10_digit. reflexivity.
  - rewrite Eh. lia.
Qed.

Lemma X10_render_parse_round_trip_witness :
  strftime (p_query_end prepared_offset) DATETIME_FORMAT
  = "2024-01-01T00:10:00Z"
  /\ isoparse (strftime (p_query_end prepared_offset) DATETIME_FORMAT)
     = Ok Examples.query_end.
Proof.
  split; [reflexivity|].
  refine (X10_render_parse_round_trip (p_query_end prepared_offset) _ _).
  - vm_compute; intuition discriminate.
  - vm_compute; discriminate.
Defined.

(** X11.  No value can add a field to the posted form: in the body of the
    request of [submit_job], whatever the queue, job type, parameters and
    name contain, [&] occurs five times and [=] six times, and every other
    character is a letter, a digit or one of [_.-~+%]. *)
Theorem X11_form_body_six_fields url name spec jp queue tags prio w sent :
  let r := request_of url name spec jp queue tags prio in
  let body := chars (form_body (data r)) in
  snd (submit_job url name spec jp queue tags prio w sent) = sent ++ [r]
  /\ occurrences "&" body = 5%nat
  /\ occurrences "=" body = 6%nat
  /\ forallb (fun c => is_quoted c || Ascii.eqb c "&" || Ascii.eqb c "=")
             body = true.
Proof.
  cbv zeta. split; [apply submit_job_sent|].
  apply (form_body_fields
           (data (request_of url name spec jp queue tags prio))).
Qed.

Lemma chars_append a b : chars (a +:+ b) = chars a ++ chars b.
Proof.
  induction a as [|c a IH]; [reflexivity|].
  change (c :: chars (a +:+ b) = c :: (chars a ++ chars b)).
  rewrite IH. reflexivity.
Qed.

Lemma zpad_inj w n n' :
  0 <= n < 10 ^ Z.of_nat w -> 0 <= n' < 10 ^ Z.of_nat w ->
  zpad w n = zpad w n' -> n = n'.
Proof.
  intros H H' E. rewrite <- (decimal_value_zpad w n H),
    <- (decimal_value_zpad w n' H'), E. reflexivity.
Qed.

Lemma job_stamp_inj a b :
  valid_datetime a -> valid_datetime b ->
  1000 <= year a -> 1000 <= year b ->
  forall ra rb,
  chars (strftime a JOB_NAME_DATETIME_FORMAT) ++ ra
  = chars (strftime b JOB_NAME_DATETIME_FORMAT) ++ rb ->
  fields a = fields b /\ ra = rb.
Proof.
  intros (Hy & Hmo & Hd & Hh & Hmi & Hs & _)
         (Hy' & Hmo' & Hd' & Hh' & Hmi' & Hs' & _) Y Y' ra rb.
  pose proof (days_in_month_le (year a) (month a)).
  pose proof (days_in_month_le (year b) (month b)).
  unfold MINYEAR, MAXYEAR in *.
  rewrite !strftime_JOB_NAME_DATETIME_FORMAT_4, !chars_str by lia.
  cbn [zpad app]. intros E.
  injection E as e1 e2 e3 e4 e5 e6 e7 e8 e9 e10 e11 e12 e13 e14 E.
  split; [|exact E]. unfold fields.
  assert (year a = year b) as ->.
  { apply (zpad_inj 4); [cbn; lia..|]. cbn [zpad app]. congruence. }
  assert (month a = month b) as ->.
  { apply (zpad_inj 2); [cbn; lia..|]. cbn [zpad app]. congruence. }
  assert (day a = day b) as ->.
  { apply (zpad_inj 2); [cbn; lia..|]. cbn [zpad app]. congruence. }
  assert (hour a = hour b) as ->.
  { apply (zpad_inj 2); [cbn; lia..|]. cbn [zpad app]. congruence. }
  assert (minute a = minute b) as ->.
  { apply (zpad_inj 2); [cbn; lia..|]. cbn [zpad app]. congruence. }
  assert (second a = second b) as ->.
  { apply (zpad_inj 2); [cbn; lia..|]. cbn [zpad app]. congruence. }
  reflexivity.
Qed.

Lemma strftime_JOB_NAME_by_fields a b :
  fields a = fields b ->
  strftime a JOB_NAME_DATETIME_FORMAT = strftime b JOB_NAME_DATETIME_FORMAT.
Proof.
  rewrite !strftime_JOB_NAME_DATETIME_FORMAT. unfold fields.
  intros [= -> -> -> -> -> ->]. reflexivity.
Qed.

Lemma job_name_of_inj w w' p p' :
  valid_datetime (utcnow w) -> valid_datetime (utcnow w') ->
  1000 <= year (utcnow w) -> 1000 <= year (utcnow w') ->
  (job_name_of w p = job_name_of w' p'
   <-> fields (utcnow w) = fields (utcnow w')
       /\ p_minutes p = p_minutes p').
Proof.
  intros V V' Y Y'. unfold job_name_of. split.
  - intros E. apply (f_equal chars) in E.
    rewrite !chars_append in E. apply app_inv_head in E.
    apply (job_stamp_inj _ _ V V' Y Y') in E as [F E].
    split; [exact F|].
    apply app_inv_head in E.
    rewrite <- (str_chars (p_minutes p)), <- (str_chars (p_minutes p')), E.
    reflexivity.
  - intros [F ->]. rewrite (strftime_JOB_NAME_by_fields _ _ F). reflexivity.
Qed.

(** X12.  The names of the jobs of two requests are equal exactly when
    the clocks of the two invocations show the same second and the digit
    runs of their [MINUTES] are the same text: neither the event nor any
    other setting enters the name.  (Stated for clocks from the year 1000
    on, where the year is written with four digits.) *)
Theorem X12_job_name_collisions w w' event event' MINUTES MINUTES' r r' :
  environ w !! "MINUTES" = Some MINUTES ->
  environ w' !! "MINUTES" = Some MINUTES' ->
  valid_datetime (utcnow w) -> valid_datetime (utcnow w') ->
  1000 <= year (utcnow w) -> 1000 <= year (utcnow w') ->
  In r (snd (run w event)) -> In r' (snd (run w' event')) ->
  (field r "name" = field r' "name"
   <-> fields (utcnow w) = fields (utcnow w')
       /\ search_digits MINUTES = search_digits MINUTES').
Proof.
  intros HM HM' V V' Y Y' Hr Hr'.
  destruct (run_sent_reads _ _ _ Hr) as (p & Hp & _ & _ & _ & ->).
  destruct (run_sent_reads _ _ _ Hr') as (p' & Hp' & _ & _ & _ & ->).
  pose proof (pr_MINUTES _ _ _ Hp) as E. rewrite HM in E.
  injection E as ->.
  pose proof (pr_MINUTES _ _ _ Hp') as E'. rewrite HM' in E'.
  injection E' as ->.
  rewrite (pr_minutes _ _ _ Hp), (pr_minutes _ _ _ Hp').
  pose proof (job_name_of_inj w w' p p' V V' Y Y') as H.
  split.
  - intros E. apply (inj Some) in E. apply H in E as [F ->].
    split; [exact F|reflexivity].
  - intros [F E]. apply (inj Some) in E. f_equal. apply H.
    split; assumption.
Qed.

Lemma X12_job_name_collisions_witness :
  exists r r',
    snd (run Examples.world_ok Examples.event) = [r]
    /\ snd (run world_unreachable event_next) = [r']
    /\ field r "name"
       = Some "data-subscriber-query-timer-20240101T001007_5"
    /\ field r "name" = field r' "name".
Proof.
  assert (exists r, snd (run Examples.world_ok Examples.event) = [r])
    as [r Hr] by (eexists; vm_compute; reflexivity).
  assert (exists r', snd (run world_unreachable event_next) = [r'])
    as [r' Hr'] by (eexists; vm_compute; reflexivity).
  exists r, r'. split; [exact Hr|]. split; [exact Hr'|].
  split.
  { vm_compute in Hr. injection Hr as <-. vm_compute. reflexivity. }
  refine (proj2 (X12_job_name_collisions Examples.world_ok
                   world_unreachable Examples.event event_next "5" "5"
                   r r' eq_refl eq_refl _ _ _ _ _ _) _).
  - vm_compute; intuition discriminate.
  - vm_compute; intuition discriminate.
  - vm_compute; discriminate.
  - vm_compute; discriminate.
  - rewrite Hr. left. reflexivity.
  - rewrite Hr'. left. reflexivity.
  - split; reflexivity.
Defined.

Lemma temporal_start_of_cases w query_end :
  valid_datetime query_end ->
  let margin :=
    default "" (environ w !! "TEMPORAL_START_DATETIME_MARGIN_DAYS") in
  let literal := default "" (environ w !! "TEMPORAL_START_DATETIME") in
  match PyStr.int margin with
  | Ok d =>
      if in_range (epoch_us query_end - d * US_PER_DAY)
      then exists dt,
          temporal_start_of w query_end = strftime dt DATETIME_FORMAT
          /\ valid_datetime dt
          /\ epoch_us dt = epoch_us query_end - d * US_PER_DAY
          /\ tz dt = tz query_end
      else temporal_start_of w query_end = literal
  | Raise _ => temporal_start_of w query_end = literal
  end.
Proof.
  intros Hv. cbv zeta.
  unfold temporal_start_of, get_temporal_start_datetime, try_except, bind,
    lift, ret, environ_get_default.
  destruct (PyStr.int _) as [d|]; [|reflexivity].
  unfold rsub.
  pose proof (add_is_ok (neg (relativedelta_new d 0 0 0 0)) query_end Hv)
    as E.
  rewrite neg_us, relativedelta_new_us in E.
  replace (epoch_us query_end - d * US_PER_DAY)
    with (epoch_us query_end
          + - (((((d * 24 + 0) * 60 + 0) * 60 + 0) * 1000000) + 0))
    by (unfold US_PER_DAY; lia).
  rewrite <- E.
  destruct (add _ query_end) as [dt|] eqn:Ha; cbn [is_ok fst];
    [|reflexivity].
  destruct (add_Ok _ _ _ Hv Ha) as (Ee & Et & Vd).
  rewrite neg_us, relativedelta_new_us in Ee.
  exists dt. split; [reflexivity|]. split; [exact Vd|].
  split; [exact Ee|exact Et].
Qed.

Lemma strftime_nonempty dt :
  nonempty (strftime dt DATETIME_FORMAT) = true.
Proof.
  rewrite strftime_DATETIME_FORMAT.
  destruct (digits 4 (year dt)); reflexivity.
Qed.

(** X13.  The [temporal_start_datetime] parameter of a request.  A
    margin that is an integer and leads to a representable date always
    yields [--temporal-start-date=] with the rendered date, whatever
    [TEMPORAL_START_DATETIME] holds; otherwise the text of
    [TEMPORAL_START_DATETIME] is passed on as it is, not checked to be a
    date, and the parameter is empty only when that text is empty or
    unset. *)
Theorem X13_temporal_start_parameter w event r :
  In r (snd (run w event)) ->
  let margin :=
    default "" (environ w !! "TEMPORAL_START_DATETIME_MARGIN_DAYS") in
  let literal := default "" (environ w !! "TEMPORAL_START_DATETIME") in
  let from_literal :=
    param r "temporal_start_datetime"
    = Some (PStr (if nonempty literal
                  then "--temporal-start-date=" +:+ literal
                  else "")) in
  exists time query_end,
    Dict.get event "time" = Some (PStr time)
    /\ isoparse time = Ok query_end
    /\ match PyStr.int margin with
       | Ok d =>
           if in_range (epoch_us query_end - d * US_PER_DAY)
           then exists dt,
               valid_datetime dt
               /\ epoch_us dt = epoch_us query_end - d * US_PER_DAY
               /\ tz dt = tz query_end
               /\ param r "temporal_start_datetime"
                  = Some (PStr ("--temporal-start-date="
                                +:+ strftime dt DATETIME_FORMAT))
           else from_literal
       | Raise _ => from_literal
       end.
Proof.
  intros Hr. cbv zeta.
  destruct (run_sent_reads _ _ _ Hr) as (p & Hp & _ & _ & Hpar & _).
  exists (p_time p), (p_query_end p).
  split; [exact (pr_time _ _ _ Hp)|].
  split; [exact (pr_query_end _ _ _ Hp)|].
  destruct (prepared_window _ _ _ Hp) as (Hv & _).
  pose proof (temporal_start_of_cases w (p_query_end p) Hv) as H.
  cbv zeta in H. rewrite <- (pr_temporal_start _ _ _ Hp) in H.
  rewrite Hpar.
  assert (Dict.get (job_params_of p) "temporal_start_datetime"
          = Some (PStr (if nonempty (p_temporal_start p)
                        then "--temporal-start-date="
                             +:+ p_temporal_start p
                        else ""))) as -> by reflexivity.
  destruct (PyStr.int _) as [d|]; [|rewrite H; reflexivity].
  destruct (in_range _); [|rewrite H; reflexivity].
  destruct H as (dt & -> & Vd & Ee & Et).
  exists dt. rewrite strftime_nonempty. auto.
Qed.

Lemma X13_temporal_start_parameter_witness :
  exists r,
    snd (run world_other_optional Examples.event) = [r]
    /\ param r "temporal_start_datetime"
       = Some (PStr "--temporal-start-date=not a date").
Proof.
  assert (exists r, snd (run world_other_optional Examples.event) = [r])
    as [r Hr] by (eexists; vm_compute; reflexivity).
  exists r. split; [exact Hr|].
  destruct (X13_temporal_start_parameter world_other_optional
              Examples.event r) as (time & qe & _ & _ & H).
  { rewrite Hr. left. reflexivity. }
  exact H.
Defined.

(** X14.  The settings reach the job as they are.  In a request that an
    invocation sends, the job type is [job-JOB_TYPE:JOB_RELEASE], the
    queue is [JOB_QUEUE], the tags are the one tag
    [data-subscriber-query-timer], the priority is 0, and the job
    parameters hold [ENDPOINT], [JOB_RELEASE], [DOWNLOAD_JOB_QUEUE] and
    [CHUNK_SIZE] after their option names, none of them parsed or
    checked. *)
Theorem X14_settings_reach_the_job w event r :
  In r (snd (run w event)) ->
  exists JOB_TYPE JOB_RELEASE JOB_QUEUE ENDPOINT DOWNLOAD_JOB_QUEUE
         CHUNK_SIZE job_params,
    environ w !! "JOB_TYPE" = Some JOB_TYPE
    /\ environ w !! "JOB_RELEASE" = Some JOB_RELEASE
    /\ environ w !! "JOB_QUEUE" = Some JOB_QUEUE
    /\ environ w !! "ENDPOINT" = Some ENDPOINT
    /\ environ w !! "DOWNLOAD_JOB_QUEUE" = Some DOWNLOAD_JOB_QUEUE
    /\ environ w !! "CHUNK_SIZE" = Some CHUNK_SIZE
    /\ Dict.get (data r) "type"
       = Some (FStr ("job-" +:+ JOB_TYPE +:+ ":" +:+ JOB_RELEASE))
    /\ Dict.get (data r) "queue" = Some (FStr JOB_QUEUE)
    /\ Dict.get (data r) "tags"
       = Some (FStr (Json.dumps
                       (PList [PStr "data-subscriber-query-timer"])))
    /\ Dict.get (data r) "priority" = Some (FInt 0)
    /\ Dict.get (data r) "params"
       = Some (FStr (Json.dumps (PDict job_params)))
    /\ Dict.get job_params "endpoint"
       = Some (PStr ("--endpoint=" +:+ ENDPOINT))
    /\ Dict.get job_params "download_job_release"
       = Some (PStr ("--release-version=" +:+ JOB_RELEASE))
    /\ Dict.get job_params "download_job_queue"
       = Some (PStr ("--job-queue=" +:+ DOWNLOAD_JOB_QUEUE))
    /\ Dict.get job_params "chunk_size"
       = Some (PStr ("--chunk-size=" +:+ CHUNK_SIZE)).
Proof.
  intros Hr. apply run_sent in Hr as (u & p & _ & Hp & ->).
  exists (p_JOB_TYPE p), (p_JOB_RELEASE p), (p_JOB_QUEUE p),
    (p_ENDPOINT p), (p_DOWNLOAD_JOB_QUEUE p), (p_CHUNK_SIZE p),
    (job_params_of p).
  split; [apply Hp|]. split; [apply Hp|]. split; [apply Hp|].
  split; [apply Hp|]. split; [apply Hp|]. split; [apply Hp|].
  repeat split.
Qed.

Lemma X14_settings_reach_the_job_witness :
  exists r,
    snd (run Examples.world_ok Examples.event) = [r]
    /\ Dict.get (data r) "type"
       = Some (FStr "job-data-subscriber-query:1.0.0")
    /\ Dict.get (data r) "queue" = Some (FStr "factotum-job_worker-small").
Proof.
  assert (exists r, snd (run Examples.world_ok Examples.event) = [r])
    as [r Hr] by (eexists; vm_compute; reflexivity).
  exists r. split; [exact Hr|].
  destruct (X14_settings_reach_the_job Examples.world_ok Examples.event r)
    as (JT & JR & JQ & EP & DJQ & CS & jp & HJT & HJR & HJQ & _ & _ & _
        & Ht & Hq & _).
  { rewrite Hr. left. reflexivity. }
  vm_compute in HJT, HJR, HJQ.
  injection HJT as HJT. injection HJR as HJR. injection HJQ as HJQ.
  subst JT JR JQ. split; [exact Ht|exact Hq].
Defined.

End Properties.
